(** * rdma.sim: the simulated transport of python-rdma

    A shallow embedding of [rdma/sim.py]: the three [struct] codecs, the
    control call of [SimConnection], the port attribute cache of
    [SimEndPort] and the retry/match loop of [SimUMAD].

    Conventions.
    - Byte strings are [list byte]; integers are [Z]; struct integer codes
      are written out at their standard sizes through coqutil's
      little-endian lists, the big-endian layout being the reversed one.
    - A reading of [time.time()] is a binary64 number, as a Python float
      is, and the sum [age + 1] of the cache test is the rounded sum of the
      machine. Readings of [rdma.tools.clock_monotonic()] and the deadlines
      made of them are rationals, in seconds.
    - Sockets and clocks are the environment: what they answer is read from
      a script [Env], indexed by how many times each was asked, and what the
      program does to them is logged in the state. A receive, a poll, the
      making of the sockets and the connect of the data socket can raise
      instead of answering; the script says when. A send hands its
      datagram to the socket and returns.
    - Python exceptions are the [Raise] outcome of a state-and-error monad;
      the unbounded [while True] of [_execute] runs on fuel and [OutOfFuel]
      is its own outcome. *)

From Stdlib Require Import Floats.
From Stdlib Require Import ZArith QArith List Bool Lia String.
From coqutil Require Import Byte Word.LittleEndianList.
Import ListNotations.
Local Open Scope Z_scope.

(** ** Byte strings and the [struct] module *)

Definition bytes : Type := list Init.Byte.byte.

(** Python's [len], as an integer. *)
Definition len (s : bytes) : Z := Z.of_nat (List.length s).

(** [buf[off:off+n]] *)
Definition slice (off n : nat) (buf : bytes) : bytes := firstn n (skipn off buf).

(** The byte order character of a format string. ['='] is the order of the
    host, which the source does not fix. *)
Inductive byteorder : Type := LittleEndian | BigEndian.

Module Struct.

(** An unsigned integer code of [n] bytes (['B'] 1, ['H'] 2, ['L'] 4,
    ['Q'] 8 with standard sizes). Packing a value out of range is a
    [struct.error], here [None]. *)
Definition pack_uint (o : byteorder) (n : nat) (v : Z) : option bytes :=
  if (0 <=? v) && (v <? 2 ^ (Z.of_nat n * 8)) then
    Some (match o with
          | LittleEndian => le_split n v
          | BigEndian => rev (le_split n v)
          end)
  else None.

Definition unpack_uint (o : byteorder) (bs : bytes) : Z :=
  match o with
  | LittleEndian => le_combine bs
  | BigEndian => le_combine (rev bs)
  end.

(** The code ['ns']: the string is cut at [n] bytes or filled with NUL
    bytes up to [n]. *)
Definition pack_s (n : nat) (s : bytes) : bytes :=
  firstn n s ++ repeat Byte.x00 (n - List.length s).

Definition obind {A B : Type} (x : option A) (f : A -> option B) : option B :=
  match x with Some a => f a | None => None end.

End Struct.

Notation "'do' x <- c1 ; c2" := (Struct.obind c1 (fun x => c2))
  (at level 10, x name, c1 at level 100, c2 at level 200).

Definition SIM_MAGIC : Z := 0xdeadbeef.
Definition SIM_CTL_ERROR : Z := 0.
Definition SIM_CTL_CONNECT : Z := 1.
Definition SIM_CTL_DISCONNECT : Z := 2.
Definition SIM_CTL_GET_PORT : Z := 3.
Definition SIM_CTL_GET_VENDOR : Z := 4.
Definition SIM_CTL_GET_GID : Z := 5.
Definition SIM_CTL_GET_GUID : Z := 6.
Definition SIM_CTL_GET_NODEINFO : Z := 7.
Definition SIM_CTL_GET_PORTINFO : Z := 8.
Definition SIM_CTL_SET_ISSM : Z := 9.
Definition SIM_CTL_GET_PKEYS : Z := 10.

(** [_struct_ctl = struct.Struct('=LLLL64s')] *)
Module struct_ctl.
Definition size : nat := 80.

Definition pack (o : byteorder) (magic client_id type length : Z) (data : bytes)
  : option bytes :=
  do m <- Struct.pack_uint o 4 magic;
  do c <- Struct.pack_uint o 4 client_id;
  do t <- Struct.pack_uint o 4 type;
  do l <- Struct.pack_uint o 4 length;
  Some (m ++ c ++ t ++ l ++ Struct.pack_s 64 data).

Definition unpack (o : byteorder) (buf : bytes) : option (Z * Z * Z * Z * bytes) :=
  if Nat.eqb (List.length buf) size then
    Some (Struct.unpack_uint o (slice 0 4 buf),
          Struct.unpack_uint o (slice 4 4 buf),
          Struct.unpack_uint o (slice 8 4 buf),
          Struct.unpack_uint o (slice 12 4 buf),
          slice 16 64 buf)
  else None.
End struct_ctl.

(** [_struct_info = struct.Struct('=LLL32s')] *)
Module struct_info.
Definition size : nat := 44.

Definition pack (o : byteorder) (id qp issm : Z) (nodeid : bytes) : option bytes :=
  do i <- Struct.pack_uint o 4 id;
  do q <- Struct.pack_uint o 4 qp;
  do s <- Struct.pack_uint o 4 issm;
  Some (i ++ q ++ s ++ Struct.pack_s 32 nodeid).

Definition unpack (o : byteorder) (buf : bytes) : option (Z * Z * Z * bytes) :=
  if Nat.eqb (List.length buf) size then
    Some (Struct.unpack_uint o (slice 0 4 buf),
          Struct.unpack_uint o (slice 4 4 buf),
          Struct.unpack_uint o (slice 8 4 buf),
          slice 12 32 buf)
  else None.
End struct_info.

(** [_struct_request = struct.Struct('>HHLLLQ 256s')] *)
Module struct_request.
Definition size : nat := 280.

Definition pack (dlid slid dqpn sqpn status length : Z) (pkt : bytes) : option bytes :=
  do d <- Struct.pack_uint BigEndian 2 dlid;
  do s <- Struct.pack_uint BigEndian 2 slid;
  do dq <- Struct.pack_uint BigEndian 4 dqpn;
  do sq <- Struct.pack_uint BigEndian 4 sqpn;
  do st <- Struct.pack_uint BigEndian 4 status;
  do l <- Struct.pack_uint BigEndian 8 length;
  Some (d ++ s ++ dq ++ sq ++ st ++ l ++ Struct.pack_s 256 pkt).

Definition unpack (buf : bytes) : option (Z * Z * Z * Z * Z * Z * bytes) :=
  if Nat.eqb (List.length buf) size then
    Some (Struct.unpack_uint BigEndian (slice 0 2 buf),
          Struct.unpack_uint BigEndian (slice 2 2 buf),
          Struct.unpack_uint BigEndian (slice 4 4 buf),
          Struct.unpack_uint BigEndian (slice 8 4 buf),
          Struct.unpack_uint BigEndian (slice 12 4 buf),
          Struct.unpack_uint BigEndian (slice 16 8 buf),
          slice 24 256 buf)
  else None.
End struct_request.

(** ** What lies outside [rdma/sim.py] *)

(** The attributes of [IBA.SMPPortInfo] that the port properties read. *)
Module SMPPortInfo.
Record t : Type := mk {
  LID : Z;
  LMC : Z;
  portState : Z;
  portPhysicalState : Z;
  linkWidthActive : Z;
  linkSpeedActive : Z;
  capabilityMask : Z;
  masterSMLID : Z;
  masterSMSL : Z;
  GIDPrefix : Z
}.

(** The attribute names passed to [SimEndPort._get]. *)
Inductive attr : Type :=
| a_LID | a_LMC | a_portState | a_portPhysicalState | a_linkWidthActive
| a_linkSpeedActive | a_capabilityMask | a_masterSMLID | a_masterSMSL
| a_GIDPrefix.

Definition getattr (i : t) (f : attr) : Z :=
  match f with
  | a_LID => LID i
  | a_LMC => LMC i
  | a_portState => portState i
  | a_portPhysicalState => portPhysicalState i
  | a_linkWidthActive => linkWidthActive i
  | a_linkSpeedActive => linkSpeedActive i
  | a_capabilityMask => capabilityMask i
  | a_masterSMLID => masterSMLID i
  | a_masterSMSL => masterSMSL i
  | a_GIDPrefix => GIDPrefix i
  end.
End SMPPortInfo.

(** Modelled from the spec: [IBA.GUID] is not in src. A GUID is the 64-bit
    number whose 8 bytes, in network order, are the "device's 8-byte GUID";
    [pack_into] copies these 8 bytes to the start of the buffer. *)
Module GUID.
Definition t : Type := Z.
Definition to_bytes (g : t) : bytes := rev (le_split 8 g).
Definition pack_into (g : t) (buf : bytes) : bytes := to_bytes g ++ skipn 8 buf.
End GUID.

(** Modelled from the spec: [IBA.GID] is not in src. A global identifier
    combines a prefix with an 8-byte interface identifier. *)
Module GID.
Record t : Type := mk { prefix : Z; guid : bytes }.
End GID.

(** The attributes of [IBA.SMPNodeInfo] that [SimDevice] reads. *)
Module SMPNodeInfo.
Record t : Type := mk {
  nodeType : Z;
  numPorts : Z;
  systemImageGUID : GUID.t;
  nodeGUID : GUID.t;
  deviceID : Z;
  revision : Z
}.
End SMPNodeInfo.

(** The attributes of [rdma.path.IBPath] that the source reads or writes.
    [DQPN] and [SQPN] are the attributes assigned by [SimUMAD.recvfrom];
    [dqpn] and [sqpn] are the ones read by [SimUMAD.sendto] and given to the
    constructor by [SimEndPort.sa_path]. An attribute that an instance may
    lack is an [option]. *)
Module IBPath.
Record t : Type := mk {
  end_port : Z;
  DLID : Z;
  SLID : Z;
  SL : Z;
  dqpn : Z;
  sqpn : Z;
  qkey : Z;
  pkey_index : Z;
  packet_life_time : Z;
  retries : Z;
  DQPN : option Z;
  SQPN : option Z
}.

Definition set_DLID (v : Z) (p : t) : t :=
  mk (end_port p) v (SLID p) (SL p) (dqpn p) (sqpn p) (qkey p) (pkey_index p)
     (packet_life_time p) (retries p) (DQPN p) (SQPN p).
Definition set_SLID (v : Z) (p : t) : t :=
  mk (end_port p) (DLID p) v (SL p) (dqpn p) (sqpn p) (qkey p) (pkey_index p)
     (packet_life_time p) (retries p) (DQPN p) (SQPN p).
Definition set_DQPN (v : Z) (p : t) : t :=
  mk (end_port p) (DLID p) (SLID p) (SL p) (dqpn p) (sqpn p) (qkey p) (pkey_index p)
     (packet_life_time p) (retries p) (Some v) (SQPN p).
Definition set_SQPN (v : Z) (p : t) : t :=
  mk (end_port p) (DLID p) (SLID p) (SL p) (dqpn p) (sqpn p) (qkey p) (pkey_index p)
     (packet_life_time p) (retries p) (DQPN p) (Some v).
End IBPath.

(** Code and constants of the package that [rdma/sim.py] imports and that
    are not in src: they are parameters of the development. *)
Class Externals : Type := {
  (** the byte order of the host, for the ['='] formats and for ['B'] *)
  host_order : byteorder;
  (** [rdma.IBA] *)
  PKEY_DEFAULT : Z;
  PKEY_PARTIAL_DEFAULT : Z;
  IB_DEFAULT_QP1_QKEY : Z;
  GID_DEFAULT_PREFIX : Z;
  NODE_SWITCH : Z;
  (** [IBA.SMPPortInfo()] and its [unpack_from], which sets every attribute
      from the buffer *)
  SMPPortInfo_new : SMPPortInfo.t;
  SMPPortInfo_unpack_from : bytes -> SMPPortInfo.t;
  SMPNodeInfo_unpack_from : bytes -> SMPNodeInfo.t;
  (** [rdma.path]: [IBPath(end_port)] and the [mad_timeout] property *)
  IBPath_new : Z -> IBPath.t;
  mad_timeout : IBPath.t -> Q;
  (** [rdma.madtransactor.MADTransactor]: the match keys and their [==] *)
  Key : Type;
  Key_eqb : Key -> Key -> bool;
  _get_reply_match_key : bytes -> Key;
  _get_match_key : bytes -> Key
}.

(** [rdma.madtransactor.TRACE_UNEXPECTED], the one classification used. *)
Inductive trace_kind : Type := TRACE_UNEXPECTED.

(** ** The environment and the state *)

(** What [poll] raises when it does not answer: [OverflowError] for a
    timeout that does not fit a C [int], [select.error] with its errno when
    the system call fails. *)
Inductive poll_failure : Type :=
| poll_overflow
| poll_errno (errno : Z).

(** What the sockets and clocks answer, by how many times they were asked.
    An error is given by its errno. *)
Record Env : Type := {
  SIM_SERVER_PORT : Z;
  (** the [socket.error] of the first call that fails among the name
      lookup, the making and binding of the two sockets and the connect of
      the control socket, if one does *)
  setup_error : option Z;
  (** [self._pkt_sock.getsockname()[1]] after the bind *)
  pkt_local_port : Z;
  (** the [socket.error] of the connect of the data socket to a port in
      range, if it fails *)
  pkt_connect_error : option Z;
  (** [os.urandom(4)], as a number *)
  urandom4 : Z;
  (** [time.time()] *)
  wall_clock : nat -> float;
  (** [rdma.tools.clock_monotonic()] *)
  mono_clock : nat -> Q;
  (** the datagrams that arrive on the control socket *)
  ctl_reply : nat -> bytes;
  (** the [socket.error] that a receive on the control socket raises
      instead of returning its datagram, if it does *)
  ctl_recv_error : nat -> option Z;
  (** whether [poll] with this timeout, in milliseconds, reports the data
      socket readable *)
  pkt_ready : nat -> Q -> bool;
  (** what [poll] raises instead of answering, if it does *)
  pkt_poll_error : nat -> Q -> option poll_failure;
  (** the datagrams that arrive on the data socket *)
  pkt_data : nat -> bytes;
  (** the [socket.error] that a receive on the data socket raises instead
      of returning its datagram, if it does *)
  pkt_recv_error : nat -> option Z
}.

(** One call of a trace function. *)
Record TraceCall : Type := {
  tc_hook : nat;
  tc_kind : trace_kind;
  tc_path : IBPath.t;
  tc_ret : bytes * IBPath.t
}.

(** What the program did to the sockets and clocks. *)
Record Net : Type := mkNet {
  wall_reads : nat;
  mono_reads : nat;
  ctl_sent : list bytes;
  ctl_recvs : nat;
  pkt_sent : list bytes;
  pkt_polls : nat;
  pkt_recvs : nat;
  traced : list TraceCall
}.

(** The attributes of a [SimDevice] object, [end_ports] apart. *)
Record SimDevice_t : Type := mkDevice {
  name : string;
  node_info : SMPNodeInfo.t;
  fw_ver : Z;
  node_desc : string
}.

(** [def node_guid(self)] of [SimDevice] *)
Definition node_guid (d : SimDevice_t) : GUID.t := SMPNodeInfo.nodeGUID (node_info d).

(** The attributes of a [SimEndPort] object. *)
Record SimEndPort_t : Type := mkPort {
  parent : SimDevice_t;
  port_id : Z;
  _port_info : SMPPortInfo.t;
  _port_info_age : float;
  pkeys : list Z;
  _gids : option (list GID.t);
  _cached_subnet_timeout : option Z;
  _cached_sa_path : option IBPath.t
}.

(** The attributes of a [SimUMAD] object; [trace_func] names the installed
    callable, if any. *)
Record SimUMAD_t : Type := mkUMAD {
  end_port : Z;
  _tid : Z;
  trace_func : option nat
}.

(** The state: the log of the environment, the session [conn], and the port
    and transactor objects the methods below are called on. *)
Record State : Type := mkState {
  net : Net;
  _client_id : Z;
  pkt_peer : option Z;
  port : SimEndPort_t;
  umad : SimUMAD_t
}.

Definition with_net (f : Net -> Net) (s : State) : State :=
  mkState (f (net s)) (_client_id s) (pkt_peer s) (port s) (umad s).
Definition with_client_id (v : Z) (s : State) : State :=
  mkState (net s) v (pkt_peer s) (port s) (umad s).
Definition with_pkt_peer (v : Z) (s : State) : State :=
  mkState (net s) (_client_id s) (Some v) (port s) (umad s).
Definition with_port (f : SimEndPort_t -> SimEndPort_t) (s : State) : State :=
  mkState (net s) (_client_id s) (pkt_peer s) (f (port s)) (umad s).
Definition with_umad (f : SimUMAD_t -> SimUMAD_t) (s : State) : State :=
  mkState (net s) (_client_id s) (pkt_peer s) (port s) (f (umad s)).

(** ** The monad: state, exceptions, fuel *)

Inductive exn : Type :=
| StructError                (* struct.error *)
| ValueError                 (* tuple.index, bytearray item assignment *)
| IndexError
| RDMAError (msg : string)   (* rdma.RDMAError *)
| SocketError (errno : Z)    (* socket.error, socket.gaierror *)
| SelectError (errno : Z)    (* select.error *)
| OverflowError.

(** The exception of a failed poll. *)
Definition poll_exn (f : poll_failure) : exn :=
  match f with
  | poll_overflow => OverflowError
  | poll_errno e => SelectError e
  end.

Inductive result (A : Type) : Type :=
| Ok (a : A)
| Raise (e : exn)
| OutOfFuel.
Arguments Ok {A} a.
Arguments Raise {A} e.
Arguments OutOfFuel {A}.

Definition M (A : Type) : Type := State -> result A * State.

Definition ret {A : Type} (a : A) : M A := fun s => (Ok a, s).
Definition raise {A : Type} (e : exn) : M A := fun s => (Raise e, s).
Definition bind {A B : Type} (c : M A) (k : A -> M B) : M B :=
  fun s => match c s with
           | (Ok a, s') => k a s'
           | (Raise e, s') => (Raise e, s')
           | (OutOfFuel, s') => (OutOfFuel, s')
           end.
Definition gets {A : Type} (f : State -> A) : M A := fun s => (Ok (f s), s).
Definition modify (f : State -> State) : M unit := fun s => (Ok tt, f s).

(** [try: c except ValueError: h] *)
Definition except_ValueError {A : Type} (c h : M A) : M A :=
  fun s => match c s with
           | (Raise ValueError, s') => h s'
           | r => r
           end.

(** A [struct] call: [None] is [struct.error]. *)
Definition struct_call {A : Type} (x : option A) : M A :=
  match x with Some a => ret a | None => raise StructError end.

Notation "x <- c1 ;; c2" := (bind c1 (fun x => c2))
  (at level 61, c1 at next level, right associativity).
Notation "c1 ;;; c2" := (bind c1 (fun _ => c2))
  (at level 61, right associativity).

(** ** Sockets and clocks *)

Section Primitives.
Context (env : Env).

(** [time.time()] *)
Definition time_time : M float := fun s =>
  (Ok (wall_clock env (wall_reads (net s))),
   with_net (fun n => mkNet (S (wall_reads n)) (mono_reads n) (ctl_sent n) (ctl_recvs n)
                            (pkt_sent n) (pkt_polls n) (pkt_recvs n) (traced n)) s).

(** [rdma.tools.clock_monotonic()] *)
Definition clock_monotonic : M Q := fun s =>
  (Ok (mono_clock env (mono_reads (net s))),
   with_net (fun n => mkNet (wall_reads n) (S (mono_reads n)) (ctl_sent n) (ctl_recvs n)
                            (pkt_sent n) (pkt_polls n) (pkt_recvs n) (traced n)) s).

(** [conn._ctl_sock.send(msg)] *)
Definition ctl_sock_send (msg : bytes) : M unit :=
  modify (with_net (fun n => mkNet (wall_reads n) (mono_reads n) (ctl_sent n ++ [msg])
                                   (ctl_recvs n) (pkt_sent n) (pkt_polls n) (pkt_recvs n)
                                   (traced n))).

(** [conn._ctl_sock.recv(bufsize)]: one datagram, cut at [bufsize] bytes,
    or the error of the socket. *)
Definition ctl_sock_recv (bufsize : nat) : M bytes := fun s =>
  (match ctl_recv_error env (ctl_recvs (net s)) with
   | Some e => Raise (SocketError e)
   | None => Ok (firstn bufsize (ctl_reply env (ctl_recvs (net s))))
   end,
   with_net (fun n => mkNet (wall_reads n) (mono_reads n) (ctl_sent n) (S (ctl_recvs n))
                            (pkt_sent n) (pkt_polls n) (pkt_recvs n) (traced n)) s).

(** [conn._pkt_sock.send(req)] *)
Definition pkt_sock_send (req : bytes) : M unit :=
  modify (with_net (fun n => mkNet (wall_reads n) (mono_reads n) (ctl_sent n) (ctl_recvs n)
                                   (pkt_sent n ++ [req]) (pkt_polls n) (pkt_recvs n)
                                   (traced n))).

(** [self._poll.poll(ms)], as the truth value of the list it returns, or
    what it raises. *)
Definition poll_poll (ms : Q) : M bool := fun s =>
  (match pkt_poll_error env (pkt_polls (net s)) ms with
   | Some f => Raise (poll_exn f)
   | None => Ok (pkt_ready env (pkt_polls (net s)) ms)
   end,
   with_net (fun n => mkNet (wall_reads n) (mono_reads n) (ctl_sent n) (ctl_recvs n)
                            (pkt_sent n) (S (pkt_polls n)) (pkt_recvs n) (traced n)) s).

(** [conn._pkt_sock.recv(bufsize)], or the error of the socket. *)
Definition pkt_sock_recv (bufsize : nat) : M bytes := fun s =>
  (match pkt_recv_error env (pkt_recvs (net s)) with
   | Some e => Raise (SocketError e)
   | None => Ok (firstn bufsize (pkt_data env (pkt_recvs (net s))))
   end,
   with_net (fun n => mkNet (wall_reads n) (mono_reads n) (ctl_sent n) (ctl_recvs n)
                            (pkt_sent n) (pkt_polls n) (S (pkt_recvs n)) (traced n)) s).

(** Lines 44 to 53 of [SimConnection.__init__]: the name lookup, the two
    sockets, their binds and the connect of the control socket. *)
Definition socket_setup : M unit :=
  match setup_error env with
  | Some e => raise (SocketError e)
  | None => ret tt
  end.

(** [self._pkt_sock.connect((addr, port))]: a port outside [0, 65535] is an
    [OverflowError] of the address conversion. *)
Definition pkt_sock_connect (p : Z) : M unit :=
  if (0 <=? p) && (p <=? 65535) then
    match pkt_connect_error env with
    | Some e => raise (SocketError e)
    | None => modify (with_pkt_peer p)
    end
  else raise OverflowError.

(** A call of the trace function [hook]. *)
Definition call_trace_func (hook : nat) (kind : trace_kind) (path : IBPath.t)
  (r : bytes * IBPath.t) : M unit :=
  modify (with_net (fun n => mkNet (wall_reads n) (mono_reads n) (ctl_sent n) (ctl_recvs n)
                                   (pkt_sent n) (pkt_polls n) (pkt_recvs n)
                                   (traced n ++ [Build_TraceCall hook kind path r]))).

End Primitives.

(** ** class SimConnection *)

Module SimConnection.
Section WithEnv.
Context {X : Externals} (env : Env).

(** [def _ctl(self, type, data=None)]; the default is passed as [[]]. *)
Definition _ctl (type : Z) (data : bytes) : M (Z * Z * Z * Z * bytes) :=
  cid <- gets _client_id ;;
  msg <- struct_call (struct_ctl.pack host_order SIM_MAGIC cid type (len data) data) ;;
  ctl_sock_send msg ;;;
  resp <- ctl_sock_recv env struct_ctl.size ;;
  struct_call (struct_ctl.unpack host_order resp).

(** [def __init__(self, nodeid=None, qp=0, issm=0)] *)
Definition __init__ (nodeid : bytes) (qp issm : Z) : M unit :=
  socket_setup env ;;;
  modify (with_client_id (pkt_local_port env)) ;;;
  cid <- gets _client_id ;;
  payload <- struct_call (struct_info.pack host_order cid qp issm nodeid) ;;
  resp <- _ctl SIM_CTL_CONNECT payload ;;
  info <- struct_call (struct_info.unpack host_order
                         (firstn struct_info.size (snd resp))) ;;
  let '(id, _, _, _) := info in
  modify (with_client_id id) ;;;
  cid <- gets _client_id ;;
  pkt_sock_connect env (SIM_SERVER_PORT env + cid + 1).

(** [def __del__(self)] *)
Definition __del__ : M (Z * Z * Z * Z * bytes) := _ctl SIM_CTL_DISCONNECT [].

End WithEnv.
End SimConnection.

(** ** class SimEndPort *)

Module SimEndPort.
Section WithEnv.
Context {X : Externals} (env : Env).

(** [def __init__(self,parent,port_id)] *)
Definition __init__ (parent : SimDevice_t) (port_id : Z) : SimEndPort_t :=
  mkPort parent port_id SMPPortInfo_new 0%float [0xFFFF] None None None.

Definition set_port_info (info : SMPPortInfo.t) (age : float) (p : SimEndPort_t)
  : SimEndPort_t :=
  mkPort (parent p) (port_id p) info age (pkeys p) (_gids p)
         (_cached_subnet_timeout p) (_cached_sa_path p).
Definition set_gids (g : list GID.t) (p : SimEndPort_t) : SimEndPort_t :=
  mkPort (parent p) (port_id p) (_port_info p) (_port_info_age p) (pkeys p) (Some g)
         (_cached_subnet_timeout p) (_cached_sa_path p).
Definition set_cached_sa_path (path : IBPath.t) (p : SimEndPort_t) : SimEndPort_t :=
  mkPort (parent p) (port_id p) (_port_info p) (_port_info_age p) (pkeys p) (_gids p)
         (_cached_subnet_timeout p) (Some path).

(** [now > self._port_info_age + 1], on binary64 numbers: the sum is
    rounded to the nearest one before it is compared. *)
Definition stale (now age : float) : bool :=
  PrimFloat.ltb (PrimFloat.add age 1%float) now.

(** [def _get(self, field)] *)
Definition _get (field : SMPPortInfo.attr) : M Z :=
  now <- time_time env ;;
  age <- gets (fun s => _port_info_age (port s)) ;;
  (if stale now age then
     pid <- gets (fun s => port_id (port s)) ;;
     payload <- struct_call (Struct.pack_uint host_order 1 pid) ;;
     info <- SimConnection._ctl env SIM_CTL_GET_PORTINFO payload ;;
     modify (with_port (set_port_info (SMPPortInfo_unpack_from (snd info)) now))
   else ret tt) ;;;
  info <- gets (fun s => _port_info (port s)) ;;
  ret (SMPPortInfo.getattr info field).

Definition lid : M Z := _get SMPPortInfo.a_LID.
Definition lmc : M Z := _get SMPPortInfo.a_LMC.
Definition state : M Z := _get SMPPortInfo.a_portState.
Definition phys_state : M Z := _get SMPPortInfo.a_portPhysicalState.
Definition cap_mask : M Z := _get SMPPortInfo.a_capabilityMask.
Definition sm_lid : M Z := _get SMPPortInfo.a_masterSMLID.
Definition sm_sl : M Z := _get SMPPortInfo.a_masterSMSL.

Definition widths_get (w : Z) : string :=
  if w =? 1 then "1X" else if w =? 2 then "4X" else if w =? 4 then "8X"
  else if w =? 8 then "12X" else "??".
Definition speeds_get (s : Z) : string :=
  if s =? 1 then "2.5 Gb/sec" else if s =? 2 then "5 Gb/sec"
  else if s =? 4 then "10 Gb/sec" else "??".

Definition rate : M string :=
  w <- _get SMPPortInfo.a_linkWidthActive ;;
  s <- _get SMPPortInfo.a_linkSpeedActive ;;
  ret (widths_get w ++ " (" ++ speeds_get s ++ ")")%string.

(** [guid[i] = v] on a bytearray *)
Definition bytearray_setitem (b : bytes) (i : nat) (v : Z) : M bytes :=
  if Nat.ltb i (List.length b) then
    if (0 <=? v) && (v <? 256) then
      ret (firstn i b ++ [byte.of_Z v] ++ skipn (S i) b)
    else raise ValueError
  else raise IndexError.

(** [def gids(self)] *)
Definition gids : M (list GID.t) :=
  memo <- gets (fun s => _gids (port s)) ;;
  match memo with
  | Some g => ret g
  | None =>
      prefix <- _get SMPPortInfo.a_GIDPrefix ;;
      self <- gets port ;;
      let guid := repeat Byte.x00 8 in
      let guid := GUID.pack_into (node_guid (parent self)) guid in
      guid <- bytearray_setitem guid 7 (port_id self) ;;
      let default_gid := GID.mk GID_DEFAULT_PREFIX guid in
      let g := if prefix =? GID_DEFAULT_PREFIX then [default_gid]
               else [GID.mk prefix guid; default_gid] in
      modify (with_port (set_gids g)) ;;;
      ret g
  end.

(** [self.gids[0]] *)
Definition default_gid : M GID.t :=
  g <- gids ;;
  match g with x :: _ => ret x | [] => raise IndexError end.

(** [def subnet_timeout(self)] *)
Definition subnet_timeout : M Z :=
  c <- gets (fun s => _cached_subnet_timeout (port s)) ;;
  match c with Some v => ret v | None => ret 18 end.

(** [tuple.index] *)
Fixpoint tuple_index (x : Z) (l : list Z) : option Z :=
  match l with
  | [] => None
  | y :: l' => if x =? y then Some 0
               else match tuple_index x l' with
                    | Some i => Some (i + 1)
                    | None => None
                    end
  end.

(** [def pkey_index(self,pkey)] *)
Definition pkey_index (pkey : Z) : M Z :=
  ks <- gets (fun s => pkeys (port s)) ;;
  match tuple_index pkey ks with
  | Some i => ret i
  | None => raise ValueError
  end.

(** [def sa_path(self)] *)
Definition sa_path : M IBPath.t :=
  c <- gets (fun s => _cached_sa_path (port s)) ;;
  match c with
  | Some path => ret path
  | None =>
      pkey_idx <- except_ValueError (pkey_index PKEY_DEFAULT)
                    (except_ValueError (pkey_index PKEY_PARTIAL_DEFAULT)
                       (raise (RDMAError "Could not find the SA default PKey"))) ;;
      self <- gets (fun s => port_id (port s)) ;;
      dlid <- sm_lid ;;
      slid <- lid ;;
      sl <- sm_sl ;;
      plt <- subnet_timeout ;;
      let p0 := IBPath_new self in
      let path := IBPath.mk (IBPath.end_port p0) dlid slid sl 1 1 IB_DEFAULT_QP1_QKEY
                            pkey_idx plt (IBPath.retries p0) (IBPath.DQPN p0)
                            (IBPath.SQPN p0) in
      modify (with_port (set_cached_sa_path path)) ;;;
      ret path
  end.

End WithEnv.
End SimEndPort.

(** ** class SimDevice *)

Module SimDevice.
Section WithEnv.
Context {X : Externals} (env : Env).

(** [range(begin,end)] *)
Definition range (b e : Z) : list Z :=
  map (fun k => b + Z.of_nat k) (seq 0 (Z.to_nat (e - b))).

(** [def __init__(self, name)]: the device and its [end_ports]. *)
Definition __init__ (name : string) : M (SimDevice_t * list (Z * SimEndPort_t)) :=
  info <- SimConnection._ctl env SIM_CTL_GET_NODEINFO [] ;;
  let self := mkDevice name (SMPNodeInfo_unpack_from (snd info)) 0 EmptyString in
  let '(b, e) :=
    if SMPNodeInfo.nodeType (node_info self) =? NODE_SWITCH then (0, 1)
    else (1, SMPNodeInfo.numPorts (node_info self) + 1) in
  ret (self, map (fun i => (i, SimEndPort.__init__ self i)) (range b e)).

Definition hca_type : string := "Simulator".
Definition node_type (d : SimDevice_t) : Z := SMPNodeInfo.nodeType (node_info d).
Definition sys_image_guid (d : SimDevice_t) : GUID.t :=
  SMPNodeInfo.systemImageGUID (node_info d).
Definition board_id (d : SimDevice_t) : Z := SMPNodeInfo.deviceID (node_info d).
Definition hw_ver (d : SimDevice_t) : Z := SMPNodeInfo.revision (node_info d).

End WithEnv.
End SimDevice.

(** ** class SimUMAD *)

Module SimUMAD.
Section WithEnv.
Context {X : Externals} (env : Env).

(** [def __init__(self,parent)], with [trace_func] as the base class
    leaves it. *)
Definition __init__ (parent : SimEndPort_t) : SimUMAD_t :=
  mkUMAD (port_id parent) (urandom4 env) None.

(** [def _get_new_TID(self)] *)
Definition _get_new_TID : M Z :=
  modify (with_umad (fun u => mkUMAD (end_port u) ((_tid u + 1) mod 2 ^ 32) (trace_func u))) ;;;
  gets (fun s => _tid (umad s)).

(** [def sendto(self,buf,path,agent_id=None)] *)
Definition sendto (buf : bytes) (path : IBPath.t) : M unit :=
  req <- struct_call (struct_request.pack (IBPath.DLID path) (IBPath.SLID path)
                        (IBPath.dqpn path) (IBPath.sqpn path) 0 (len buf) buf) ;;
  pkt_sock_send req.

(** [def recvfrom(self,wakeat)] *)
Definition recvfrom (wakeat : Q) : M (option (bytes * IBPath.t)) :=
  now <- clock_monotonic env ;;
  let timeout := (wakeat - now)%Q in
  if Qle_bool timeout 0 then ret None
  else
    ready <- poll_poll env (timeout * 1000)%Q ;;
    if negb ready then ret None
    else
      resp <- pkt_sock_recv env 512 ;;
      r <- struct_call (struct_request.unpack resp) ;;
      let '(dlid, slid, dqpn, sqpn, status, length, pkt) := r in
      ep <- gets (fun s => end_port (umad s)) ;;
      let path := IBPath_new ep in
      let path := IBPath.set_DLID dlid path in
      let path := IBPath.set_SLID slid path in
      let path := IBPath.set_DQPN dqpn path in
      let path := IBPath.set_SQPN sqpn path in
      ret (Some (pkt, path)).

(** The [while True] of [_execute], on fuel. The recursive call
    [self._execute(buf,path,True)] is its own first two lines:
    [self.sendto(buf,path)] and [return None]. *)
Fixpoint _execute_loop (fuel : nat) (buf : bytes) (path : IBPath.t) (rmatch : Key)
  (expire : Q) (retries : Z) : M (option (bytes * IBPath.t)) :=
  match fuel with
  | O => fun s => (OutOfFuel, s)
  | S fuel' =>
      r <- recvfrom expire ;;
      match r with
      | None =>
          if retries =? 0 then ret None
          else
            let retries := retries - 1 in
            sendto buf path ;;;
            now <- clock_monotonic env ;;
            let expire := (mad_timeout path + now)%Q in
            _execute_loop fuel' buf path rmatch expire retries
      | Some r' =>
          if Key_eqb rmatch (_get_match_key (fst r')) then ret (Some r')
          else
            hook <- gets (fun s => trace_func (umad s)) ;;
            match hook with
            | Some h => call_trace_func h TRACE_UNEXPECTED path r'
            | None => ret tt
            end ;;;
            _execute_loop fuel' buf path rmatch expire retries
      end
  end.

(** [def _execute(self,buf,path,sendOnly=False)] *)
Definition _execute (fuel : nat) (buf : bytes) (path : IBPath.t) (sendOnly : bool)
  : M (option (bytes * IBPath.t)) :=
  sendto buf path ;;;
  if sendOnly then ret None
  else
    let rmatch := _get_reply_match_key buf in
    now <- clock_monotonic env ;;
    let expire := (mad_timeout path + now)%Q in
    let retries := IBPath.retries path in
    _execute_loop fuel buf path rmatch expire retries.

End WithEnv.
End SimUMAD.

(** ** Notions used in the statements *)

(** [v] fits an unsigned integer code of [n] bytes. *)
Definition uint (n : nat) (v : Z) : Prop := 0 <= v < 2 ^ (Z.of_nat n * 8).

(** One call of a method of the module on the session, the port or the
    transactor of the state. *)
Inductive call : Type :=
| call_connect (nodeid : bytes) (qp issm : Z)
| call_disconnect
| call_open_device (name : string)
| call_get (field : SMPPortInfo.attr)
| call_rate
| call_gids
| call_default_gid
| call_subnet_timeout
| call_pkey_index (pkey : Z)
| call_sa_path
| call_get_new_TID
| call_sendto (buf : bytes) (path : IBPath.t)
| call_recvfrom (wakeat : Q)
| call_execute (fuel : nat) (buf : bytes) (path : IBPath.t) (sendOnly : bool).

(** The interface identifier that [gids] builds for the GUID [g] and the
    port index [p]. *)
Definition port_iid (g : GUID.t) (p : Z) : bytes :=
  firstn 7 (GUID.to_bytes g) ++ [byte.of_Z p].

Definition no_pkey_msg : string := "Could not find the SA default PKey".

Section Notions.
Context {X : Externals} (env : Env).

(** The request that [sendto] transmits for [buf] and [path]. *)
Definition request_of (buf : bytes) (path : IBPath.t) : option bytes :=
  struct_request.pack (IBPath.DLID path) (IBPath.SLID path) (IBPath.dqpn path)
    (IBPath.sqpn path) 0 (len buf) buf.

(** The path that [recvfrom] builds from an envelope. *)
Definition reply_path (ep dlid slid dqpn sqpn : Z) : IBPath.t :=
  IBPath.set_SQPN sqpn (IBPath.set_DQPN dqpn
    (IBPath.set_SLID slid (IBPath.set_DLID dlid (IBPath_new ep)))).

(** The state after the trace function, if there is one, was told of the
    unexpected reply [r] to the request sent on [path]. *)
Definition after_trace (path : IBPath.t) (r : bytes * IBPath.t) (s : State) : State :=
  match trace_func (umad s) with
  | Some h => snd (call_trace_func h TRACE_UNEXPECTED path r s)
  | None => s
  end.

(** The envelope that [_ctl] sends in state [s]. *)
Definition ctl_msg (s : State) (type : Z) (data : bytes) : option bytes :=
  struct_ctl.pack host_order SIM_MAGIC (_client_id s) type (len data) data.

(** The reply that [_ctl] receives in state [s]: the next datagram of the
    control socket, cut at 80 bytes. *)
Definition ctl_resp (s : State) : bytes :=
  firstn struct_ctl.size (ctl_reply env (ctl_recvs (net s))).

(** The state after the envelope [msg] was sent and one receive made. *)
Definition after_ctl (msg : bytes) (s : State) : State :=
  snd (ctl_sock_recv env struct_ctl.size (snd (ctl_sock_send msg s))).

(** What [_ctl] returns or raises in state [s] once its envelope is out:
    the error of the receive, or the decoded reply, or [struct.error]. *)
Definition ctl_result (s : State) : result (Z * Z * Z * Z * bytes) :=
  match ctl_recv_error env (ctl_recvs (net s)) with
  | Some e => Raise (SocketError e)
  | None =>
      match struct_ctl.unpack host_order (ctl_resp s) with
      | Some r => Ok r
      | None => Raise StructError
      end
  end.


(** The opcodes that the module passes to [_ctl]. *)
Definition issued_type (t : Z) : Prop :=
  t = SIM_CTL_CONNECT \/ t = SIM_CTL_DISCONNECT \/
  t = SIM_CTL_GET_NODEINFO \/ t = SIM_CTL_GET_PORTINFO.

(** A control envelope with one of these opcodes. *)
Definition issued (msg : bytes) : Prop :=
  exists magic cid t l d,
    struct_ctl.unpack host_order msg = Some (magic, cid, t, l, d) /\ issued_type t.

(** From [s] to [s']: the identity of the port, its partition keys and its
    subnet timeout are kept, a memoized administrative path stays, and the
    control socket has only seen envelopes of the four opcodes. *)
Record step (s s' : State) : Prop := mkStep {
  step_port_id : port_id (port s') = port_id (port s);
  step_parent : parent (port s') = parent (port s);
  step_pkeys : pkeys (port s') = pkeys (port s);
  step_subnet_timeout :
    _cached_subnet_timeout (port s') = _cached_subnet_timeout (port s);
  step_sa_path :
    forall p, _cached_sa_path (port s) = Some p -> _cached_sa_path (port s') = Some p;
  step_ctl_sent :
    exists msgs, ctl_sent (net s') = ctl_sent (net s) ++ msgs /\ Forall issued msgs
}.

Definition preserves {A : Type} (c : M A) : Prop := forall s, step s (snd (c s)).

(** The call, its result dropped. *)
Definition do_call (c : call) : M unit :=
  match c with
  | call_connect nodeid qp issm => SimConnection.__init__ env nodeid qp issm
  | call_disconnect => SimConnection.__del__ env ;;; ret tt
  | call_open_device name => SimDevice.__init__ env name ;;; ret tt
  | call_get field => SimEndPort._get env field ;;; ret tt
  | call_rate => SimEndPort.rate env ;;; ret tt
  | call_gids => SimEndPort.gids env ;;; ret tt
  | call_default_gid => SimEndPort.default_gid env ;;; ret tt
  | call_subnet_timeout => SimEndPort.subnet_timeout ;;; ret tt
  | call_pkey_index pkey => SimEndPort.pkey_index pkey ;;; ret tt
  | call_sa_path => SimEndPort.sa_path env ;;; ret tt
  | call_get_new_TID => SimUMAD._get_new_TID ;;; ret tt
  | call_sendto buf path => SimUMAD.sendto buf path
  | call_recvfrom wakeat => SimUMAD.recvfrom env wakeat ;;; ret tt
  | call_execute fuel buf path sendOnly =>
      SimUMAD._execute env fuel buf path sendOnly ;;; ret tt
  end.

(** A sequence of calls, each started where the one before stopped, whether
    it returned or raised. *)
Fixpoint run (cs : list call) (s : State) : State :=
  match cs with
  | [] => s
  | c :: cs' => run cs' (snd (do_call c s))
  end.

(** The same, for what follows a state [s] whose administrative path is
    not memoized yet. *)
Definition preserves_from (s : State) {A : Type} (c : M A) : Prop :=
  forall s0, step s s0 -> step s (snd (c s0)).

(** The index that [sa_path] resolves: of the full-membership key if it is
    in the tuple, else of the partial-membership key. *)
Definition admin_pkey_index (ks : list Z) : option Z :=
  match SimEndPort.tuple_index PKEY_DEFAULT ks with
  | Some i => Some i
  | None => SimEndPort.tuple_index PKEY_PARTIAL_DEFAULT ks
  end.

(** The administrative path built from the three attribute reads. *)
Definition built_sa_path (s : State) (idx dlid slid sl : Z) : IBPath.t :=
  let p0 := IBPath_new (port_id (port s)) in
  IBPath.mk (IBPath.end_port p0) dlid slid sl 1 1 IB_DEFAULT_QP1_QKEY idx
    (match _cached_subnet_timeout (port s) with Some v => v | None => 18 end)
    (IBPath.retries p0) (IBPath.DQPN p0) (IBPath.SQPN p0).

End Notions.

Section MoreNotions.
Context {X : Externals} (env : Env).

(** [n] calls of [_get_new_TID] in a row, with the identifiers they return. *)
Fixpoint new_TIDs (n : nat) (s : State) : list Z * State :=
  match n with
  | O => ([], s)
  | S n' =>
      match SimUMAD._get_new_TID s with
      | (Ok t, s') => let (ts, s'') := new_TIDs n' s' in (t :: ts, s'')
      | (_, s') => ([], s')
      end
  end.

(** The control envelope of a port info read: [GET_PORTINFO] for client
    [cid] with the port index [pid] as its one byte of payload. *)
Definition portinfo_call (cid pid : Z) (msg : bytes) : Prop :=
  struct_ctl.unpack host_order msg =
  Some (SIM_MAGIC, cid, SIM_CTL_GET_PORTINFO, 1, byte.of_Z pid :: repeat Byte.x00 63).

(** From [s] to [s'] at most [n] such envelopes were sent on the control
    socket, and nothing else; client and port index are as before. *)
Definition portinfo_calls (n : nat) (s s' : State) : Prop :=
  _client_id s' = _client_id s /\
  port_id (port s') = port_id (port s) /\
  exists msgs,
    ctl_sent (net s') = ctl_sent (net s) ++ msgs /\
    (List.length msgs <= n)%nat /\
    Forall (portinfo_call (_client_id s) (port_id (port s))) msgs.

(** Starting in [s], the data socket delivers the replies [rs] one after the
    other before the deadline [expire], none of them with the key [rmatch];
    each is reported to the trace function, and the state is then [s']. *)
Inductive receives_unexpected (path : IBPath.t) (rmatch : Key) (expire : Q)
  : State -> list (bytes * IBPath.t) -> State -> Prop :=
| ru_nil (s : State) : receives_unexpected path rmatch expire s [] s
| ru_cons (s s1 s' : State) (r : bytes * IBPath.t) (rs : list (bytes * IBPath.t)) :
    SimUMAD.recvfrom env expire s = (Ok (Some r), s1) ->
    Key_eqb rmatch (_get_match_key (fst r)) = false ->
    receives_unexpected path rmatch expire (after_trace path r s1) rs s' ->
    receives_unexpected path rmatch expire s (r :: rs) s'.

(** The calls of the trace function [hook] for the unexpected replies [rs]. *)
Definition trace_calls (hook : option nat) (path : IBPath.t)
  (rs : list (bytes * IBPath.t)) : list TraceCall :=
  match hook with
  | Some h => map (Build_TraceCall h TRACE_UNEXPECTED path) rs
  | None => []
  end.

(** The method [c] makes at most [n] port info calls and no other control
    call, in whatever state it is started. *)
Definition within_calls (n : nat) {A : Type} (c : M A) : Prop :=
  forall s, portinfo_calls n s (snd (c s)).

(** The method [c] leaves the memoized identifiers of the port as they
    are. *)
Definition same_gids {A : Type} (c : M A) : Prop :=
  forall s, _gids (port (snd (c s))) = _gids (port s).

(** The memoized identifiers of a port stay once they are set. *)
Definition keeps_gids (s s' : State) : Prop :=
  forall g, _gids (port s) = Some g -> _gids (port s') = Some g.

End MoreNotions.

(** ** A concrete host and simulator, for examples *)

(** A number written in network order. *)
Definition be (bs : bytes) : Z := Struct.unpack_uint BigEndian bs.

(** A little-endian host; the attributes are read at their offsets in the
    port info and node info attributes, and the match key is the transaction
    id, bytes 8 to 15 of a MAD. *)
Definition example_externals : Externals := {|
  host_order := LittleEndian;
  PKEY_DEFAULT := 0xFFFF;
  PKEY_PARTIAL_DEFAULT := 0x7FFF;
  IB_DEFAULT_QP1_QKEY := 0x80010000;
  GID_DEFAULT_PREFIX := 0xFE80000000000000;
  NODE_SWITCH := 2;
  SMPPortInfo_new := SMPPortInfo.mk 0 0 0 0 0 0 0 0 0 0;
  SMPPortInfo_unpack_from := fun b =>
    SMPPortInfo.mk (be (slice 16 2 b)) 0 0 0 0 0 (be (slice 20 4 b))
      (be (slice 18 2 b)) 0 (be (slice 8 8 b));
  SMPNodeInfo_unpack_from := fun b =>
    SMPNodeInfo.mk (be (slice 2 1 b)) (be (slice 3 1 b)) (be (slice 4 8 b))
      (be (slice 12 8 b)) 0 0;
  IBPath_new := fun ep => IBPath.mk ep 0 0 0 0 0 0 0 0 0 None None;
  mad_timeout := fun _ => 1%Q;
  Key := Z;
  Key_eqb := Z.eqb;
  _get_reply_match_key := fun b => be (slice 8 8 b);
  _get_match_key := fun b => be (slice 8 8 b)
|}.

(** A port info payload: GID prefix [fe80::], LID 3, master SM LID 1. *)
Definition example_portinfo : bytes :=
  repeat Byte.x00 8 ++
  [Byte.xfe; Byte.x80; Byte.x00; Byte.x00; Byte.x00; Byte.x00; Byte.x00; Byte.x00] ++
  [Byte.x00; Byte.x03] ++ [Byte.x00; Byte.x01] ++ repeat Byte.x00 44.

(** The reply of the simulator to [GET_PORTINFO] for client 42. *)
Definition example_reply : bytes :=
  match struct_ctl.pack LittleEndian SIM_MAGIC 42 SIM_CTL_GET_PORTINFO 64
          example_portinfo with
  | Some b => b
  | None => []
  end.

(** A simulator whose data socket never has anything to read. The wall
    clock stands at 5 seconds, the monotonic clock advances by one second at
    each reading. *)
Definition quiet_env : Env := {|
  SIM_SERVER_PORT := 7070;
  setup_error := None;
  pkt_local_port := 40000;
  pkt_connect_error := None;
  urandom4 := 0;
  wall_clock := fun _ => 5%float;
  mono_clock := fun k => inject_Z (Z.of_nat k);
  ctl_reply := fun _ => example_reply;
  ctl_recv_error := fun _ => None;
  pkt_ready := fun _ _ => false;
  pkt_poll_error := fun _ _ => None;
  pkt_data := fun _ => [];
  pkt_recv_error := fun _ => None
|}.

(** A simulator whose data socket is always readable and delivers [d0],
    then [d1] for ever; the monotonic clock stands still. *)
Definition talking_env (d0 d1 : bytes) : Env := {|
  SIM_SERVER_PORT := 7070;
  setup_error := None;
  pkt_local_port := 40000;
  pkt_connect_error := None;
  urandom4 := 0;
  wall_clock := fun _ => 5%float;
  mono_clock := fun _ => 0%Q;
  ctl_reply := fun _ => example_reply;
  ctl_recv_error := fun _ => None;
  pkt_ready := fun _ _ => true;
  pkt_poll_error := fun _ _ => None;
  pkt_data := fun k => match k with O => d0 | S _ => d1 end;
  pkt_recv_error := fun _ => None
|}.

(** A simulator whose data socket delivers the datagrams of [ds] in turn,
    one at each poll, and is then silent; the monotonic clock stands still. *)
Definition script_env (ds : list bytes) : Env := {|
  SIM_SERVER_PORT := 7070;
  setup_error := None;
  pkt_local_port := 40000;
  pkt_connect_error := None;
  urandom4 := 0;
  wall_clock := fun _ => 5%float;
  mono_clock := fun _ => 0%Q;
  ctl_reply := fun _ => example_reply;
  ctl_recv_error := fun _ => None;
  pkt_ready := fun k _ => Nat.ltb k (List.length ds);
  pkt_poll_error := fun _ _ => None;
  pkt_data := fun k => nth k ds [];
  pkt_recv_error := fun _ => None
|}.

(** A simulator that is not listening: every receive, on the control
    socket and on the data socket, which the poll reports readable, is
    refused with [ECONNREFUSED]. *)
Definition refused_env : Env := {|
  SIM_SERVER_PORT := 7070;
  setup_error := None;
  pkt_local_port := 40000;
  pkt_connect_error := None;
  urandom4 := 0;
  wall_clock := fun _ => 5%float;
  mono_clock := fun _ => 0%Q;
  ctl_reply := fun _ => [];
  ctl_recv_error := fun _ => Some 111;
  pkt_ready := fun _ _ => true;
  pkt_poll_error := fun _ _ => None;
  pkt_data := fun _ => [];
  pkt_recv_error := fun _ => Some 111
|}.

(** A simulator that is silent at the first poll and has [d] ready at every
    later one. *)
Definition late_env (d : bytes) : Env := {|
  SIM_SERVER_PORT := 7070;
  setup_error := None;
  pkt_local_port := 40000;
  pkt_connect_error := None;
  urandom4 := 0;
  wall_clock := fun _ => 5%float;
  mono_clock := fun _ => 0%Q;
  ctl_reply := fun _ => example_reply;
  ctl_recv_error := fun _ => None;
  pkt_ready := fun k _ => match k with O => false | S _ => true end;
  pkt_poll_error := fun _ _ => None;
  pkt_data := fun _ => d;
  pkt_recv_error := fun _ => None
|}.

(** A simulator whose subnet is renumbered after the first control call:
    the first reply carries the prefix [fe80::], every later one [fec0::].
    The wall clock advances by two seconds at each reading, so that every
    read of the port goes to the simulator. *)
Definition renumbering_env : Env := {|
  SIM_SERVER_PORT := 7070;
  setup_error := None;
  pkt_local_port := 40000;
  pkt_connect_error := None;
  urandom4 := 0;
  wall_clock := fun k => PrimFloat.of_uint63 (Uint63.of_Z (5 + 2 * Z.of_nat k));
  mono_clock := fun _ => 0%Q;
  ctl_reply := fun k =>
    match k with
    | O => example_reply
    | S _ => firstn 25 example_reply ++ [Byte.xc0] ++ skipn 26 example_reply
    end;
  ctl_recv_error := fun _ => None;
  pkt_ready := fun _ _ => false;
  pkt_poll_error := fun _ _ => None;
  pkt_data := fun _ => [];
  pkt_recv_error := fun _ => None
|}.

(** A simulator that answers every control call with the node info of a
    node of type [t] with [n] ports and GUID [0102:0304:0506:0708]. *)
Definition nodeinfo_env (t n : Init.Byte.byte) : Env := {|
  SIM_SERVER_PORT := 7070;
  setup_error := None;
  pkt_local_port := 40000;
  pkt_connect_error := None;
  urandom4 := 0;
  wall_clock := fun _ => 5%float;
  mono_clock := fun _ => 0%Q;
  ctl_reply := fun _ =>
    match struct_ctl.pack LittleEndian SIM_MAGIC 42 SIM_CTL_GET_NODEINFO 64
            ([Byte.x00; Byte.x00; t; n] ++ rev (le_split 8 0x0102030405060708) ++
             rev (le_split 8 0x0102030405060708)) with
    | Some b => b
    | None => []
    end;
  ctl_recv_error := fun _ => None;
  pkt_ready := fun _ _ => false;
  pkt_poll_error := fun _ _ => None;
  pkt_data := fun _ => [];
  pkt_recv_error := fun _ => None
|}.

(** A simulator that answers the connect with the client id [id]. *)
Definition connect_env (id : Z) : Env := {|
  SIM_SERVER_PORT := 7070;
  setup_error := None;
  pkt_local_port := 40000;
  pkt_connect_error := None;
  urandom4 := 0;
  wall_clock := fun _ => 5%float;
  mono_clock := fun _ => 0%Q;
  ctl_reply := fun _ =>
    match struct_ctl.pack LittleEndian SIM_MAGIC id SIM_CTL_CONNECT 44 (le_split 4 id) with
    | Some b => b
    | None => []
    end;
  ctl_recv_error := fun _ => None;
  pkt_ready := fun _ _ => false;
  pkt_poll_error := fun _ _ => None;
  pkt_data := fun _ => [];
  pkt_recv_error := fun _ => None
|}.

Definition example_device : SimDevice_t :=
  mkDevice "sim0" (SMPNodeInfo.mk 1 2 0x0102030405060708 0x0102030405060708 0 0) 0 EmptyString.

(** Client 42, port 1 of the device as constructed, and a transactor with a
    trace function. *)
Definition example_state : State :=
  mkState (mkNet 0 0 [] 0 [] 0 0 []) 42 (Some 7113)
    (@SimEndPort.__init__ example_externals example_device 1)
    (mkUMAD 1 0 (Some 0%nat)).

(** The same with a port whose tuple of keys has no default key. *)
Definition example_state_no_pkey : State :=
  with_port (fun p => mkPort (parent p) (port_id p) (_port_info p) (_port_info_age p)
                        [0x8001; 0x0002] (_gids p) (_cached_subnet_timeout p)
                        (_cached_sa_path p)) example_state.

(** The same with the port info cached at 5 seconds: the default GID
    prefix, LID 3, master SM LID 1. *)
Definition example_state_cached : State :=
  with_port (@SimEndPort.set_port_info
               (SMPPortInfo.mk 3 0 0 0 0 0 0 1 0 0xFE80000000000000) 5%float)
    example_state.

(** The same with the port info cached at the last binary64 number below
    4 seconds, [4 - 2^-51]: one second later is halfway between two numbers
    and rounds to 5. *)
Definition example_state_boundary : State :=
  with_port (@SimEndPort.set_port_info
               (SMPPortInfo.mk 3 0 0 0 0 0 0 1 0 0xFE80000000000000)
               0x1.fffffffffffffp+1%float)
    example_state.

(** The same with a GID prefix that is not the default one. *)
Definition example_state_custom_prefix : State :=
  with_port (@SimEndPort.set_port_info
               (SMPPortInfo.mk 3 0 0 0 0 0 0 1 0 0xFEC0000000000000) 5%float)
    example_state.

(** A MAD header with transaction id [tid]. *)
Definition example_mad (tid : Z) : bytes :=
  repeat Byte.x00 8 ++ rev (le_split 8 tid) ++ repeat Byte.x00 8.

(** A path to LID 2 from LID 1 with two retries. *)
Definition example_path : IBPath.t :=
  IBPath.mk 1 2 1 0 1 1 0x80010000 0 18 2 None None.

(** The same path with a retry count below zero. *)
Definition example_path_negative : IBPath.t :=
  IBPath.mk 1 2 1 0 1 1 0x80010000 0 18 (-1) None None.

(** The datagram that carries [pkt] between queue pairs 1 with the given
    LIDs, status and length. *)
Definition example_datagram (dlid slid status length : Z) (pkt : bytes) : bytes :=
  match struct_request.pack dlid slid 1 1 status length pkt with
  | Some b => b
  | None => []
  end.

(** ** Facts about the codecs *)

Lemma slice_here (a b : bytes) (n : nat) :
  List.length a = n -> slice 0 n (a ++ b) = a.
Proof.
  intros <-. unfold slice. simpl.
  rewrite firstn_app, Nat.sub_diag, firstn_all. simpl. apply app_nil_r.
Qed.

Lemma slice_skip (a b : bytes) (k off n : nat) :
  List.length a = k -> (k <= off)%nat ->
  slice off n (a ++ b) = slice (off - k) n b.
Proof.
  intros <- Hle. unfold slice.
  rewrite skipn_app, skipn_all2 by lia. reflexivity.
Qed.

Lemma slice_all (a : bytes) (n : nat) : List.length a = n -> slice 0 n a = a.
Proof. intros <-. unfold slice. simpl. apply firstn_all. Qed.

Lemma pack_uint_length o n v bs :
  Struct.pack_uint o n v = Some bs -> List.length bs = n.
Proof.
  unfold Struct.pack_uint. destruct (_ && _); [|discriminate].
  intros [= <-]. destruct o; [|rewrite length_rev]; apply length_le_split.
Qed.

Lemma pack_uint_range o n v bs :
  Struct.pack_uint o n v = Some bs -> 0 <= v < 2 ^ (Z.of_nat n * 8).
Proof.
  unfold Struct.pack_uint.
  destruct (_ && _) eqn:E; [|discriminate]. intros _.
  apply andb_true_iff in E. destruct E as [E1 E2].
  apply Z.leb_le in E1. apply Z.ltb_lt in E2. lia.
Qed.

Lemma pack_uint_in_range o n v :
  0 <= v < 2 ^ (Z.of_nat n * 8) -> exists bs, Struct.pack_uint o n v = Some bs.
Proof.
  intros [H1 H2]. unfold Struct.pack_uint.
  apply Z.leb_le in H1. apply Z.ltb_lt in H2. rewrite H1, H2. simpl. eauto.
Qed.

Lemma unpack_pack_uint o n v bs :
  Struct.pack_uint o n v = Some bs -> Struct.unpack_uint o bs = v.
Proof.
  intros H. pose proof (pack_uint_range _ _ _ _ H) as R.
  unfold Struct.pack_uint in H. destruct (_ && _); [|discriminate].
  injection H as <-. unfold Struct.unpack_uint.
  destruct o; [|rewrite rev_involutive];
    rewrite le_combine_split; apply Z.mod_small; exact R.
Qed.

Lemma pack_s_length n s : List.length (Struct.pack_s n s) = n.
Proof.
  unfold Struct.pack_s. rewrite length_app, length_firstn, repeat_length. lia.
Qed.

Lemma pack_s_fits n s :
  (List.length s <= n)%nat ->
  Struct.pack_s n s = s ++ repeat Byte.x00 (n - List.length s).
Proof. intros H. unfold Struct.pack_s. rewrite firstn_all2 by exact H. reflexivity. Qed.

Ltac slices :=
  repeat match goal with
         | H : List.length ?a = ?k |- context [slice ?off ?n (?a ++ ?b)] =>
             first [ rewrite (slice_here a b k H)
                   | rewrite (slice_skip a b k off n H) by lia; simpl Nat.sub ]
         | H : List.length ?a = ?k |- context [slice 0 ?k ?a] =>
             rewrite (slice_all a k H)
         end.

Lemma struct_ctl_unpack_app o (m c t l d : bytes) :
  List.length m = 4%nat -> List.length c = 4%nat -> List.length t = 4%nat ->
  List.length l = 4%nat -> List.length d = 64%nat ->
  struct_ctl.unpack o (m ++ c ++ t ++ l ++ d) =
  Some (Struct.unpack_uint o m, Struct.unpack_uint o c, Struct.unpack_uint o t,
        Struct.unpack_uint o l, d).
Proof.
  intros Hm Hc Ht Hl Hd. unfold struct_ctl.unpack.
  rewrite !length_app, Hm, Hc, Ht, Hl, Hd. simpl Nat.eqb. cbv iota.
  slices. reflexivity.
Qed.

Lemma struct_info_unpack_app o (i q s d : bytes) :
  List.length i = 4%nat -> List.length q = 4%nat -> List.length s = 4%nat ->
  List.length d = 32%nat ->
  struct_info.unpack o (i ++ q ++ s ++ d) =
  Some (Struct.unpack_uint o i, Struct.unpack_uint o q, Struct.unpack_uint o s, d).
Proof.
  intros Hi Hq Hs Hd. unfold struct_info.unpack.
  rewrite !length_app, Hi, Hq, Hs, Hd. simpl Nat.eqb. cbv iota.
  slices. reflexivity.
Qed.

Lemma struct_request_unpack_app (d s dq sq st l p : bytes) :
  List.length d = 2%nat -> List.length s = 2%nat -> List.length dq = 4%nat ->
  List.length sq = 4%nat -> List.length st = 4%nat -> List.length l = 8%nat ->
  List.length p = 256%nat ->
  struct_request.unpack (d ++ s ++ dq ++ sq ++ st ++ l ++ p) =
  Some (Struct.unpack_uint BigEndian d, Struct.unpack_uint BigEndian s,
        Struct.unpack_uint BigEndian dq, Struct.unpack_uint BigEndian sq,
        Struct.unpack_uint BigEndian st, Struct.unpack_uint BigEndian l, p).
Proof.
  intros Hd Hs Hdq Hsq Hst Hl Hp. unfold struct_request.unpack.
  rewrite !length_app, Hd, Hs, Hdq, Hsq, Hst, Hl, Hp. simpl Nat.eqb. cbv iota.
  slices. reflexivity.
Qed.

(** What a successful [pack] is made of. *)
Lemma struct_ctl_pack_inv o magic cid type length data buf :
  struct_ctl.pack o magic cid type length data = Some buf ->
  exists m c t l,
    Struct.pack_uint o 4 magic = Some m /\ Struct.pack_uint o 4 cid = Some c /\
    Struct.pack_uint o 4 type = Some t /\ Struct.pack_uint o 4 length = Some l /\
    buf = m ++ c ++ t ++ l ++ Struct.pack_s 64 data.
Proof.
  unfold struct_ctl.pack.
  destruct (Struct.pack_uint o 4 magic) as [m|]; [|discriminate].
  destruct (Struct.pack_uint o 4 cid) as [c|]; [|discriminate].
  destruct (Struct.pack_uint o 4 type) as [t|]; [|discriminate].
  destruct (Struct.pack_uint o 4 length) as [l|]; [|discriminate].
  simpl. intros [= <-]. exists m, c, t, l. auto.
Qed.

Lemma struct_info_pack_inv o id qp issm nodeid buf :
  struct_info.pack o id qp issm nodeid = Some buf ->
  exists i q s,
    Struct.pack_uint o 4 id = Some i /\ Struct.pack_uint o 4 qp = Some q /\
    Struct.pack_uint o 4 issm = Some s /\
    buf = i ++ q ++ s ++ Struct.pack_s 32 nodeid.
Proof.
  unfold struct_info.pack.
  destruct (Struct.pack_uint o 4 id) as [i|]; [|discriminate].
  destruct (Struct.pack_uint o 4 qp) as [q|]; [|discriminate].
  destruct (Struct.pack_uint o 4 issm) as [s|]; [|discriminate].
  simpl. intros [= <-]. exists i, q, s. auto.
Qed.

Lemma struct_request_pack_inv dlid slid dqpn sqpn status length pkt buf :
  struct_request.pack dlid slid dqpn sqpn status length pkt = Some buf ->
  exists d s dq sq st l,
    Struct.pack_uint BigEndian 2 dlid = Some d /\
    Struct.pack_uint BigEndian 2 slid = Some s /\
    Struct.pack_uint BigEndian 4 dqpn = Some dq /\
    Struct.pack_uint BigEndian 4 sqpn = Some sq /\
    Struct.pack_uint BigEndian 4 status = Some st /\
    Struct.pack_uint BigEndian 8 length = Some l /\
    buf = d ++ s ++ dq ++ sq ++ st ++ l ++ Struct.pack_s 256 pkt.
Proof.
  unfold struct_request.pack.
  destruct (Struct.pack_uint BigEndian 2 dlid) as [d|]; [|discriminate].
  destruct (Struct.pack_uint BigEndian 2 slid) as [s|]; [|discriminate].
  destruct (Struct.pack_uint BigEndian 4 dqpn) as [dq|]; [|discriminate].
  destruct (Struct.pack_uint BigEndian 4 sqpn) as [sq|]; [|discriminate].
  destruct (Struct.pack_uint BigEndian 4 status) as [st|]; [|discriminate].
  destruct (Struct.pack_uint BigEndian 8 length) as [l|]; [|discriminate].
  simpl. intros [= <-]. exists d, s, dq, sq, st, l. repeat split; reflexivity.
Qed.

Ltac field_facts :=
  repeat match goal with
         | E : Struct.pack_uint _ _ _ = Some _ |- _ =>
             let L := fresh "L" in
             pose proof (pack_uint_length _ _ _ _ E) as L;
             apply unpack_pack_uint in E
         end.

Lemma struct_ctl_unpack_pack o magic cid type length data buf :
  struct_ctl.pack o magic cid type length data = Some buf ->
  struct_ctl.unpack o buf = Some (magic, cid, type, length, Struct.pack_s 64 data).
Proof.
  intros H. apply struct_ctl_pack_inv in H.
  destruct H as (m & c & t & l & Em & Ec & Et & El & ->). field_facts.
  rewrite struct_ctl_unpack_app by (assumption || apply pack_s_length).
  congruence.
Qed.

Lemma struct_info_unpack_pack o id qp issm nodeid buf :
  struct_info.pack o id qp issm nodeid = Some buf ->
  struct_info.unpack o buf = Some (id, qp, issm, Struct.pack_s 32 nodeid).
Proof.
  intros H. apply struct_info_pack_inv in H.
  destruct H as (i & q & s & Ei & Eq & Es & ->). field_facts.
  rewrite struct_info_unpack_app by (assumption || apply pack_s_length).
  congruence.
Qed.

Lemma struct_request_unpack_pack dlid slid dqpn sqpn status length pkt buf :
  struct_request.pack dlid slid dqpn sqpn status length pkt = Some buf ->
  struct_request.unpack buf =
  Some (dlid, slid, dqpn, sqpn, status, length, Struct.pack_s 256 pkt).
Proof.
  intros H. apply struct_request_pack_inv in H.
  destruct H as (d & s & dq & sq & st & l & Ed & Es & Edq & Esq & Est & El & ->).
  field_facts.
  rewrite struct_request_unpack_app by (assumption || apply pack_s_length).
  congruence.
Qed.


(** ** The round trip of the three codecs *)

Lemma pack_uint_some o n v : uint n v -> exists bs, Struct.pack_uint o n v = Some bs.
Proof. apply pack_uint_in_range. Qed.

Ltac pack_fields :=
  repeat match goal with
         | H : uint ?n ?v |- context [Struct.pack_uint ?o ?n ?v] =>
             let bs := fresh "bs" in
             let E := fresh "E" in
             destruct (pack_uint_some o n v H) as [bs E]; rewrite E; clear H
         end.

Lemma struct_ctl_pack_some o magic cid type length data :
  uint 4 magic -> uint 4 cid -> uint 4 type -> uint 4 length ->
  exists buf, struct_ctl.pack o magic cid type length data = Some buf.
Proof. intros. unfold struct_ctl.pack. pack_fields. simpl. eauto. Qed.

Lemma struct_info_pack_some o id qp issm nodeid :
  uint 4 id -> uint 4 qp -> uint 4 issm ->
  exists buf, struct_info.pack o id qp issm nodeid = Some buf.
Proof. intros. unfold struct_info.pack. pack_fields. simpl. eauto. Qed.

Lemma struct_request_pack_some dlid slid dqpn sqpn status length pkt :
  uint 2 dlid -> uint 2 slid -> uint 4 dqpn -> uint 4 sqpn -> uint 4 status ->
  uint 8 length ->
  exists buf, struct_request.pack dlid slid dqpn sqpn status length pkt = Some buf.
Proof. intros. unfold struct_request.pack. pack_fields. simpl. eauto. Qed.

(** C3 (as amended). For each of the three message families, fields within
    the range of their integer codes and a payload no longer than the slot
    encode to a buffer of the fixed size, and decoding that buffer gives back
    the integer fields exactly and the payload filled with NUL bytes up to
    the slot size: the payload passed to encode is a prefix of the decoded
    one, and the two are equal only for a payload that fills the slot. *)
Theorem codec_round_trip (o : byteorder) :
  (forall magic cid type length data,
      uint 4 magic -> uint 4 cid -> uint 4 type -> uint 4 length ->
      (List.length data <= 64)%nat ->
      exists buf,
        struct_ctl.pack o magic cid type length data = Some buf /\
        List.length buf = 80%nat /\
        struct_ctl.unpack o buf =
          Some (magic, cid, type, length,
                data ++ repeat Byte.x00 (64 - List.length data))) /\
  (forall id qp issm nodeid,
      uint 4 id -> uint 4 qp -> uint 4 issm ->
      (List.length nodeid <= 32)%nat ->
      exists buf,
        struct_info.pack o id qp issm nodeid = Some buf /\
        List.length buf = 44%nat /\
        struct_info.unpack o buf =
          Some (id, qp, issm, nodeid ++ repeat Byte.x00 (32 - List.length nodeid))) /\
  (forall dlid slid dqpn sqpn status length pkt,
      uint 2 dlid -> uint 2 slid -> uint 4 dqpn -> uint 4 sqpn -> uint 4 status ->
      uint 8 length ->
      (List.length pkt <= 256)%nat ->
      exists buf,
        struct_request.pack dlid slid dqpn sqpn status length pkt = Some buf /\
        List.length buf = 280%nat /\
        struct_request.unpack buf =
          Some (dlid, slid, dqpn, sqpn, status, length,
                pkt ++ repeat Byte.x00 (256 - List.length pkt))).
Proof.
  split; [|split].
  - intros magic cid type length data Hm Hc Ht Hl Hd.
    destruct (struct_ctl_pack_some o magic cid type length data Hm Hc Ht Hl) as [buf E].
    exists buf. split; [exact E|]. split.
    + apply struct_ctl_pack_inv in E.
      destruct E as (m & c & t & l & Em & Ec & Et & El & ->). field_facts.
      rewrite !length_app, pack_s_length. lia.
    + rewrite (struct_ctl_unpack_pack _ _ _ _ _ _ _ E), pack_s_fits by exact Hd.
      reflexivity.
  - intros id qp issm nodeid Hi Hq Hs Hd.
    destruct (struct_info_pack_some o id qp issm nodeid Hi Hq Hs) as [buf E].
    exists buf. split; [exact E|]. split.
    + apply struct_info_pack_inv in E.
      destruct E as (i & q & s & Ei & Eq & Es & ->). field_facts.
      rewrite !length_app, pack_s_length. lia.
    + rewrite (struct_info_unpack_pack _ _ _ _ _ _ E), pack_s_fits by exact Hd.
      reflexivity.
  - intros dlid slid dqpn sqpn status length pkt Hd Hs Hdq Hsq Hst Hl Hp.
    destruct (struct_request_pack_some dlid slid dqpn sqpn status length pkt
                Hd Hs Hdq Hsq Hst Hl) as [buf E].
    exists buf. split; [exact E|]. split.
    + apply struct_request_pack_inv in E.
      destruct E as (d & s & dq & sq & st & l & Ed & Es & Edq & Esq & Est & El & ->).
      field_facts. rewrite !length_app, pack_s_length. lia.
    + rewrite (struct_request_unpack_pack _ _ _ _ _ _ _ _ E), pack_s_fits by exact Hp.
      reflexivity.
Qed.

(** The envelope that [__del__] sends for client 42 on a little-endian host:
    the empty payload comes back as 64 NUL bytes. *)
Lemma codec_round_trip_witness :
  exists buf,
    struct_ctl.pack LittleEndian SIM_MAGIC 42 SIM_CTL_DISCONNECT 0 [] = Some buf /\
    List.length buf = 80%nat /\
    struct_ctl.unpack LittleEndian buf =
      Some (SIM_MAGIC, 42, SIM_CTL_DISCONNECT, 0, [] ++ repeat Byte.x00 (64 - 0)).
Proof.
  apply (proj1 (codec_round_trip LittleEndian));
    unfold uint, SIM_MAGIC, SIM_CTL_DISCONNECT; simpl; lia.
Defined.

(** C3 as stated fails: a payload shorter than its slot is not reproduced
    byte for byte. The empty payload of a [DISCONNECT] envelope decodes to a
    payload of 64 bytes. *)
Lemma codec_payload_not_reproduced :
  exists buf payload,
    struct_ctl.pack LittleEndian SIM_MAGIC 42 SIM_CTL_DISCONNECT 0 [] = Some buf /\
    struct_ctl.unpack LittleEndian buf =
      Some (SIM_MAGIC, 42, SIM_CTL_DISCONNECT, 0, payload) /\
    List.length payload = 64%nat /\
    payload <> [].
Proof.
  eexists. eexists. split; [reflexivity|]. split; [reflexivity|].
  split; [reflexivity|]. discriminate.
Qed.

(** ** Rationals as booleans *)

Lemma Qle_bool_true (x y : Q) : (x <= y)%Q -> Qle_bool x y = true.
Proof. apply Qle_bool_iff. Qed.

Lemma Qle_bool_false (x y : Q) : (y < x)%Q -> Qle_bool x y = false.
Proof.
  intros H. destruct (Qle_bool x y) eqn:E; [|reflexivity].
  apply Qle_bool_iff in E. exfalso. exact (Qlt_not_le _ _ H E).
Qed.

(** Evaluates the monad without unfolding the slices of a datagram. *)
Ltac msimpl := cbn -[firstn skipn repeat le_split le_combine Z.pow Z.mul Z.add Z.sub].

(** ** The transactor: send and receive *)

Section Transactor.
Context {X : Externals} (env : Env).

Lemma sendto_some buf path req s :
  request_of buf path = Some req ->
  SimUMAD.sendto buf path s = (Ok tt, snd (pkt_sock_send req s)).
Proof.
  unfold request_of, SimUMAD.sendto, bind. intros ->. reflexivity.
Qed.






(** ** The transactor: the retry and match loop *)

(** What [recvfrom] leaves alone, and its one reading of the clock. *)
Lemma recvfrom_frame (wakeat : Q) (s : State) :
  let s' := snd (SimUMAD.recvfrom env wakeat s) in
  pkt_sent (net s') = pkt_sent (net s) /\
  traced (net s') = traced (net s) /\
  ctl_sent (net s') = ctl_sent (net s) /\
  mono_reads (net s') = S (mono_reads (net s)) /\
  umad s' = umad s /\ port s' = port s.
Proof.
  cbv zeta. unfold SimUMAD.recvfrom, bind, clock_monotonic at 1. msimpl.
  destruct (Qle_bool _ _); [msimpl; repeat split; reflexivity|].
  destruct (pkt_poll_error _ _ _); [msimpl; repeat split; reflexivity|].
  destruct (pkt_ready _ _ _); msimpl; [|repeat split; reflexivity].
  destruct (pkt_recv_error _ _); msimpl; [repeat split; reflexivity|].
  destruct (struct_request.unpack _) as [[[[[[[dlid slid] dqpn] sqpn] st] l] pkt]|];
    msimpl; repeat split; reflexivity.
Qed.

(** [recvfrom] polls at most once. *)
Lemma recvfrom_polls (wakeat : Q) (s : State) :
  let s' := snd (SimUMAD.recvfrom env wakeat s) in
  (pkt_polls (net s) <= pkt_polls (net s'))%nat.
Proof.
  cbv zeta. unfold SimUMAD.recvfrom, bind, clock_monotonic at 1. msimpl.
  destruct (Qle_bool _ _); [msimpl; lia|].
  destruct (pkt_poll_error _ _ _); [msimpl; lia|].
  destruct (pkt_ready _ _ _); msimpl; [|lia].
  destruct (pkt_recv_error _ _); msimpl; [lia|].
  destruct (struct_request.unpack _) as [[[[[[[dlid slid] dqpn] sqpn] st] l] pkt]|];
    msimpl; lia.
Qed.

(** The recursive call [self._execute(buf,path,True)] sends and returns
    [None]. *)
Lemma _execute_sendOnly (fuel : nat) (buf : bytes) (path : IBPath.t) (s : State) :
  SimUMAD._execute env fuel buf path true s =
  (SimUMAD.sendto buf path ;;; ret None) s.
Proof. reflexivity. Qed.

(** So the call, its result dropped, is the [sendto] that the loop is written
    with. *)
Lemma _execute_sendOnly_then {A : Type} (fuel : nat) (buf : bytes) (path : IBPath.t)
  (k : M A) (s : State) :
  (SimUMAD._execute env fuel buf path true ;;; k) s =
  (SimUMAD.sendto buf path ;;; k) s.
Proof.
  unfold SimUMAD._execute, bind.
  destruct (SimUMAD.sendto buf path s) as [[[]| |] s']; reflexivity.
Qed.

(** One turn of the loop on "no data" with retries left: the request is
    sent again, the deadline is taken anew from the clock, one retry is
    spent. *)
Lemma _execute_loop_resend fuel buf path req rmatch expire k s :
  request_of buf path = Some req ->
  fst (SimUMAD.recvfrom env expire s) = Ok None ->
  k <> 0 ->
  let s1 := snd (SimUMAD.recvfrom env expire s) in
  let s2 := snd (pkt_sock_send req s1) in
  SimUMAD._execute_loop env (S fuel) buf path rmatch expire k s =
  SimUMAD._execute_loop env fuel buf path rmatch
    (mad_timeout path + mono_clock env (mono_reads (net s2)))%Q (k - 1)
    (snd (clock_monotonic env s2)).
Proof.
  intros Hreq Hnone Hk. cbv zeta.
  cbn [SimUMAD._execute_loop]. unfold bind at 1.
  destruct (SimUMAD.recvfrom env expire s) as [r s1]. cbn [fst snd] in *. subst r.
  apply Z.eqb_neq in Hk. rewrite Hk.
  unfold bind at 1. rewrite (sendto_some _ _ _ _ Hreq).
  reflexivity.
Qed.

(** One turn of the loop on "no data" with no retry left. *)
Lemma _execute_loop_give_up fuel buf path rmatch expire s :
  fst (SimUMAD.recvfrom env expire s) = Ok None ->
  SimUMAD._execute_loop env (S fuel) buf path rmatch expire 0 s =
  (Ok None, snd (SimUMAD.recvfrom env expire s)).
Proof.
  intros Hnone. cbn [SimUMAD._execute_loop]. unfold bind at 1.
  destruct (SimUMAD.recvfrom env expire s) as [r s1]. cbn [fst snd] in *. subst r.
  reflexivity.
Qed.

(** One turn of the loop on a reply with another key: the trace function,
    if there is one, is called; deadline and retries are as before. *)
Lemma _execute_loop_unexpected fuel buf path rmatch expire k s r s1 :
  SimUMAD.recvfrom env expire s = (Ok (Some r), s1) ->
  Key_eqb rmatch (_get_match_key (fst r)) = false ->
  SimUMAD._execute_loop env (S fuel) buf path rmatch expire k s =
  SimUMAD._execute_loop env fuel buf path rmatch expire k
    match trace_func (umad s1) with
    | Some h => snd (call_trace_func h TRACE_UNEXPECTED path r s1)
    | None => s1
    end.
Proof.
  intros Hr Hk. cbn [SimUMAD._execute_loop]. unfold bind at 1.
  rewrite Hr, Hk. unfold bind, gets. destruct (trace_func (umad s1)); reflexivity.
Qed.

(** One turn of the loop on a reply with the expected key. *)
Lemma _execute_loop_match fuel buf path rmatch expire k s r s1 :
  SimUMAD.recvfrom env expire s = (Ok (Some r), s1) ->
  Key_eqb rmatch (_get_match_key (fst r)) = true ->
  SimUMAD._execute_loop env (S fuel) buf path rmatch expire k s = (Ok (Some r), s1).
Proof.
  intros Hr Hk. cbn [SimUMAD._execute_loop]. unfold bind at 1.
  rewrite Hr, Hk. reflexivity.
Qed.

Lemma _execute_loop_silent buf path req rmatch :
  request_of buf path = Some req ->
  (forall wakeat s, fst (SimUMAD.recvfrom env wakeat s) = Ok None) ->
  forall (n fuel : nat) expire s,
    (n < fuel)%nat ->
    exists s',
      SimUMAD._execute_loop env fuel buf path rmatch expire (Z.of_nat n) s = (Ok None, s') /\
      pkt_sent (net s') = pkt_sent (net s) ++ repeat req n /\
      mono_reads (net s') = (mono_reads (net s) + 2 * n + 1)%nat /\
      traced (net s') = traced (net s).
Proof.
  intros Hreq Hnone. induction n as [|n IH]; intros fuel expire s Hf.
  - destruct fuel as [|fuel]; [lia|].
    rewrite _execute_loop_give_up by apply Hnone.
    destruct (recvfrom_frame expire s) as (Hs & Ht & _ & Hm & _).
    eexists. split; [reflexivity|]. cbn [repeat].
    rewrite Hs, Ht, Hm, app_nil_r. repeat split; lia.
  - destruct fuel as [|fuel]; [lia|].
    rewrite (_execute_loop_resend _ _ _ req) by (auto; lia).
    replace (Z.of_nat (S n) - 1) with (Z.of_nat n) by lia.
    destruct (recvfrom_frame expire s) as (Hs & Ht & _ & Hm & _).
    match goal with
    | |- context [SimUMAD._execute_loop env fuel buf path rmatch ?e _ ?st] =>
        destruct (IH fuel e st ltac:(lia)) as (s' & Hrun & Hsent & Hmono & Htr)
    end.
    exists s'. split; [exact Hrun|].
    rewrite Hsent, Hmono, Htr. cbn [clock_monotonic pkt_sock_send modify with_net snd net
      pkt_sent mono_reads traced].
    rewrite Hs, Ht, Hm. repeat split; [|lia].
    rewrite <- app_assoc. reflexivity.
Qed.

(** C1. When every receive attempt returns "no data", [_execute] with
    [send_only] false on a path of retry count [r] returns [None] after
    exactly [r + 1] sends of the same request, the first one and [r] resends,
    and calls no trace function. Each turn that finds no data with retries
    left resends, then takes the deadline as [mad_timeout] past a new clock
    reading and spends one retry. *)
Theorem execute_no_reply (buf : bytes) (path : IBPath.t) (req : bytes) (s : State)
  (fuel : nat) :
  request_of buf path = Some req ->
  0 <= IBPath.retries path ->
  (forall wakeat s', fst (SimUMAD.recvfrom env wakeat s') = Ok None) ->
  (Z.to_nat (IBPath.retries path) < fuel)%nat ->
  (exists s',
      SimUMAD._execute env fuel buf path false s = (Ok None, s') /\
      pkt_sent (net s') =
        pkt_sent (net s) ++ repeat req (Z.to_nat (IBPath.retries path) + 1) /\
      traced (net s') = traced (net s)) /\
  (forall fuel' rmatch expire k s1,
      k <> 0 ->
      let s2 := snd (pkt_sock_send req (snd (SimUMAD.recvfrom env expire s1))) in
      SimUMAD._execute_loop env (S fuel') buf path rmatch expire k s1 =
      SimUMAD._execute_loop env fuel' buf path rmatch
        (mad_timeout path + mono_clock env (mono_reads (net s2)))%Q (k - 1)
        (snd (clock_monotonic env s2))).
Proof.
  intros Hreq Hr Hnone Hf. split.
  - unfold SimUMAD._execute. unfold bind at 1.
    rewrite (sendto_some _ _ _ _ Hreq). cbn [snd]. unfold bind at 1.
    cbn [clock_monotonic fst].
    match goal with
    | |- context [SimUMAD._execute_loop env fuel buf path ?k ?e _ ?st] =>
        destruct (_execute_loop_silent buf path req k Hreq Hnone
                    (Z.to_nat (IBPath.retries path)) fuel e st Hf)
          as (s' & Hrun & Hsent & _ & Htr)
    end.
    rewrite Z2Nat.id in Hrun by exact Hr.
    exists s'. split; [exact Hrun|]. rewrite Hsent, Htr. split; [|reflexivity].
    cbn [pkt_sock_send modify with_net snd net pkt_sent].
    rewrite <- app_assoc. f_equal.
    rewrite Nat.add_comm. reflexivity.
  - intros fuel' rmatch expire k s1 Hk.
    apply _execute_loop_resend; auto.
Qed.

(** What telling the trace function changes: the trace log. *)
Lemma after_trace_frame path r s :
  let s' := after_trace path r s in
  pkt_sent (net s') = pkt_sent (net s) /\
  pkt_polls (net s') = pkt_polls (net s) /\
  umad s' = umad s /\
  traced (net s') =
    traced (net s) ++
    match trace_func (umad s) with
    | Some h => [Build_TraceCall h TRACE_UNEXPECTED path r]
    | None => []
    end.
Proof.
  cbv zeta. unfold after_trace. destruct (trace_func (umad s)).
  - repeat split; reflexivity.
  - rewrite app_nil_r. repeat split; reflexivity.
Qed.

(** Silence from some poll on: the loop with [n] retries left resends [n]
    times and gives up. *)
Lemma _execute_loop_silent_from buf path req rmatch (N : nat) :
  request_of buf path = Some req ->
  (forall wakeat s, (N <= pkt_polls (net s))%nat ->
                    fst (SimUMAD.recvfrom env wakeat s) = Ok None) ->
  forall (n fuel : nat) expire s,
    (N <= pkt_polls (net s))%nat ->
    (n < fuel)%nat ->
    exists s',
      SimUMAD._execute_loop env fuel buf path rmatch expire (Z.of_nat n) s = (Ok None, s') /\
      pkt_sent (net s') = pkt_sent (net s) ++ repeat req n /\
      traced (net s') = traced (net s).
Proof.
  intros Hreq Hnone. induction n as [|n IH]; intros fuel expire s HN Hf.
  - destruct fuel as [|fuel]; [lia|].
    rewrite _execute_loop_give_up by (apply Hnone; exact HN).
    destruct (recvfrom_frame expire s) as (Hs & Ht & _).
    eexists. split; [reflexivity|]. cbn [repeat].
    rewrite Hs, Ht, app_nil_r. split; reflexivity.
  - destruct fuel as [|fuel]; [lia|].
    rewrite (_execute_loop_resend _ _ _ req) by (auto; lia).
    replace (Z.of_nat (S n) - 1) with (Z.of_nat n) by lia.
    destruct (recvfrom_frame expire s) as (Hs & Ht & _).
    pose proof (recvfrom_polls expire s) as Hp. cbv zeta in Hp.
    match goal with
    | |- context [SimUMAD._execute_loop env fuel buf path rmatch ?e _ ?st] =>
        destruct (IH fuel e st) as (s' & Hrun & Hsent & Htr);
        [cbn [clock_monotonic pkt_sock_send modify with_net snd net pkt_polls]; lia
        |lia|]
    end.
    exists s'. split; [exact Hrun|].
    rewrite Hsent, Htr. cbn [clock_monotonic pkt_sock_send modify with_net snd net
      pkt_sent traced].
    rewrite Hs, Ht. split; [|reflexivity].
    rewrite <- app_assoc. reflexivity.
Qed.

(** C5. [_execute] sends the request and takes the deadline [expire] from
    the clock. Let the first receive on [expire] give a datagram [r1] whose
    match key differs from the expected one. If the next receive on the same
    [expire] gives [r2] whose key equals it, then [_execute] returns [r2]; the
    trace function, when there is one, was called exactly once, with
    [TRACE_UNEXPECTED], the path of the request and [r1]; and the request was
    sent once. If instead nothing arrives any more, the request is resent as
    many times as the path has retries, all of them: [_execute] returns
    [None] after [retries + 1] sends, as it does when no datagram arrives at
    all, so the mismatched datagram has spent no retry. And any turn of the
    loop that receives a mismatched datagram goes on with the deadline and
    the number of retries it had. *)
Theorem execute_unexpected_then_match (buf : bytes) (path : IBPath.t) (req : bytes)
  (s s2 : State) (r1 : bytes * IBPath.t) (fuel : nat) :
  let rmatch := _get_reply_match_key buf in
  let s0 := snd (pkt_sock_send req s) in
  let expire := (mad_timeout path + mono_clock env (mono_reads (net s0)))%Q in
  let s1 := snd (clock_monotonic env s0) in
  let traced1 :=
    traced (net s) ++
    match trace_func (umad s) with
    | Some h => [Build_TraceCall h TRACE_UNEXPECTED path r1]
    | None => []
    end in
  request_of buf path = Some req ->
  SimUMAD.recvfrom env expire s1 = (Ok (Some r1), s2) ->
  Key_eqb rmatch (_get_match_key (fst r1)) = false ->
  (forall r2 s3,
      SimUMAD.recvfrom env expire (after_trace path r1 s2) = (Ok (Some r2), s3) ->
      Key_eqb rmatch (_get_match_key (fst r2)) = true ->
      (2 <= fuel)%nat ->
      SimUMAD._execute env fuel buf path false s = (Ok (Some r2), s3) /\
      traced (net s3) = traced1 /\
      pkt_sent (net s3) = pkt_sent (net s) ++ [req]) /\
  ((forall wakeat s', (pkt_polls (net s2) <= pkt_polls (net s'))%nat ->
                      fst (SimUMAD.recvfrom env wakeat s') = Ok None) ->
   0 <= IBPath.retries path ->
   (Z.to_nat (IBPath.retries path) + 1 < fuel)%nat ->
   exists s',
     SimUMAD._execute env fuel buf path false s = (Ok None, s') /\
     pkt_sent (net s') =
       pkt_sent (net s) ++ repeat req (Z.to_nat (IBPath.retries path) + 1) /\
     traced (net s') = traced1) /\
  (forall fuel' k e sa sb r,
      SimUMAD.recvfrom env e sa = (Ok (Some r), sb) ->
      Key_eqb rmatch (_get_match_key (fst r)) = false ->
      SimUMAD._execute_loop env (S fuel') buf path rmatch e k sa =
      SimUMAD._execute_loop env fuel' buf path rmatch e k (after_trace path r sb)).
Proof.
  intros rmatch s0 expire s1 traced1 Hreq H1 Hk1.
  pose proof (recvfrom_frame expire s1) as F1. rewrite H1 in F1.
  cbv zeta in F1. cbn [snd] in F1.
  destruct F1 as (Fs1 & Ft1 & _ & _ & Fu1 & _).
  destruct (after_trace_frame path r1 s2) as (As & Ap & Au & At).
  assert (Hstep : forall fuel' k e sa sb r,
             SimUMAD.recvfrom env e sa = (Ok (Some r), sb) ->
             Key_eqb rmatch (_get_match_key (fst r)) = false ->
             SimUMAD._execute_loop env (S fuel') buf path rmatch e k sa =
             SimUMAD._execute_loop env fuel' buf path rmatch e k (after_trace path r sb)).
  { intros fuel' k e sa sb r Hr Hk.
    apply (_execute_loop_unexpected _ _ _ _ _ _ _ _ _ Hr Hk). }
  assert (Hrun : forall fuel',
             SimUMAD._execute env (S fuel') buf path false s =
             SimUMAD._execute_loop env fuel' buf path rmatch expire (IBPath.retries path)
               (after_trace path r1 s2)).
  { intros fuel'. unfold SimUMAD._execute. unfold bind at 1.
    rewrite (sendto_some _ _ _ _ Hreq). cbn [snd]. unfold bind at 1.
    cbn [clock_monotonic fst].
    change (SimUMAD._execute_loop env (S fuel') buf path rmatch expire
              (IBPath.retries path) s1 =
            SimUMAD._execute_loop env fuel' buf path rmatch expire
              (IBPath.retries path) (after_trace path r1 s2)).
    apply (Hstep _ _ _ _ _ _ H1 Hk1). }
  assert (Htr : traced (net (after_trace path r1 s2)) = traced1).
  { rewrite At, Ft1, Fu1. reflexivity. }
  assert (Hsn : pkt_sent (net (after_trace path r1 s2)) = pkt_sent (net s) ++ [req]).
  { rewrite As, Fs1. reflexivity. }
  split; [|split].
  - intros r2 s3 H2 Hk2 Hf.
    pose proof (recvfrom_frame expire (after_trace path r1 s2)) as F2. rewrite H2 in F2.
    cbv zeta in F2. cbn [snd] in F2. destruct F2 as (Fs2 & Ft2 & _).
    destruct fuel as [|[|fuel]]; try lia.
    split; [|split].
    + rewrite Hrun. apply (_execute_loop_match _ _ _ _ _ _ _ _ _ H2 Hk2).
    + rewrite Ft2. exact Htr.
    + rewrite Fs2. exact Hsn.
  - intros Hnone Hr Hf. destruct fuel as [|fuel]; [lia|].
    destruct (_execute_loop_silent_from buf path req rmatch (pkt_polls (net s2))
                Hreq Hnone (Z.to_nat (IBPath.retries path)) fuel expire
                (after_trace path r1 s2))
      as (s' & Hl & Hsent & Htraced); [rewrite Ap; lia | lia |].
    rewrite Z2Nat.id in Hl by exact Hr.
    exists s'. split; [rewrite Hrun; exact Hl|].
    rewrite Hsent, Htraced, Hsn. split; [|exact Htr].
    rewrite <- app_assoc. f_equal. rewrite Nat.add_comm. reflexivity.
  - exact Hstep.
Qed.

End Transactor.

(** ** The control call *)

Section ControlCall.
Context {X : Externals} (env : Env).

Lemma _ctl_sent type data s msg :
  ctl_msg s type data = Some msg ->
  SimConnection._ctl env type data s = (ctl_result env s, after_ctl env msg s).
Proof.
  unfold ctl_msg, SimConnection._ctl, bind, gets. intros ->.
  unfold ctl_result, ctl_resp, after_ctl. msimpl.
  destruct (ctl_recv_error _ _); [reflexivity|].
  destruct (struct_ctl.unpack _ _); reflexivity.
Qed.

(** The three outcomes of a control call whose envelope is out. *)
Lemma ctl_result_error s e :
  ctl_recv_error env (ctl_recvs (net s)) = Some e ->
  ctl_result env s = Raise (SocketError e).
Proof. unfold ctl_result. intros ->. reflexivity. Qed.

Lemma _ctl_not_sent type data s :
  ctl_msg s type data = None ->
  SimConnection._ctl env type data s = (Raise StructError, s).
Proof.
  unfold ctl_msg, SimConnection._ctl, bind, gets. intros ->. reflexivity.
Qed.

Lemma ctl_msg_some s type data :
  uint 4 (_client_id s) -> uint 4 type -> uint 4 (len data) ->
  exists msg, ctl_msg s type data = Some msg.
Proof.
  intros. apply struct_ctl_pack_some; try assumption.
  unfold uint, SIM_MAGIC. simpl. lia.
Qed.

Lemma ctl_msg_none s type data :
  ctl_msg s type data = None ->
  ~ (uint 4 (_client_id s) /\ uint 4 type /\ uint 4 (len data)).
Proof.
  intros Hn (H1 & H2 & H3).
  destruct (ctl_msg_some s type data H1 H2 H3) as [msg Hm]. congruence.
Qed.

Lemma ctl_msg_range s type data msg :
  ctl_msg s type data = Some msg ->
  uint 4 (_client_id s) /\ uint 4 type /\ uint 4 (len data).
Proof.
  intros Hm. apply struct_ctl_pack_inv in Hm.
  destruct Hm as (m & c & t & l & Em & Ec & Et & El & _).
  apply pack_uint_range in Ec, Et, El. auto.
Qed.

Lemma after_ctl_frame msg s :
  let s' := after_ctl env msg s in
  ctl_sent (net s') = ctl_sent (net s) ++ [msg] /\
  ctl_recvs (net s') = S (ctl_recvs (net s)) /\
  wall_reads (net s') = wall_reads (net s) /\
  port s' = port s /\ umad s' = umad s /\ _client_id s' = _client_id s.
Proof. cbv zeta. unfold after_ctl. msimpl. repeat split; reflexivity. Qed.

(** A reply of at least 80 bytes always decodes. *)
Lemma ctl_resp_decodes s :
  (80 <= List.length (ctl_reply env (ctl_recvs (net s))))%nat ->
  struct_ctl.unpack host_order (ctl_resp env s) =
  Some (Struct.unpack_uint host_order (slice 0 4 (ctl_resp env s)),
        Struct.unpack_uint host_order (slice 4 4 (ctl_resp env s)),
        Struct.unpack_uint host_order (slice 8 4 (ctl_resp env s)),
        Struct.unpack_uint host_order (slice 12 4 (ctl_resp env s)),
        slice 16 64 (ctl_reply env (ctl_recvs (net s)))).
Proof.
  intros H. unfold struct_ctl.unpack, ctl_resp, struct_ctl.size.
  rewrite length_firstn, Nat.min_l by exact H. rewrite Nat.eqb_refl.
  do 2 f_equal. unfold slice.
  rewrite skipn_firstn_comm, firstn_firstn. reflexivity.
Qed.

Lemma ctl_resp_short s :
  (List.length (ctl_reply env (ctl_recvs (net s))) < 80)%nat ->
  struct_ctl.unpack host_order (ctl_resp env s) = None.
Proof.
  intros H. unfold struct_ctl.unpack, ctl_resp, struct_ctl.size.
  rewrite length_firstn, Nat.min_r by lia.
  destruct (Nat.eqb_spec (List.length (ctl_reply env (ctl_recvs (net s)))) 80);
    [lia|reflexivity].
Qed.

Lemma ctl_result_decodes s :
  ctl_recv_error env (ctl_recvs (net s)) = None ->
  (80 <= List.length (ctl_reply env (ctl_recvs (net s))))%nat ->
  ctl_result env s =
  Ok (Struct.unpack_uint host_order (slice 0 4 (ctl_resp env s)),
      Struct.unpack_uint host_order (slice 4 4 (ctl_resp env s)),
      Struct.unpack_uint host_order (slice 8 4 (ctl_resp env s)),
      Struct.unpack_uint host_order (slice 12 4 (ctl_resp env s)),
      slice 16 64 (ctl_reply env (ctl_recvs (net s)))).
Proof.
  intros He H. unfold ctl_result. rewrite He, (ctl_resp_decodes s H). reflexivity.
Qed.

Lemma ctl_result_short s :
  ctl_recv_error env (ctl_recvs (net s)) = None ->
  (List.length (ctl_reply env (ctl_recvs (net s))) < 80)%nat ->
  ctl_result env s = Raise StructError.
Proof.
  intros He H. unfold ctl_result. rewrite He, (ctl_resp_short s H). reflexivity.
Qed.

(** What [__del__] does: it sends one [DISCONNECT] envelope with an empty
    payload and waits for one reply, which it decodes; the data socket and
    its peer are not touched. *)
Lemma __del___envelope s :
  uint 4 (_client_id s) ->
  exists msg,
    SimConnection.__del__ env s = (ctl_result env s, after_ctl env msg s) /\
    struct_ctl.unpack host_order msg =
      Some (SIM_MAGIC, _client_id s, SIM_CTL_DISCONNECT, 0, repeat Byte.x00 64) /\
    ctl_sent (net (after_ctl env msg s)) = ctl_sent (net s) ++ [msg] /\
    pkt_sent (net (after_ctl env msg s)) = pkt_sent (net s) /\
    pkt_peer (after_ctl env msg s) = pkt_peer s.
Proof.
  intros Hc.
  destruct (ctl_msg_some s SIM_CTL_DISCONNECT [] Hc) as [msg Hm];
    [unfold uint, SIM_CTL_DISCONNECT; simpl; lia | unfold uint, len; simpl; lia |].
  exists msg. split; [|split; [|repeat split]].
  - apply (_ctl_sent _ _ _ _ Hm).
  - apply struct_ctl_unpack_pack in Hm. exact Hm.
Qed.

End ControlCall.

(** ** The port state cache *)

Section PortCache.
Context {X : Externals} (env : Env).

Lemma pack_uint_B o v : uint 1 v -> Struct.pack_uint o 1 v = Some [byte.of_Z v].
Proof.
  intros [H1 H2]. unfold Struct.pack_uint.
  apply Z.leb_le in H1. apply Z.ltb_lt in H2. rewrite H1, H2.
  destruct o; reflexivity.
Qed.

(** A read that finds the cache fresh: no control call. *)
Lemma _get_fresh field s :
  SimEndPort.stale (wall_clock env (wall_reads (net s))) (_port_info_age (port s)) = false ->
  SimEndPort._get env field s =
  (Ok (SMPPortInfo.getattr (_port_info (port s)) field), snd (time_time env s)).
Proof.
  intros H. unfold SimEndPort._get, bind, gets, time_time at 1.
  cbn [fst snd port with_net]. rewrite H. reflexivity.
Qed.

(** A read that finds the cache stale, as far as the envelope goes out. *)
Lemma _get_stale field s payload msg :
  SimEndPort.stale (wall_clock env (wall_reads (net s))) (_port_info_age (port s)) = true ->
  Struct.pack_uint host_order 1 (port_id (port s)) = Some payload ->
  ctl_msg (snd (time_time env s)) SIM_CTL_GET_PORTINFO payload = Some msg ->
  let now := wall_clock env (wall_reads (net s)) in
  let s0 := snd (time_time env s) in
  SimEndPort._get env field s =
  match ctl_result env s0 with
  | Ok r =>
      let info := SMPPortInfo_unpack_from (snd r) in
      (Ok (SMPPortInfo.getattr info field),
       with_port (SimEndPort.set_port_info info now) (after_ctl env msg s0))
  | Raise e => (Raise e, after_ctl env msg s0)
  | OutOfFuel => (OutOfFuel, after_ctl env msg s0)
  end.
Proof.
  intros H Hp Hm. cbv zeta. unfold SimEndPort._get.
  unfold time_time in *. cbn [fst snd] in *. unfold bind at 1.
  unfold bind at 1. unfold gets at 1. cbn [port with_net].
  rewrite H.
  unfold bind at 1. unfold bind at 1. unfold gets at 1. cbn [port with_net].
  rewrite Hp. unfold struct_call. unfold bind at 1. unfold ret at 1.
  unfold bind at 1.
  rewrite (_ctl_sent env _ _ _ _ Hm).
  destruct (ctl_result env _) as [r| |]; reflexivity.
Qed.

(** C2. A read of a port attribute takes the time once and tests
    [now > age + 1] on binary64 numbers, the sum being rounded as the machine
    rounds it. If the test fails, no control call is made, the port object is
    unchanged and the cached value is returned. If it holds, one
    [GET_PORTINFO] envelope whose payload is the port index is sent (for a
    port index of one byte and a client id of 32 bits); a reply of at least
    80 bytes replaces the whole cached port info by the decoded payload, sets
    the timestamp to the time read and the new value is returned; a shorter
    reply raises [struct.error], an error of the receive is raised as it is,
    and both leave the cache as it was. *)
Theorem port_cache_ttl (field : SMPPortInfo.attr) (s : State) :
  let now := wall_clock env (wall_reads (net s)) in
  let age := _port_info_age (port s) in
  let reply := ctl_reply env (ctl_recvs (net s)) in
  let received := ctl_recv_error env (ctl_recvs (net s)) in
  let r := fst (SimEndPort._get env field s) in
  let s' := snd (SimEndPort._get env field s) in
  ((age + 1 <? now)%float = false ->
   r = Ok (SMPPortInfo.getattr (_port_info (port s)) field) /\
   ctl_sent (net s') = ctl_sent (net s) /\
   ctl_recvs (net s') = ctl_recvs (net s) /\
   port s' = port s) /\
  ((age + 1 <? now)%float = true ->
   uint 1 (port_id (port s)) -> uint 4 (_client_id s) ->
   exists msg,
     ctl_sent (net s') = ctl_sent (net s) ++ [msg] /\
     ctl_recvs (net s') = S (ctl_recvs (net s)) /\
     struct_ctl.unpack host_order msg =
       Some (SIM_MAGIC, _client_id s, SIM_CTL_GET_PORTINFO, 1,
             byte.of_Z (port_id (port s)) :: repeat Byte.x00 63) /\
     (received = None -> (80 <= List.length reply)%nat ->
      let info := SMPPortInfo_unpack_from (slice 16 64 reply) in
      r = Ok (SMPPortInfo.getattr info field) /\
      port s' = SimEndPort.set_port_info info now (port s)) /\
     (received = None -> (List.length reply < 80)%nat ->
      r = Raise StructError /\ port s' = port s) /\
     (forall e, received = Some e ->
                r = Raise (SocketError e) /\ port s' = port s)).
Proof.
  cbv zeta. split.
  - intros H. rewrite (_get_fresh _ _ H). cbn [fst snd].
    unfold time_time. msimpl. repeat split; reflexivity.
  - intros H Hpid Hcid.
    pose proof (pack_uint_B host_order _ Hpid) as Hp.
    destruct (ctl_msg_some (snd (time_time env s)) SIM_CTL_GET_PORTINFO
                [byte.of_Z (port_id (port s))]) as [msg Hm];
      [exact Hcid | unfold uint, SIM_CTL_GET_PORTINFO; simpl; lia
      | unfold uint, len; simpl; lia |].
    rewrite (_get_stale field s _ msg H Hp Hm). cbv zeta.
    exists msg. split; [|split; [|split; [|split; [|split]]]].
    + destruct (ctl_result env _); cbn [snd];
        unfold after_ctl; msimpl; reflexivity.
    + destruct (ctl_result env _); cbn [snd];
        unfold after_ctl; msimpl; reflexivity.
    + apply struct_ctl_unpack_pack in Hm. exact Hm.
    + intros He Hlen.
      change (ctl_reply env (ctl_recvs (net s)))
        with (ctl_reply env (ctl_recvs (net (snd (time_time env s))))).
      rewrite (ctl_result_decodes env (snd (time_time env s)) He Hlen).
      cbn [fst snd]. split; reflexivity.
    + intros He Hlen.
      rewrite (ctl_result_short env (snd (time_time env s)) He Hlen). cbn [fst snd].
      split; reflexivity.
    + intros e He.
      rewrite (ctl_result_error env (snd (time_time env s)) e He). cbn [fst snd].
      split; reflexivity.
Qed.

End PortCache.

(** ** What every method leaves alone *)

Section Frame.
Context {X : Externals} (env : Env).

Lemma step_refl s : step s s.
Proof.
  constructor; try reflexivity; auto.
  exists []. rewrite app_nil_r. auto.
Qed.

Lemma step_trans s1 s2 s3 : step s1 s2 -> step s2 s3 -> step s1 s3.
Proof.
  intros [a1 b1 c1 d1 e1 (m1 & f1 & g1)] [a2 b2 c2 d2 e2 (m2 & f2 & g2)].
  constructor; try congruence; auto.
  exists (m1 ++ m2). rewrite f2, f1, app_assoc. split; [reflexivity|].
  apply Forall_app; auto.
Qed.

(** A change of the log that does not touch the control socket's sends. *)
Lemma step_with_net f s :
  (forall n, ctl_sent (f n) = ctl_sent n) -> step s (with_net f s).
Proof.
  intros H. constructor; try reflexivity; auto.
  exists []. cbn [with_net net]. rewrite H, app_nil_r. auto.
Qed.

Lemma preserves_ret {A} (a : A) : preserves (ret a).
Proof. intros s. apply step_refl. Qed.

Lemma preserves_raise {A} e : preserves (@raise A e).
Proof. intros s. apply step_refl. Qed.

Lemma preserves_gets {A} (f : State -> A) : preserves (gets f).
Proof. intros s. apply step_refl. Qed.

Lemma preserves_struct_call {A} (x : option A) : preserves (struct_call x).
Proof. intros s. destruct x; apply step_refl. Qed.

Lemma preserves_bind {A B} (c : M A) (k : A -> M B) :
  preserves c -> (forall a, preserves (k a)) -> preserves (bind c k).
Proof.
  intros Hc Hk s. unfold bind. specialize (Hc s).
  destruct (c s) as [[a| |] s']; cbn [snd] in *; auto.
  eapply step_trans; [exact Hc|apply Hk].
Qed.

Lemma preserves_except {A} (c h : M A) :
  preserves c -> preserves h -> preserves (except_ValueError c h).
Proof.
  intros Hc Hh s. unfold except_ValueError. specialize (Hc s).
  destruct (c s) as [[a|[]|] s']; cbn [snd] in *; auto.
  eapply step_trans; [exact Hc|apply Hh].
Qed.

Lemma preserves_time_time : preserves (time_time env).
Proof. intros s. apply step_with_net. reflexivity. Qed.

Lemma preserves_clock_monotonic : preserves (clock_monotonic env).
Proof. intros s. apply step_with_net. reflexivity. Qed.

Lemma preserves_ctl_sock_recv n : preserves (ctl_sock_recv env n).
Proof. intros s. apply step_with_net. reflexivity. Qed.

Lemma preserves_pkt_sock_send req : preserves (pkt_sock_send req).
Proof. intros s. apply step_with_net. reflexivity. Qed.

Lemma preserves_poll_poll ms : preserves (poll_poll env ms).
Proof. intros s. apply step_with_net. reflexivity. Qed.

Lemma preserves_pkt_sock_recv n : preserves (pkt_sock_recv env n).
Proof. intros s. apply step_with_net. reflexivity. Qed.

Lemma preserves_call_trace_func h k p r : preserves (call_trace_func h k p r).
Proof. intros s. apply step_with_net. reflexivity. Qed.

Lemma preserves_with_client_id v : preserves (modify (with_client_id v)).
Proof.
  intros s. constructor; try reflexivity; auto.
  exists []. cbn. rewrite app_nil_r. auto.
Qed.

Lemma preserves_with_pkt_peer v : preserves (modify (with_pkt_peer v)).
Proof.
  intros s. constructor; try reflexivity; auto.
  exists []. cbn. rewrite app_nil_r. auto.
Qed.

Lemma preserves_socket_setup : preserves (socket_setup env).
Proof.
  intros s. unfold socket_setup. destruct (setup_error env); apply step_refl.
Qed.

Lemma preserves_pkt_sock_connect p : preserves (pkt_sock_connect env p).
Proof.
  intros s. unfold pkt_sock_connect.
  destruct (_ && _); [|apply step_refl].
  destruct (pkt_connect_error env); [apply step_refl|].
  apply preserves_with_pkt_peer.
Qed.

Lemma preserves_with_umad f : preserves (modify (with_umad f)).
Proof.
  intros s. constructor; try reflexivity; auto.
  exists []. cbn. rewrite app_nil_r. auto.
Qed.

Lemma preserves_set_port_info info age :
  preserves (modify (with_port (SimEndPort.set_port_info info age))).
Proof.
  intros s. constructor; try reflexivity; auto.
  exists []. cbn. rewrite app_nil_r. auto.
Qed.

Lemma preserves_set_gids g : preserves (modify (with_port (SimEndPort.set_gids g))).
Proof.
  intros s. constructor; try reflexivity; auto.
  exists []. cbn. rewrite app_nil_r. auto.
Qed.

(** [_ctl] with one of the four opcodes. *)
Lemma preserves__ctl type data :
  issued_type type -> preserves (SimConnection._ctl env type data).
Proof.
  intros Ht s. destruct (ctl_msg s type data) as [msg|] eqn:E.
  - rewrite (_ctl_sent env _ _ _ _ E). cbn [snd].
    constructor; try reflexivity; auto.
    exists [msg]. split; [reflexivity|]. constructor; [|constructor].
    apply struct_ctl_unpack_pack in E. red. eauto 10.
  - rewrite (_ctl_not_sent env _ _ _ E). apply step_refl.
Qed.

End Frame.

Create HintDb frame.
#[local] Hint Resolve preserves_ret preserves_raise preserves_gets preserves_struct_call
  preserves_time_time preserves_clock_monotonic preserves_ctl_sock_recv
  preserves_pkt_sock_send preserves_poll_poll preserves_pkt_sock_recv
  preserves_call_trace_func preserves_with_client_id preserves_with_pkt_peer
  preserves_with_umad preserves_set_port_info preserves_set_gids
  preserves_socket_setup preserves_pkt_sock_connect : frame.

(** Walks through a method, one bind at a time. *)
Ltac frame :=
  repeat match goal with
         | |- preserves (bind _ _) => apply preserves_bind; [|intro]
         | |- preserves (except_ValueError _ _) => apply preserves_except
         | |- preserves (SimConnection._ctl _ _ _) =>
             apply preserves__ctl; red; tauto
         | |- preserves (if ?b then _ else _) => destruct b
         | |- preserves (match ?x with Some _ => _ | None => _ end) => destruct x
         | |- preserves (match ?x with [] => _ | _ :: _ => _ end) => destruct x
         | |- preserves (let '(_, _) := ?x in _) => destruct x
         | |- preserves _ => solve [auto with frame]
         end.

(** ** The methods of the module, as calls *)

Section Calls.
Context {X : Externals} (env : Env).

Lemma preserves__get field : preserves (SimEndPort._get env field).
Proof. unfold SimEndPort._get. frame. Qed.

Lemma preserves_gids : preserves (SimEndPort.gids env).
Proof.
  unfold SimEndPort.gids. frame; try apply preserves__get.
  unfold SimEndPort.bytearray_setitem. frame.
Qed.

Lemma preserves_pkey_index pkey : preserves (SimEndPort.pkey_index pkey).
Proof. unfold SimEndPort.pkey_index. frame. Qed.

Lemma preserves_from_any s {A} (c : M A) : preserves c -> preserves_from s c.
Proof. intros H s0 H0. eapply step_trans; [exact H0|apply H]. Qed.

Lemma preserves_from_bind s {A B} (c : M A) (k : A -> M B) :
  preserves_from s c -> (forall a, preserves_from s (k a)) ->
  preserves_from s (bind c k).
Proof.
  intros Hc Hk s0 H0. unfold bind. specialize (Hc s0 H0).
  destruct (c s0) as [[a| |] s1]; cbn [snd] in *; auto.
  apply Hk. exact Hc.
Qed.

Lemma preserves_from_set_cached_sa_path s path :
  _cached_sa_path (port s) = None ->
  preserves_from s (modify (with_port (SimEndPort.set_cached_sa_path path))).
Proof.
  intros H s0 [a b c d e f]. constructor; auto.
  intros p Hp. congruence.
Qed.

Lemma preserves_sa_path : preserves (SimEndPort.sa_path env).
Proof.
  intros s. unfold SimEndPort.sa_path. unfold bind at 1. unfold gets at 1.
  destruct (_cached_sa_path (port s)) as [p|] eqn:Hc; [apply step_refl|].
  revert s Hc.
  match goal with
  | |- forall s, _ -> step s (snd (?c s)) =>
      cut (forall s, _cached_sa_path (port s) = None -> preserves_from s c);
      [intros H s Hc; apply (H s Hc s (step_refl s))|]
  end.
  intros s Hc.
  apply preserves_from_bind;
    [apply preserves_from_any; frame; apply preserves_pkey_index|intro].
  apply preserves_from_bind; [apply preserves_from_any; frame|intro].
  apply preserves_from_bind;
    [apply preserves_from_any; apply preserves__get|intro].
  apply preserves_from_bind;
    [apply preserves_from_any; apply preserves__get|intro].
  apply preserves_from_bind;
    [apply preserves_from_any; apply preserves__get|intro].
  apply preserves_from_bind;
    [apply preserves_from_any; unfold SimEndPort.subnet_timeout; frame|intro].
  apply preserves_from_bind;
    [apply preserves_from_set_cached_sa_path; exact Hc|intro].
  apply preserves_from_any. frame.
Qed.

Lemma preserves_recvfrom wakeat : preserves (SimUMAD.recvfrom env wakeat).
Proof.
  unfold SimUMAD.recvfrom. frame.
Qed.

Lemma preserves_sendto buf path : preserves (SimUMAD.sendto buf path).
Proof. unfold SimUMAD.sendto. frame. Qed.

Lemma preserves__execute_loop fuel buf path rmatch :
  forall expire retries,
    preserves (SimUMAD._execute_loop env fuel buf path rmatch expire retries).
Proof.
  induction fuel as [|fuel IH]; intros expire retries.
  - intros s. apply step_refl.
  - cbn [SimUMAD._execute_loop].
    frame; try apply preserves_recvfrom; try apply preserves_sendto; apply IH.
Qed.

Lemma preserves__execute fuel buf path sendOnly :
  preserves (SimUMAD._execute env fuel buf path sendOnly).
Proof.
  unfold SimUMAD._execute.
  frame; try apply preserves_sendto; apply preserves__execute_loop.
Qed.

Lemma preserves_do_call c : preserves (do_call env c).
Proof.
  destruct c; cbn [do_call].
  - unfold SimConnection.__init__. frame.
  - unfold SimConnection.__del__. frame.
  - unfold SimDevice.__init__. frame.
  - frame. apply preserves__get.
  - unfold SimEndPort.rate. frame; apply preserves__get.
  - frame. apply preserves_gids.
  - unfold SimEndPort.default_gid. frame. apply preserves_gids.
  - unfold SimEndPort.subnet_timeout. frame.
  - frame. apply preserves_pkey_index.
  - frame. apply preserves_sa_path.
  - unfold SimUMAD._get_new_TID. frame.
  - apply preserves_sendto.
  - frame. apply preserves_recvfrom.
  - frame. apply preserves__execute.
Qed.

Lemma step_run cs : forall s, step s (run env cs s).
Proof.
  induction cs as [|c cs IH]; intros s; cbn [run].
  - apply step_refl.
  - eapply step_trans; [apply preserves_do_call|apply IH].
Qed.

End Calls.

(** ** Identifiers and the administrative path *)

Section PortDerived.
Context {X : Externals} (env : Env).

Lemma to_bytes_length g : List.length (GUID.to_bytes g) = 8%nat.
Proof. unfold GUID.to_bytes. rewrite length_rev. apply length_le_split. Qed.

Lemma bytearray_setitem_ok b i v s :
  (i < List.length b)%nat -> uint 1 v ->
  SimEndPort.bytearray_setitem b i v s =
  (Ok (firstn i b ++ [byte.of_Z v] ++ skipn (S i) b), s).
Proof.
  intros Hi [H1 H2]. unfold SimEndPort.bytearray_setitem.
  apply Nat.ltb_lt in Hi. rewrite Hi.
  change (2 ^ (Z.of_nat 1 * 8)) with 256 in H2.
  apply Z.leb_le in H1. apply Z.ltb_lt in H2. rewrite H1, H2. reflexivity.
Qed.

Lemma pack_into_bytearray8 g :
  GUID.pack_into g (repeat Byte.x00 8) = GUID.to_bytes g.
Proof. unfold GUID.pack_into. apply app_nil_r. Qed.

(** [guid = bytearray(8)], [node_guid.pack_into(guid)], [guid[7] = port_id] *)
Lemma guid_setitem7 g p s :
  uint 1 p ->
  SimEndPort.bytearray_setitem (GUID.pack_into g (repeat Byte.x00 8)) 7 p s =
  (Ok (port_iid g p), s).
Proof.
  intros Hp. rewrite pack_into_bytearray8.
  rewrite bytearray_setitem_ok; [| rewrite to_bytes_length; lia | exact Hp].
  reflexivity.
Qed.

(** The memoized identifiers are returned as they are. *)
Lemma gids_memoized s g :
  _gids (port s) = Some g -> SimEndPort.gids env s = (Ok g, s).
Proof. intros H. unfold SimEndPort.gids, bind, gets. rewrite H. reflexivity. Qed.

(** C4 (as amended). On the first derivation, with [prefix] the GID prefix
    read from the port cache and a port index of one byte, the interface
    identifier has 8 bytes: its last byte is the port index and its first 7
    bytes are the first 7 bytes, the high-order ones, of the device GUID in
    network order. [gids] is the one-element tuple of the default-prefixed
    identifier when [prefix] is the default prefix, and otherwise the pair of
    the [prefix]-prefixed and the default-prefixed identifier, in this order;
    the result is memoized. *)
Theorem gids_derivation (s s1 : State) (prefix : Z) :
  _gids (port s) = None ->
  SimEndPort._get env SMPPortInfo.a_GIDPrefix s = (Ok prefix, s1) ->
  uint 1 (port_id (port s)) ->
  let G := GUID.to_bytes (node_guid (parent (port s))) in
  let p := port_id (port s) in
  let iid := port_iid (node_guid (parent (port s))) p in
  let default_gid := GID.mk GID_DEFAULT_PREFIX iid in
  let g := if prefix =? GID_DEFAULT_PREFIX then [default_gid]
           else [GID.mk prefix iid; default_gid] in
  SimEndPort.gids env s = (Ok g, with_port (SimEndPort.set_gids g) s1) /\
  List.length iid = 8%nat /\
  nth_error iid 7 = Some (byte.of_Z p) /\ byte.unsigned (byte.of_Z p) = p /\
  firstn 7 iid = firstn 7 G /\
  SimEndPort.gids env (with_port (SimEndPort.set_gids g) s1) =
    (Ok g, with_port (SimEndPort.set_gids g) s1).
Proof.
  intros Hnone Hget Hp. cbv zeta.
  pose proof (preserves__get env SMPPortInfo.a_GIDPrefix s) as F.
  rewrite Hget in F. cbn [snd] in F. destruct F as [Fid Fpar _ _ _ _].
  pose proof (to_bytes_length (node_guid (parent (port s)))) as HG.
  assert (Hl7 : List.length (firstn 7 (GUID.to_bytes (node_guid (parent (port s))))) = 7%nat)
    by (rewrite length_firstn; lia).
  split; [|split; [|split; [|split; [|split]]]].
  - unfold SimEndPort.gids. unfold bind at 1. unfold gets at 1. rewrite Hnone.
    unfold bind at 1. rewrite Hget.
    unfold bind at 1. unfold gets at 1.
    unfold bind at 1. rewrite Fid, Fpar.
    rewrite guid_setitem7 by exact Hp.
    reflexivity.
  - unfold port_iid. rewrite length_app, Hl7. reflexivity.
  - unfold port_iid. rewrite nth_error_app2 by lia. rewrite Hl7. reflexivity.
  - rewrite byte.unsigned_of_Z. unfold byte.wrap. apply Z.mod_small. exact Hp.
  - unfold port_iid. rewrite firstn_app, Hl7, Nat.sub_diag, firstn_O.
    rewrite (firstn_all2 (n := 7)) by lia. apply app_nil_r.
  - apply gids_memoized. reflexivity.
Qed.

Lemma tuple_index_None x l : SimEndPort.tuple_index x l = None <-> ~ In x l.
Proof.
  induction l as [|y l IH]; cbn [SimEndPort.tuple_index In].
  - tauto.
  - destruct (Z.eqb_spec x y) as [->|Hne].
    + split; [discriminate|]. intros H. exfalso. apply H. left. reflexivity.
    + destruct (SimEndPort.tuple_index x l).
      * split; [discriminate|]. intros H. exfalso.
        assert (H' : ~ In x l) by tauto. apply IH in H'. discriminate.
      * split; [|reflexivity]. intros _ [H|H]; [congruence|]. apply IH in H; auto.
Qed.

(** [tuple.index] gives the position of the first occurrence. *)
Lemma tuple_index_Some x l i :
  SimEndPort.tuple_index x l = Some i ->
  0 <= i /\ nth_error l (Z.to_nat i) = Some x /\ ~ In x (firstn (Z.to_nat i) l).
Proof.
  revert i. induction l as [|y l IH]; cbn [SimEndPort.tuple_index]; intros i.
  - discriminate.
  - destruct (Z.eqb_spec x y) as [->|Hne].
    + intros [= <-]. cbn. split; [lia|]. split; [reflexivity|]. intros [].
    + destruct (SimEndPort.tuple_index x l) as [j|]; [|discriminate].
      intros [= <-]. destruct (IH j eq_refl) as (Hj & Hn & Hf).
      replace (Z.to_nat (j + 1)) with (S (Z.to_nat j)) by lia.
      cbn [nth_error firstn In]. split; [lia|]. split; [exact Hn|].
      intros [H|H]; [congruence|auto].
Qed.

Lemma admin_pkey_index_None ks :
  admin_pkey_index ks = None <->
  ~ In PKEY_DEFAULT ks /\ ~ In PKEY_PARTIAL_DEFAULT ks.
Proof.
  unfold admin_pkey_index. rewrite <- !tuple_index_None.
  destruct (SimEndPort.tuple_index PKEY_DEFAULT ks); split;
    try tauto; try discriminate.
Qed.

Lemma find_admin_pkey s :
  except_ValueError (SimEndPort.pkey_index PKEY_DEFAULT)
    (except_ValueError (SimEndPort.pkey_index PKEY_PARTIAL_DEFAULT)
       (raise (RDMAError no_pkey_msg))) s =
  (match admin_pkey_index (pkeys (port s)) with
   | Some i => Ok i
   | None => Raise (RDMAError no_pkey_msg)
   end, s).
Proof.
  unfold except_ValueError, SimEndPort.pkey_index, admin_pkey_index, bind, gets.
  destruct (SimEndPort.tuple_index PKEY_DEFAULT (pkeys (port s))); [reflexivity|].
  cbn. destruct (SimEndPort.tuple_index PKEY_PARTIAL_DEFAULT (pkeys (port s)));
    reflexivity.
Qed.

(** A port attribute read returns, or raises [struct.error] or the error
    of the receive. *)
Lemma _get_result field s :
  match fst (SimEndPort._get env field s) with
  | Ok _ => True
  | Raise e => e = StructError \/ exists n, e = SocketError n
  | OutOfFuel => False
  end.
Proof.
  unfold SimEndPort._get. unfold bind at 1. unfold time_time at 1.
  unfold bind at 1. unfold gets at 1.
  destruct (SimEndPort.stale _ _); [|exact I].
  unfold bind at 1. unfold bind at 1. unfold gets at 1.
  destruct (Struct.pack_uint _ _ _) as [payload|]; [|left; reflexivity].
  unfold struct_call. unfold bind at 1. unfold ret at 1. unfold bind at 1.
  match goal with
  | |- context [SimConnection._ctl env ?t ?d ?st] =>
      destruct (ctl_msg st t d) as [msg|] eqn:E;
      [rewrite (_ctl_sent env _ _ _ _ E)|rewrite (_ctl_not_sent env _ _ _ E)]
  end; [|left; reflexivity].
  unfold ctl_result.
  destruct (ctl_recv_error _ _) as [n|]; [right; exists n; reflexivity|].
  destruct (struct_ctl.unpack _ _); [exact I|left; reflexivity].
Qed.

Lemma sa_path_memoized s path :
  _cached_sa_path (port s) = Some path -> SimEndPort.sa_path env s = (Ok path, s).
Proof. intros H. unfold SimEndPort.sa_path, bind, gets. rewrite H. reflexivity. Qed.

Lemma sa_path_no_pkey s :
  _cached_sa_path (port s) = None ->
  admin_pkey_index (pkeys (port s)) = None ->
  SimEndPort.sa_path env s = (Raise (RDMAError no_pkey_msg), s).
Proof.
  intros Hc Hk. unfold SimEndPort.sa_path. unfold bind at 1. unfold gets at 1.
  rewrite Hc. unfold bind at 1.
  change "Could not find the SA default PKey"%string with no_pkey_msg.
  rewrite find_admin_pkey, Hk. reflexivity.
Qed.

Lemma sa_path_reads s idx :
  _cached_sa_path (port s) = None ->
  admin_pkey_index (pkeys (port s)) = Some idx ->
  SimEndPort.sa_path env s =
  (dlid <- SimEndPort.sm_lid env ;;
   slid <- SimEndPort.lid env ;;
   sl <- SimEndPort.sm_sl env ;;
   plt <- SimEndPort.subnet_timeout ;;
   let p0 := IBPath_new (port_id (port s)) in
   let path := IBPath.mk (IBPath.end_port p0) dlid slid sl 1 1 IB_DEFAULT_QP1_QKEY
                 idx plt (IBPath.retries p0) (IBPath.DQPN p0) (IBPath.SQPN p0) in
   modify (with_port (SimEndPort.set_cached_sa_path path)) ;;;
   ret path) s.
Proof.
  intros Hc Hk. unfold SimEndPort.sa_path. unfold bind at 1. unfold gets at 1.
  rewrite Hc. unfold bind at 1.
  change "Could not find the SA default PKey"%string with no_pkey_msg.
  rewrite find_admin_pkey, Hk. reflexivity.
Qed.

Lemma sa_path_built s idx dlid slid sl sa sb sc :
  _cached_sa_path (port s) = None ->
  admin_pkey_index (pkeys (port s)) = Some idx ->
  SimEndPort.sm_lid env s = (Ok dlid, sa) ->
  SimEndPort.lid env sa = (Ok slid, sb) ->
  SimEndPort.sm_sl env sb = (Ok sl, sc) ->
  let path := built_sa_path s idx dlid slid sl in
  SimEndPort.sa_path env s =
  (Ok path, with_port (SimEndPort.set_cached_sa_path path) sc).
Proof.
  intros Hc Hk Ha Hb Hcc. cbv zeta. rewrite (sa_path_reads s idx Hc Hk).
  pose proof (preserves__get env SMPPortInfo.a_masterSMLID s) as Fa.
  pose proof (preserves__get env SMPPortInfo.a_LID sa) as Fb.
  pose proof (preserves__get env SMPPortInfo.a_masterSMSL sb) as Fc.
  unfold SimEndPort.sm_lid, SimEndPort.lid, SimEndPort.sm_sl in *.
  rewrite Ha in Fa. rewrite Hb in Fb. rewrite Hcc in Fc. cbn [snd] in *.
  unfold bind at 1. rewrite Ha. unfold bind at 1. rewrite Hb.
  unfold bind at 1. rewrite Hcc.
  unfold SimEndPort.subnet_timeout, bind, gets, built_sa_path.
  rewrite (step_subnet_timeout _ _ Fc), (step_subnet_timeout _ _ Fb),
    (step_subnet_timeout _ _ Fa).
  destruct (_cached_subnet_timeout (port s)); reflexivity.
Qed.

(** With an administrative key in the tuple, the first access returns or
    raises what an attribute read raises. *)
Lemma sa_path_result s idx :
  _cached_sa_path (port s) = None ->
  admin_pkey_index (pkeys (port s)) = Some idx ->
  match fst (SimEndPort.sa_path env s) with
  | Ok _ => True
  | Raise e => e = StructError \/ exists n, e = SocketError n
  | OutOfFuel => False
  end.
Proof.
  intros Hc Hk. rewrite (sa_path_reads s idx Hc Hk).
  unfold SimEndPort.sm_lid, SimEndPort.lid, SimEndPort.sm_sl.
  unfold bind at 1.
  pose proof (_get_result SMPPortInfo.a_masterSMLID s) as Ra.
  destruct (SimEndPort._get env SMPPortInfo.a_masterSMLID s) as [[dlid|e|] sa];
    cbn [fst] in *; auto.
  unfold bind at 1.
  pose proof (_get_result SMPPortInfo.a_LID sa) as Rb.
  destruct (SimEndPort._get env SMPPortInfo.a_LID sa) as [[slid|e|] sb];
    cbn [fst] in *; auto.
  unfold bind at 1.
  pose proof (_get_result SMPPortInfo.a_masterSMSL sb) as Rc.
  destruct (SimEndPort._get env SMPPortInfo.a_masterSMSL sb) as [[sl|e|] sc];
    cbn [fst] in *; auto.
  unfold SimEndPort.subnet_timeout, bind, gets.
  destruct (_cached_subnet_timeout (port sc)); exact I.
Qed.

Lemma sa_path_error_iff s :
  _cached_sa_path (port s) = None ->
  (exists msg, fst (SimEndPort.sa_path env s) = Raise (RDMAError msg)) <->
  admin_pkey_index (pkeys (port s)) = None.
Proof.
  intros Hc. split.
  - intros [msg Hm].
    destruct (admin_pkey_index (pkeys (port s))) as [idx|] eqn:Hk; [|reflexivity].
    pose proof (sa_path_result s idx Hc Hk) as R. rewrite Hm in R.
    destruct R as [R|[n R]]; discriminate.
  - intros Hk. rewrite (sa_path_no_pkey s Hc Hk). eexists. reflexivity.
Qed.

End PortDerived.

Section AdminPath.
Context {X : Externals} (env : Env).

(** C7. On the first access, [sa_path] raises [rdma.RDMAError] (the
    configuration error of the port, "Could not find the SA default PKey") if
    and only if neither the full-membership nor the partial-membership default
    key is in the port's tuple of keys, and then without any control call.
    When one is there, its index is resolved, the full-membership key first,
    and once the three attribute reads have returned the path is built from
    them and memoized; from then on, whatever methods of the module are
    called in between, [sa_path] returns the memoized path and leaves the
    state, the control socket included, as it is. *)
Theorem sa_path_first_access (s : State) :
  _cached_sa_path (port s) = None ->
  let ks := pkeys (port s) in
  ((exists msg, fst (SimEndPort.sa_path env s) = Raise (RDMAError msg)) <->
   (~ In PKEY_DEFAULT ks /\ ~ In PKEY_PARTIAL_DEFAULT ks)) /\
  (~ In PKEY_DEFAULT ks -> ~ In PKEY_PARTIAL_DEFAULT ks ->
   SimEndPort.sa_path env s =
     (Raise (RDMAError "Could not find the SA default PKey"), s)) /\
  (forall idx dlid slid sl sa sb sc,
      admin_pkey_index ks = Some idx ->
      SimEndPort.sm_lid env s = (Ok dlid, sa) ->
      SimEndPort.lid env sa = (Ok slid, sb) ->
      SimEndPort.sm_sl env sb = (Ok sl, sc) ->
      let path := built_sa_path s idx dlid slid sl in
      let s' := with_port (SimEndPort.set_cached_sa_path path) sc in
      SimEndPort.sa_path env s = (Ok path, s') /\
      _cached_sa_path (port s') = Some path /\
      IBPath.pkey_index path = idx /\
      (forall cs,
          let s'' := run env cs s' in
          SimEndPort.sa_path env s'' = (Ok path, s''))).
Proof.
  intros Hc ks. split; [|split].
  - rewrite (sa_path_error_iff env s Hc). apply admin_pkey_index_None.
  - intros H1 H2. apply (sa_path_no_pkey env s Hc).
    apply admin_pkey_index_None. split; assumption.
  - intros idx dlid slid sl sa sb sc Hk Ha Hb Hcc path s'.
    split; [|split; [|split]].
    + apply (sa_path_built env s idx dlid slid sl sa sb sc Hc Hk Ha Hb Hcc).
    + reflexivity.
    + reflexivity.
    + intros cs s''. apply sa_path_memoized.
      apply (step_sa_path _ _ (step_run env cs s')). reflexivity.
Qed.

(** C9. The port object is constructed with the one-element tuple of keys
    [(0xFFFF,)]. Whatever methods of the module are called afterwards, the
    tuple is still that one, every envelope sent on the control socket has one
    of the opcodes [CONNECT], [DISCONNECT], [GET_NODEINFO], [GET_PORTINFO] and
    so none has [GET_PKEYS], [pkey_index(0xFFFF)] returns 0, and, [0xFFFF] being
    the full-membership default key, [sa_path] does not raise
    [rdma.RDMAError]. *)
Theorem pkeys_never_fetched (parent : SimDevice_t) (pid : Z) (s : State)
  (cs : list call) :
  port s = SimEndPort.__init__ parent pid ->
  PKEY_DEFAULT = 0xFFFF ->
  let s' := run env cs s in
  pkeys (port s) = [0xFFFF] /\
  pkeys (port s') = [0xFFFF] /\
  (exists msgs,
      ctl_sent (net s') = ctl_sent (net s) ++ msgs /\
      Forall (fun msg =>
                exists magic cid t l d,
                  struct_ctl.unpack host_order msg = Some (magic, cid, t, l, d) /\
                  t <> SIM_CTL_GET_PKEYS) msgs) /\
  SimEndPort.pkey_index 0xFFFF s' = (Ok 0, s') /\
  (forall msg, fst (SimEndPort.sa_path env s') <> Raise (RDMAError msg)).
Proof.
  intros Hport Hkey s'.
  assert (H0 : pkeys (port s) = [0xFFFF]) by (rewrite Hport; reflexivity).
  pose proof (step_run env cs s) as F.
  assert (H1 : pkeys (port s') = [0xFFFF])
    by (unfold s'; rewrite (step_pkeys _ _ F); exact H0).
  split; [exact H0|]. split; [exact H1|]. split; [|split].
  - destruct (step_ctl_sent _ _ F) as (msgs & Hs & Hall).
    exists msgs. split; [exact Hs|].
    eapply Forall_impl; [|exact Hall].
    intros msg (magic & cid & t & l & d & Hu & Ht).
    exists magic, cid, t, l, d. split; [exact Hu|].
    unfold issued_type, SIM_CTL_CONNECT, SIM_CTL_DISCONNECT, SIM_CTL_GET_NODEINFO,
      SIM_CTL_GET_PORTINFO, SIM_CTL_GET_PKEYS in *. lia.
  - unfold SimEndPort.pkey_index, bind, gets. rewrite H1. reflexivity.
  - intros msg Hm.
    destruct (_cached_sa_path (port s')) as [p|] eqn:Hc.
    + rewrite (sa_path_memoized env s' p Hc) in Hm. discriminate.
    + assert (Hk : admin_pkey_index (pkeys (port s')) = None).
      { apply (sa_path_error_iff env s' Hc). exists msg. exact Hm. }
      rewrite H1 in Hk. unfold admin_pkey_index in Hk. rewrite Hkey in Hk.
      discriminate.
Qed.

End AdminPath.

(** ** Further properties of the module *)

Section Further.
Context {X : Externals} (env : Env).

(** X1. [_get_new_TID] stores and returns the counter plus one modulo
    [2^32], a number of 32 bits, and changes nothing else. *)
Theorem get_new_TID_wraps (s : State) :
  let t := (_tid (umad s) + 1) mod 2 ^ 32 in
  SimUMAD._get_new_TID s =
    (Ok t, with_umad (fun u => mkUMAD (end_port u) t (trace_func u)) s) /\
  0 <= t < 2 ^ 32 /\
  net (snd (SimUMAD._get_new_TID s)) = net s /\
  port (snd (SimUMAD._get_new_TID s)) = port s.
Proof.
  cbv zeta. split; [reflexivity|]. split; [|split; reflexivity].
  apply Z.mod_pos_bound. lia.
Qed.

Lemma _execute_loop_negative buf path req rmatch :
  request_of buf path = Some req ->
  (forall wakeat s, fst (SimUMAD.recvfrom env wakeat s) = Ok None) ->
  forall (fuel : nat) expire k s,
    k < 0 ->
    exists s',
      SimUMAD._execute_loop env fuel buf path rmatch expire k s = (OutOfFuel, s') /\
      pkt_sent (net s') = pkt_sent (net s) ++ repeat req fuel.
Proof.
  intros Hreq Hnone. induction fuel as [|fuel IH]; intros expire k s Hk.
  - exists s. split; [reflexivity|]. cbn [repeat]. rewrite app_nil_r. reflexivity.
  - rewrite (_execute_loop_resend env _ _ _ req) by (auto; lia).
    destruct (recvfrom_frame env expire s) as (Hs & _).
    match goal with
    | |- context [SimUMAD._execute_loop env fuel buf path rmatch ?e _ ?st] =>
        destruct (IH e (k - 1) st ltac:(lia)) as (s' & Hrun & Hsent)
    end.
    exists s'. split; [exact Hrun|]. rewrite Hsent.
    cbn [clock_monotonic pkt_sock_send modify with_net snd net pkt_sent].
    rewrite Hs, <- app_assoc. reflexivity.
Qed.

(** X2. With a negative retry count and a data socket that never has data,
    the loop of [_execute] never ends: whatever the fuel, it runs out, with
    one more request sent for each turn. *)
Theorem execute_negative_retries (buf : bytes) (path : IBPath.t) (req : bytes)
  (s : State) (fuel : nat) :
  request_of buf path = Some req ->
  IBPath.retries path < 0 ->
  (forall wakeat s', fst (SimUMAD.recvfrom env wakeat s') = Ok None) ->
  exists s',
    SimUMAD._execute env fuel buf path false s = (OutOfFuel, s') /\
    pkt_sent (net s') = pkt_sent (net s) ++ repeat req (S fuel).
Proof.
  intros Hreq Hr Hnone. unfold SimUMAD._execute. unfold bind at 1.
  rewrite (sendto_some _ _ _ _ Hreq). cbn [snd]. unfold bind at 1.
  cbn [clock_monotonic fst].
  match goal with
  | |- context [SimUMAD._execute_loop env fuel buf path ?k ?e _ ?st] =>
      destruct (_execute_loop_negative buf path req k Hreq Hnone fuel e
                  (IBPath.retries path) st Hr) as (s' & Hrun & Hsent)
  end.
  exists s'. split; [exact Hrun|]. rewrite Hsent.
  cbn [pkt_sock_send modify with_net snd net pkt_sent repeat].
  rewrite <- app_assoc. reflexivity.
Qed.

(** X3. With a client id of 32 bits, [SimDevice.__init__] makes one
    control call, [GET_NODEINFO] with an empty payload. When the receive
    gives a reply of at least 80 bytes, the device is returned with the node
    info decoded from the payload of the reply: a switch gets the single
    port 0, any other node the ports 1 to [numPorts], each constructed on the
    device with its index. A shorter reply raises [struct.error] and an
    error of the receive is raised as it is. With a client id that does not
    fit, [struct.error] is raised and nothing is sent. *)
Theorem device_ports (name : string) (s : State) :
  let reply := ctl_reply env (ctl_recvs (net s)) in
  let received := ctl_recv_error env (ctl_recvs (net s)) in
  let info := SMPNodeInfo_unpack_from (slice 16 64 reply) in
  let d := mkDevice name info 0 EmptyString in
  let r := fst (SimDevice.__init__ env name s) in
  let s' := snd (SimDevice.__init__ env name s) in
  (uint 4 (_client_id s) ->
   exists msg,
     struct_ctl.unpack host_order msg =
       Some (SIM_MAGIC, _client_id s, SIM_CTL_GET_NODEINFO, 0, repeat Byte.x00 64) /\
     s' = after_ctl env msg s /\
     ctl_sent (net s') = ctl_sent (net s) ++ [msg] /\
     (received = None -> (80 <= List.length reply)%nat ->
      exists ports,
        r = Ok (d, ports) /\
        map fst ports =
          (if SMPNodeInfo.nodeType info =? NODE_SWITCH then [0]
           else SimDevice.range 1 (SMPNodeInfo.numPorts info + 1)) /\
        Forall (fun ip => snd ip = SimEndPort.__init__ d (fst ip)) ports) /\
     (received = None -> (List.length reply < 80)%nat -> r = Raise StructError) /\
     (forall e, received = Some e -> r = Raise (SocketError e))) /\
  (~ uint 4 (_client_id s) ->
   SimDevice.__init__ env name s = (Raise StructError, s)).
Proof.
  cbv zeta. split.
  - intros Hc.
    destruct (ctl_msg_some s SIM_CTL_GET_NODEINFO [] Hc) as [msg Hm];
      [unfold uint, SIM_CTL_GET_NODEINFO; simpl; lia | unfold uint, len; simpl; lia |].
    exists msg. unfold SimDevice.__init__. unfold bind at 1 2 3 4 5.
    rewrite (_ctl_sent env _ _ _ _ Hm).
    split; [apply struct_ctl_unpack_pack in Hm; exact Hm|].
    split; [|split; [|split; [|split]]].
    + destruct (ctl_result env s) as [r| |]; [|reflexivity|reflexivity].
      cbn [node_info snd].
      destruct (SMPNodeInfo.nodeType _ =? NODE_SWITCH); reflexivity.
    + destruct (ctl_result env s) as [r| |];
        [|unfold after_ctl; msimpl; reflexivity..].
      cbn [node_info snd].
      destruct (SMPNodeInfo.nodeType _ =? NODE_SWITCH);
        unfold after_ctl; msimpl; reflexivity.
    + intros He Hlen. rewrite (ctl_result_decodes env s He Hlen).
      cbn [node_info snd].
      destruct (SMPNodeInfo.nodeType _ =? NODE_SWITCH) eqn:Et;
        cbn [ret fst]; eexists; (split; [reflexivity|]).
      * split; [reflexivity|]. repeat constructor.
      * split; [rewrite map_map; apply map_id|].
        apply Forall_forall. intros ip Hin. apply in_map_iff in Hin.
        destruct Hin as (i & <- & _). reflexivity.
    + intros He Hlen. rewrite (ctl_result_short env s He Hlen). reflexivity.
    + intros e He. rewrite (ctl_result_error env s e He). reflexivity.
  - intros Hn. unfold SimDevice.__init__. unfold bind at 1.
    destruct (ctl_msg s SIM_CTL_GET_NODEINFO []) as [msg|] eqn:Hm.
    + elim Hn. apply (ctl_msg_range s _ _ _ Hm).
    + rewrite (_ctl_not_sent env _ _ _ Hm). reflexivity.
Qed.

(** The first 44 bytes of the payload of a reply start with its bytes 16
    to 19. *)
Lemma client_info_id (reply : bytes) :
  slice 0 4 (firstn 44 (slice 16 64 reply)) = slice 16 4 reply.
Proof.
  unfold slice. cbn [skipn]. rewrite !firstn_firstn. reflexivity.
Qed.

Lemma client_info_decodes o (reply : bytes) :
  (80 <= List.length reply)%nat ->
  exists q i n,
    struct_info.unpack o (firstn struct_info.size (slice 16 64 reply)) =
    Some (Struct.unpack_uint o (slice 16 4 reply), q, i, n).
Proof.
  intros H. unfold struct_info.unpack, struct_info.size.
  assert (Hl : List.length (firstn 44 (slice 16 64 reply)) = 44%nat).
  { unfold slice. rewrite !length_firstn, length_skipn. lia. }
  rewrite Hl, Nat.eqb_refl, client_info_id. do 3 eexists. reflexivity.
Qed.

(** [SimConnection.__init__] once the sockets are made and the envelope is
    out. *)
Lemma __init___sent (nodeid : bytes) (qp issm : Z) (s : State) payload msg :
  let s0 := with_client_id (pkt_local_port env) s in
  setup_error env = None ->
  struct_info.pack host_order (pkt_local_port env) qp issm nodeid = Some payload ->
  ctl_msg s0 SIM_CTL_CONNECT payload = Some msg ->
  SimConnection.__init__ env nodeid qp issm s =
  match ctl_result env s with
  | Ok a =>
      match struct_info.unpack host_order (firstn struct_info.size (snd a)) with
      | Some (id, _, _, _) =>
          pkt_sock_connect env (SIM_SERVER_PORT env + id + 1)
            (with_client_id id (after_ctl env msg s0))
      | None => (Raise StructError, after_ctl env msg s0)
      end
  | Raise e => (Raise e, after_ctl env msg s0)
  | OutOfFuel => (OutOfFuel, after_ctl env msg s0)
  end.
Proof.
  intros s0 He Ep Hm. unfold SimConnection.__init__.
  unfold bind at 1. unfold socket_setup. rewrite He. unfold ret at 1.
  unfold bind at 1. unfold modify at 1. unfold bind at 1. unfold gets at 1.
  cbn [_client_id with_client_id]. unfold bind at 1. rewrite Ep.
  cbn [struct_call]. unfold ret at 1. unfold bind at 1.
  fold s0. rewrite (_ctl_sent env _ _ _ _ Hm).
  change (ctl_result env s0) with (ctl_result env s).
  destruct (ctl_result env s) as [a| |]; [|reflexivity|reflexivity].
  unfold bind at 1.
  destruct (struct_info.unpack host_order _) as [[[[id q] i] n]|]; reflexivity.
Qed.

(** X4. [SimConnection.__init__] raises the error of the socket layer when
    the sockets cannot be made. Otherwise, for fields of 32 bits, it sends one
    [CONNECT] envelope with the local port of the data socket as client id
    and a client-info payload of 44 bytes, and makes one receive. From a
    reply of at least 80 bytes it takes the client id, bytes 16 to 19 of the
    reply in host order, and connects the data socket to the port
    [SIM_SERVER_PORT + client_id + 1]: when this port is above 65535 or below
    0 the connect raises [OverflowError], with the new client id already
    stored and the data socket not connected. A shorter reply raises
    [struct.error], an error of the receive or of the connect is raised as it
    is; in both cases the data socket is not connected. *)
Theorem connect_data_port (nodeid : bytes) (qp issm : Z) (s : State) :
  let reply := ctl_reply env (ctl_recvs (net s)) in
  let received := ctl_recv_error env (ctl_recvs (net s)) in
  let id := Struct.unpack_uint host_order (slice 16 4 reply) in
  let p := SIM_SERVER_PORT env + id + 1 in
  let r := fst (SimConnection.__init__ env nodeid qp issm s) in
  let s' := snd (SimConnection.__init__ env nodeid qp issm s) in
  (forall e, setup_error env = Some e ->
             SimConnection.__init__ env nodeid qp issm s = (Raise (SocketError e), s)) /\
  (setup_error env = None ->
   uint 4 (pkt_local_port env) -> uint 4 qp -> uint 4 issm ->
   exists msg payload,
     struct_ctl.unpack host_order msg =
       Some (SIM_MAGIC, pkt_local_port env, SIM_CTL_CONNECT, 44,
             Struct.pack_s 64 payload) /\
     struct_info.unpack host_order payload =
       Some (pkt_local_port env, qp, issm, Struct.pack_s 32 nodeid) /\
     ctl_sent (net s') = ctl_sent (net s) ++ [msg] /\
     ctl_recvs (net s') = S (ctl_recvs (net s)) /\
     (received = None -> (80 <= List.length reply)%nat ->
      _client_id s' = id /\
      (0 <= p <= 65535 -> pkt_connect_error env = None ->
       r = Ok tt /\ pkt_peer s' = Some p) /\
      (~ 0 <= p <= 65535 -> r = Raise OverflowError /\ pkt_peer s' = pkt_peer s) /\
      (0 <= p <= 65535 -> forall e, pkt_connect_error env = Some e ->
       r = Raise (SocketError e) /\ pkt_peer s' = pkt_peer s)) /\
     (received = None -> (List.length reply < 80)%nat ->
      r = Raise StructError /\ pkt_peer s' = pkt_peer s) /\
     (forall e, received = Some e ->
                r = Raise (SocketError e) /\ pkt_peer s' = pkt_peer s)).
Proof.
  cbv zeta. split.
  - intros e He. unfold SimConnection.__init__, bind at 1.
    unfold socket_setup. rewrite He. reflexivity.
  - intros He Hport Hqp Hissm.
    destruct (struct_info_pack_some host_order (pkt_local_port env) qp issm nodeid
                Hport Hqp Hissm) as [payload Ep].
    assert (Hlen : len payload = 44).
    { pose proof Ep as Ep'. apply struct_info_pack_inv in Ep'.
      destruct Ep' as (a & b & c & Ea & Eb & Ec & ->).
      field_facts. unfold len. rewrite !length_app, pack_s_length. lia. }
    set (s0 := with_client_id (pkt_local_port env) s).
    destruct (ctl_msg_some s0 SIM_CTL_CONNECT payload) as [msg Hm];
      [exact Hport | unfold uint, SIM_CTL_CONNECT; simpl; lia
      | rewrite Hlen; unfold uint; simpl; lia |].
    exists msg, payload.
    rewrite (__init___sent nodeid qp issm s payload msg He Ep Hm). fold s0.
    assert (Hsock : forall id,
               let c := pkt_sock_connect env (SIM_SERVER_PORT env + id + 1)
                          (with_client_id id (after_ctl env msg s0)) in
               ctl_sent (net (snd c)) = ctl_sent (net s) ++ [msg] /\
               ctl_recvs (net (snd c)) = S (ctl_recvs (net s))).
    { intros id. cbv zeta. unfold pkt_sock_connect.
      destruct (_ && _); [destruct (pkt_connect_error env)|]; split; reflexivity. }
    split; [|split; [|split; [|split; [|split; [|split]]]]].
    + apply struct_ctl_unpack_pack in Hm. cbn [_client_id s0 with_client_id] in Hm.
      rewrite Hlen in Hm. exact Hm.
    + apply struct_info_unpack_pack. exact Ep.
    + destruct (ctl_result env s) as [a| |]; [|reflexivity|reflexivity].
      destruct (struct_info.unpack host_order _) as [[[[id q] i] n]|];
        [apply Hsock|reflexivity].
    + destruct (ctl_result env s) as [a| |]; [|reflexivity|reflexivity].
      destruct (struct_info.unpack host_order _) as [[[[id q] i] n]|];
        [apply Hsock|reflexivity].
    + intros Hr Hlen80. rewrite (ctl_result_decodes env s Hr Hlen80). cbn [snd].
      destruct (client_info_decodes host_order _ Hlen80) as (q & i & n & Ei).
      rewrite Ei. unfold pkt_sock_connect.
      split; [|split; [|split]].
      * destruct (_ && _); [destruct (pkt_connect_error env)|]; reflexivity.
      * intros Hp Hc.
        replace ((0 <=? _) && (_ <=? 65535)) with true
          by (symmetry; apply andb_true_iff; split; apply Z.leb_le; lia).
        rewrite Hc. split; reflexivity.
      * intros Hp.
        replace ((0 <=? _) && (_ <=? 65535)) with false; [split; reflexivity|].
        symmetry. apply andb_false_iff.
        destruct (Z.leb_spec 0 (SIM_SERVER_PORT env +
                    Struct.unpack_uint host_order
                      (slice 16 4 (ctl_reply env (ctl_recvs (net s)))) + 1));
          [right; apply Z.leb_gt; lia|left; reflexivity].
      * intros Hp e Hc.
        replace ((0 <=? _) && (_ <=? 65535)) with true
          by (symmetry; apply andb_true_iff; split; apply Z.leb_le; lia).
        rewrite Hc. split; reflexivity.
    + intros Hr Hshort. rewrite (ctl_result_short env s Hr Hshort).
      split; reflexivity.
    + intros e Hr. rewrite (ctl_result_error env s e Hr). split; reflexivity.
Qed.

(** X5. A control payload longer than its slot is cut at 64 bytes by the
    encoder, while the length field still carries the length of the payload
    as it was given. *)
Theorem oversized_payload_truncated (o : byteorder) (magic cid type : Z)
  (data : bytes) (buf : bytes) :
  (64 <= List.length data)%nat ->
  struct_ctl.pack o magic cid type (len data) data = Some buf ->
  struct_ctl.unpack o buf = Some (magic, cid, type, len data, firstn 64 data).
Proof.
  intros Hl Hp. rewrite (struct_ctl_unpack_pack _ _ _ _ _ _ _ Hp).
  unfold Struct.pack_s.
  replace (64 - List.length data)%nat with 0%nat by lia.
  cbn [repeat]. rewrite app_nil_r. reflexivity.
Qed.

End Further.

(** ** Decoding, then encoding *)

Lemma pack_unpack_uint o (n : nat) (bs : bytes) :
  List.length bs = n -> Struct.pack_uint o n (Struct.unpack_uint o bs) = Some bs.
Proof.
  intros Hn. unfold Struct.pack_uint, Struct.unpack_uint.
  assert (Hb : forall l : bytes, List.length l = n ->
                 0 <= le_combine l < 2 ^ (Z.of_nat n * 8)).
  { intros l Hl. pose proof (le_combine_bound l) as B. rewrite Hl in B.
    replace (Z.of_nat n * 8) with (8 * Z.of_nat n) by lia. exact B. }
  destruct o.
  - destruct (Hb bs Hn) as [B1 B2].
    apply Z.leb_le in B1. apply Z.ltb_lt in B2. rewrite B1, B2. cbn [andb].
    rewrite <- Hn, split_le_combine. reflexivity.
  - destruct (Hb (rev bs)) as [B1 B2]; [rewrite length_rev; exact Hn|].
    apply Z.leb_le in B1. apply Z.ltb_lt in B2. rewrite B1, B2. cbn [andb].
    rewrite <- Hn, <- (length_rev bs), split_le_combine, rev_involutive. reflexivity.
Qed.

Lemma slice_length off n (buf : bytes) :
  (off + n <= List.length buf)%nat -> List.length (slice off n buf) = n.
Proof. intros H. unfold slice. rewrite length_firstn, length_skipn. lia. Qed.

(** A buffer is its slice at [off] followed by what comes after it. *)
Lemma slice_cons off n (buf : bytes) :
  skipn off buf = slice off n buf ++ skipn (off + n) buf.
Proof.
  unfold slice. rewrite Nat.add_comm, <- skipn_skipn. symmetry. apply firstn_skipn.
Qed.

Lemma pack_s_exact n (bs : bytes) : List.length bs = n -> Struct.pack_s n bs = bs.
Proof.
  intros H. rewrite pack_s_fits by lia. rewrite H, Nat.sub_diag. apply app_nil_r.
Qed.

Lemma skipn_end (buf : bytes) n : List.length buf = n -> skipn n buf = [].
Proof. intros H. apply skipn_all2. lia. Qed.

(** X6. A buffer of the size of its format always decodes, and encoding the
    decoded fields gives the buffer back, byte for byte; a buffer of any other
    size does not decode. This holds for the three formats, in either byte
    order. *)
Theorem decode_encode_round_trip (o : byteorder) (buf : bytes) :
  (List.length buf = 80%nat ->
   exists m c t l d,
     struct_ctl.unpack o buf = Some (m, c, t, l, d) /\
     struct_ctl.pack o m c t l d = Some buf) /\
  (List.length buf = 44%nat ->
   exists i q f n,
     struct_info.unpack o buf = Some (i, q, f, n) /\
     struct_info.pack o i q f n = Some buf) /\
  (List.length buf = 280%nat ->
   exists d s dq sq st l p,
     struct_request.unpack buf = Some (d, s, dq, sq, st, l, p) /\
     struct_request.pack d s dq sq st l p = Some buf) /\
  (List.length buf <> 80%nat -> struct_ctl.unpack o buf = None) /\
  (List.length buf <> 44%nat -> struct_info.unpack o buf = None) /\
  (List.length buf <> 280%nat -> struct_request.unpack buf = None).
Proof.
  split; [|split; [|split; [|split; [|split]]]].
  - intros H. unfold struct_ctl.unpack, struct_ctl.size. rewrite H, Nat.eqb_refl.
    do 5 eexists. split; [reflexivity|]. unfold struct_ctl.pack.
    rewrite !pack_unpack_uint by (apply slice_length; lia). cbn [Struct.obind].
    rewrite pack_s_exact by (apply slice_length; lia). f_equal.
    change buf with (skipn 0 buf) at 6.
    rewrite (slice_cons 0 4), (slice_cons 4 4), (slice_cons 8 4), (slice_cons 12 4),
      (slice_cons 16 64). cbn [Nat.add].
    rewrite (skipn_end buf 80 H), app_nil_r. reflexivity.
  - intros H. unfold struct_info.unpack, struct_info.size. rewrite H, Nat.eqb_refl.
    do 4 eexists. split; [reflexivity|]. unfold struct_info.pack.
    rewrite !pack_unpack_uint by (apply slice_length; lia). cbn [Struct.obind].
    rewrite pack_s_exact by (apply slice_length; lia). f_equal.
    change buf with (skipn 0 buf) at 5.
    rewrite (slice_cons 0 4), (slice_cons 4 4), (slice_cons 8 4), (slice_cons 12 32).
    cbn [Nat.add]. rewrite (skipn_end buf 44 H), app_nil_r. reflexivity.
  - intros H. unfold struct_request.unpack, struct_request.size.
    rewrite H, Nat.eqb_refl.
    do 7 eexists. split; [reflexivity|]. unfold struct_request.pack.
    rewrite !pack_unpack_uint by (apply slice_length; lia). cbn [Struct.obind].
    rewrite pack_s_exact by (apply slice_length; lia). f_equal.
    change buf with (skipn 0 buf) at 8.
    rewrite (slice_cons 0 2), (slice_cons 2 2), (slice_cons 4 4), (slice_cons 8 4),
      (slice_cons 12 4), (slice_cons 16 8), (slice_cons 24 256).
    cbn [Nat.add]. rewrite (skipn_end buf 280 H), app_nil_r. reflexivity.
  - intros H. unfold struct_ctl.unpack, struct_ctl.size.
    apply Nat.eqb_neq in H. rewrite H. reflexivity.
  - intros H. unfold struct_info.unpack, struct_info.size.
    apply Nat.eqb_neq in H. rewrite H. reflexivity.
  - intros H. unfold struct_request.unpack, struct_request.size.
    apply Nat.eqb_neq in H. rewrite H. reflexivity.
Qed.

(** ** Transaction identifiers *)

Section TIDs.
Context {X : Externals}.

Lemma new_TIDs_spec (n : nat) :
  forall s,
    fst (new_TIDs n s) =
      map (fun i => (_tid (umad s) + Z.of_nat i) mod 2 ^ 32) (seq 1 n) /\
    _tid (umad (snd (new_TIDs n s))) =
      (if Nat.eqb n 0 then _tid (umad s)
       else (_tid (umad s) + Z.of_nat n) mod 2 ^ 32) /\
    net (snd (new_TIDs n s)) = net s /\ port (snd (new_TIDs n s)) = port s.
Proof.
  induction n as [|n IH]; intros s.
  - cbn. auto.
  - cbn [new_TIDs]. unfold SimUMAD._get_new_TID, bind, modify, gets.
    cbn [umad with_umad _tid].
    match goal with
    | |- context [new_TIDs n ?st] =>
        destruct (IH st) as (H1 & H2 & H3 & H4); destruct (new_TIDs n st) as [ts s'']
    end.
    cbn [fst snd umad with_umad _tid net port] in *.
    split; [|split; [|split; assumption]].
    + cbn [seq map]. f_equal.
      rewrite H1, <- (seq_shift n 1), map_map. apply map_ext. intros i.
      rewrite Zplus_mod_idemp_l. f_equal. lia.
    + rewrite H2. destruct n as [|n]; [reflexivity|]. cbn [Nat.eqb].
      rewrite Zplus_mod_idemp_l. f_equal. lia.
Qed.

(** X19. [n] calls of [_get_new_TID] in a row return the counter plus 1, 2,
    ..., [n], each modulo [2^32]: every identifier has 32 bits, up to [2^32]
    identifiers in a row are all different, and no call touches the sockets or
    the port. *)
Theorem new_TIDs_distinct (n : nat) (s : State) :
  fst (new_TIDs n s) =
    map (fun i => (_tid (umad s) + Z.of_nat i) mod 2 ^ 32) (seq 1 n) /\
  Forall (fun t => 0 <= t < 2 ^ 32) (fst (new_TIDs n s)) /\
  net (snd (new_TIDs n s)) = net s /\ port (snd (new_TIDs n s)) = port s /\
  (Z.of_nat n <= 2 ^ 32 -> NoDup (fst (new_TIDs n s))).
Proof.
  destruct (new_TIDs_spec n s) as (H1 & _ & H3 & H4).
  split; [exact H1|]. split; [|split; [exact H3|split; [exact H4|]]].
  - rewrite H1. apply Forall_forall. intros t Ht. apply in_map_iff in Ht.
    destruct Ht as (i & <- & _). apply Z.mod_pos_bound. lia.
  - intros Hn. rewrite H1. apply NoDup_map_NoDup_ForallPairs; [|apply seq_NoDup].
    intros i j Hi Hj Heq. apply in_seq in Hi. apply in_seq in Hj.
    set (a := _tid (umad s)) in *.
    pose proof (Z.div_mod (a + Z.of_nat i) (2 ^ 32) ltac:(lia)) as Di.
    pose proof (Z.div_mod (a + Z.of_nat j) (2 ^ 32) ltac:(lia)) as Dj.
    rewrite Heq in Di.
    assert (Hd : Z.of_nat i - Z.of_nat j =
                 2 ^ 32 * ((a + Z.of_nat i) / 2 ^ 32 - (a + Z.of_nat j) / 2 ^ 32)) by lia.
    assert (Hq : (a + Z.of_nat i) / 2 ^ 32 - (a + Z.of_nat j) / 2 ^ 32 = 0) by nia.
    rewrite Hq in Hd. lia.
Qed.

End TIDs.

(** ** Control calls and partition keys *)

Section ControlAndKeys.
Context {X : Externals} (env : Env).

(** X7. [pkey_index] returns the position of the first occurrence of the
    key in the port's tuple of keys and raises [ValueError] exactly when the
    key is not in it; either way the state is as before: no clock is read and
    nothing is sent. *)
Theorem pkey_index_first_occurrence (pkey : Z) (s : State) :
  match SimEndPort.pkey_index pkey s with
  | (Ok i, s') =>
      s' = s /\ 0 <= i /\
      nth_error (pkeys (port s)) (Z.to_nat i) = Some pkey /\
      ~ In pkey (firstn (Z.to_nat i) (pkeys (port s)))
  | (Raise e, s') => e = ValueError /\ s' = s /\ ~ In pkey (pkeys (port s))
  | (OutOfFuel, _) => False
  end.
Proof.
  unfold SimEndPort.pkey_index, bind, gets.
  destruct (SimEndPort.tuple_index pkey (pkeys (port s))) as [i|] eqn:E.
  - split; [reflexivity|]. apply tuple_index_Some. exact E.
  - split; [reflexivity|]. split; [reflexivity|]. apply tuple_index_None. exact E.
Qed.

Lemma slice_firstn off n m (buf : bytes) :
  (off + n <= m)%nat -> slice off n (firstn m buf) = slice off n buf.
Proof.
  intros H. unfold slice. rewrite skipn_firstn_comm, firstn_firstn.
  f_equal. lia.
Qed.

(** X8. A control call whose client id, opcode and payload length fit 32
    bits sends exactly one envelope, carrying them and the payload cut or
    filled to 64 bytes, and makes exactly one receive on the control socket.
    When the receive gives a datagram of at least 80 bytes, the call returns
    the fields of its first 80 bytes whatever they are: neither the magic
    number nor the opcode of the reply is looked at, and bytes past the 80th
    are ignored. A shorter datagram raises [struct.error] and an error of the
    receive is raised as it is, both after the envelope went out. When a
    field does not fit, [struct.error] is raised and nothing is sent or
    received. *)
Theorem ctl_call_outcome (type : Z) (data : bytes) (s : State) :
  let reply := ctl_reply env (ctl_recvs (net s)) in
  let received := ctl_recv_error env (ctl_recvs (net s)) in
  let r := fst (SimConnection._ctl env type data s) in
  let s' := snd (SimConnection._ctl env type data s) in
  (uint 4 (_client_id s) -> uint 4 type -> uint 4 (len data) ->
   exists msg,
     struct_ctl.unpack host_order msg =
       Some (SIM_MAGIC, _client_id s, type, len data, Struct.pack_s 64 data) /\
     s' = after_ctl env msg s /\
     ctl_sent (net s') = ctl_sent (net s) ++ [msg] /\
     ctl_recvs (net s') = S (ctl_recvs (net s)) /\
     (received = None -> (80 <= List.length reply)%nat ->
      r = Ok (Struct.unpack_uint host_order (slice 0 4 reply),
              Struct.unpack_uint host_order (slice 4 4 reply),
              Struct.unpack_uint host_order (slice 8 4 reply),
              Struct.unpack_uint host_order (slice 12 4 reply),
              slice 16 64 reply)) /\
     (received = None -> (List.length reply < 80)%nat -> r = Raise StructError) /\
     (forall e, received = Some e -> r = Raise (SocketError e))) /\
  (~ (uint 4 (_client_id s) /\ uint 4 type /\ uint 4 (len data)) ->
   SimConnection._ctl env type data s = (Raise StructError, s)).
Proof.
  cbv zeta. split.
  - intros H1 H2 H3. destruct (ctl_msg_some s type data H1 H2 H3) as [msg Hm].
    exists msg. rewrite (_ctl_sent env _ _ _ _ Hm). cbn [fst snd].
    split; [apply struct_ctl_unpack_pack in Hm; exact Hm|].
    split; [reflexivity|]. split; [reflexivity|]. split; [reflexivity|].
    split; [|split].
    + intros He Hl. rewrite (ctl_result_decodes env s He Hl).
      unfold ctl_resp, struct_ctl.size.
      rewrite !slice_firstn by lia. reflexivity.
    + intros He Hl. apply (ctl_result_short env s He Hl).
    + intros e He. apply (ctl_result_error env s e He).
  - intros Hn. destruct (ctl_msg s type data) as [msg|] eqn:Hm.
    + elim Hn. apply (ctl_msg_range s _ _ _ Hm).
    + apply (_ctl_not_sent env _ _ _ Hm).
Qed.

End ControlAndKeys.

(** ** More on the transactor *)

Section TransactorMore.
Context {X : Externals} (env : Env).

(** X9. [recvfrom] reads the clock once and never sends. It polls only
    when time is left, and it receives only when the poll has answered that
    the data socket is readable: a "no data" result and an error of the poll
    leave the socket's queue as it was. A receive takes one datagram off the
    socket whatever becomes of it: a datagram that does not have the 280
    bytes of an envelope is lost and [struct.error] is raised. *)
Theorem recvfrom_consumption (wakeat : Q) (s : State) :
  let now := mono_clock env (mono_reads (net s)) in
  let ms := ((wakeat - now) * 1000)%Q in
  let polled := pkt_poll_error env (pkt_polls (net s)) ms in
  let ready := pkt_ready env (pkt_polls (net s)) ms in
  let received := pkt_recv_error env (pkt_recvs (net s)) in
  let d := firstn 512 (pkt_data env (pkt_recvs (net s))) in
  let r := fst (SimUMAD.recvfrom env wakeat s) in
  let s' := snd (SimUMAD.recvfrom env wakeat s) in
  mono_reads (net s') = S (mono_reads (net s)) /\
  pkt_sent (net s') = pkt_sent (net s) /\
  ((wakeat - now <= 0)%Q ->
   r = Ok None /\
   pkt_polls (net s') = pkt_polls (net s) /\ pkt_recvs (net s') = pkt_recvs (net s)) /\
  ((0 < wakeat - now)%Q ->
   pkt_polls (net s') = S (pkt_polls (net s)) /\
   (forall f, polled = Some f ->
              r = Raise (poll_exn f) /\ pkt_recvs (net s') = pkt_recvs (net s)) /\
   (polled = None -> ready = false ->
    r = Ok None /\ pkt_recvs (net s') = pkt_recvs (net s)) /\
   (polled = None -> ready = true ->
    pkt_recvs (net s') = S (pkt_recvs (net s)) /\
    (forall e, received = Some e -> r = Raise (SocketError e)) /\
    (received = None -> List.length d <> 280%nat -> r = Raise StructError) /\
    (received = None -> List.length d = 280%nat ->
     exists pkt path, r = Ok (Some (pkt, path)) /\ pkt = slice 24 256 d))).
Proof.
  cbv zeta.
  destruct (recvfrom_frame env wakeat s) as (Hs & _ & _ & Hm & _).
  split; [exact Hm|]. split; [exact Hs|]. clear Hs Hm.
  unfold SimUMAD.recvfrom, bind, clock_monotonic at 1 2 3 4 5 6 7. msimpl.
  split.
  - intros H. rewrite (Qle_bool_true _ _ H). msimpl. repeat split; reflexivity.
  - intros H. rewrite (Qle_bool_false _ _ H).
    destruct (pkt_poll_error _ _ _) as [f|]; msimpl.
    { split; [reflexivity|]. split; [|split]; try discriminate.
      intros f' [= <-]. split; reflexivity. }
    destruct (pkt_ready _ _ _); msimpl.
    + split; [|split; [discriminate|split; [discriminate|]]].
      { destruct (pkt_recv_error _ _); msimpl; [reflexivity|].
        destruct (struct_request.unpack _)
          as [[[[[[[dlid slid] dqpn] sqpn] st] l] pkt]|]; reflexivity. }
      intros _ _.
      destruct (pkt_recv_error _ _) as [e|]; msimpl.
      { split; [reflexivity|]. split; [|split]; try discriminate.
        intros e' [= <-]. reflexivity. }
      unfold struct_request.unpack, struct_request.size.
      destruct (Nat.eqb_spec (List.length (firstn 512 (pkt_data env (pkt_recvs (net s)))))
                  280) as [El|El]; msimpl.
      * split; [reflexivity|]. split; [discriminate|]. split; [intros _ Hn; elim Hn; exact El|].
        intros _ _. eexists. eexists. split; reflexivity.
      * split; [reflexivity|]. split; [discriminate|]. split; [reflexivity|].
        intros _ El'. elim El. exact El'.
    + split; [reflexivity|]. split; [discriminate|]. split; [|discriminate].
      intros _ _. split; reflexivity.
Qed.

Lemma recvfrom_datagram (wakeat : Q) (s : State) dlid slid dqpn sqpn status length pkt :
  (0 < wakeat - mono_clock env (mono_reads (net s)))%Q ->
  pkt_poll_error env (pkt_polls (net s))
    ((wakeat - mono_clock env (mono_reads (net s))) * 1000)%Q = None ->
  pkt_ready env (pkt_polls (net s))
    ((wakeat - mono_clock env (mono_reads (net s))) * 1000)%Q = true ->
  pkt_recv_error env (pkt_recvs (net s)) = None ->
  struct_request.unpack (firstn 512 (pkt_data env (pkt_recvs (net s)))) =
    Some (dlid, slid, dqpn, sqpn, status, length, pkt) ->
  fst (SimUMAD.recvfrom env wakeat s) =
  Ok (Some (pkt, reply_path (end_port (umad s)) dlid slid dqpn sqpn)).
Proof.
  intros H He Hp Hr Hu. unfold SimUMAD.recvfrom, bind, clock_monotonic at 1.
  rewrite (Qle_bool_false _ _ H). unfold poll_poll at 1. msimpl.
  rewrite He, Hp. msimpl. rewrite Hr. msimpl. rewrite Hu. reflexivity.
Qed.

(** X10. What [sendto] puts on the wire for a buffer and a path, [recvfrom]
    reads back, when neither the poll nor the receive raises, as the buffer
    cut or NUL-filled to exactly 256 bytes and a new path with the [DLID],
    [SLID] and queue pair numbers of the sender's path, the LIDs not swapped.
    The length of the buffer, though on the wire, is not returned: a buffer
    and the same buffer with NUL bytes added give the same result. *)
Theorem sendto_recvfrom_round_trip (buf : bytes) (path : IBPath.t) (req : bytes)
  (wakeat : Q) (s : State) :
  let s1 := snd (SimUMAD.sendto buf path s) in
  let now := mono_clock env (mono_reads (net s)) in
  request_of buf path = Some req ->
  (0 < wakeat - now)%Q ->
  pkt_poll_error env (pkt_polls (net s)) ((wakeat - now) * 1000)%Q = None ->
  pkt_ready env (pkt_polls (net s)) ((wakeat - now) * 1000)%Q = true ->
  pkt_recv_error env (pkt_recvs (net s)) = None ->
  pkt_data env (pkt_recvs (net s)) = req ->
  fst (SimUMAD.recvfrom env wakeat s1) =
    Ok (Some (Struct.pack_s 256 buf,
              reply_path (end_port (umad s)) (IBPath.DLID path) (IBPath.SLID path)
                (IBPath.dqpn path) (IBPath.sqpn path))) /\
  List.length (Struct.pack_s 256 buf) = 256%nat /\
  ((List.length buf <= 256)%nat ->
   Struct.pack_s 256 buf = buf ++ repeat Byte.x00 (256 - List.length buf)) /\
  (forall k, (List.length buf + k <= 256)%nat ->
             Struct.pack_s 256 (buf ++ repeat Byte.x00 k) = Struct.pack_s 256 buf).
Proof.
  intros s1 now Hreq Ht He Hp Hr Hd.
  split; [|split; [apply pack_s_length|split; [apply pack_s_fits|]]].
  - unfold s1. rewrite (sendto_some _ _ _ _ Hreq). cbn [snd].
    rewrite (recvfrom_datagram wakeat (snd (pkt_sock_send req s))
               (IBPath.DLID path) (IBPath.SLID path) (IBPath.dqpn path)
               (IBPath.sqpn path) 0 (len buf) (Struct.pack_s 256 buf)).
    + reflexivity.
    + exact Ht.
    + exact He.
    + exact Hp.
    + exact Hr.
    + cbn [pkt_sock_send modify with_net snd net pkt_recvs]. rewrite Hd.
      pose proof (struct_request_unpack_pack _ _ _ _ _ _ _ _ Hreq) as Hu.
      assert (Hl : List.length req = 280%nat).
      { unfold struct_request.unpack in Hu.
        destruct (Nat.eqb_spec (List.length req) struct_request.size) as [E|E];
          [exact E|discriminate]. }
      rewrite firstn_all2 by lia. exact Hu.
  - intros k Hk. rewrite !pack_s_fits by (rewrite ?length_app, ?repeat_length; lia).
    rewrite length_app, repeat_length, <- app_assoc, <- repeat_app. f_equal. f_equal. lia.
Qed.

(** X11. When the first receive finds no data and the retry count is not
    zero, [_execute] sends the request a second time and takes a new
    deadline; a reply with the expected key received on that deadline is
    returned, after exactly two sends and with no call of the trace
    function. *)
Theorem execute_reply_after_resend (buf : bytes) (path : IBPath.t) (req : bytes)
  (s s2 s4 : State) (r : bytes * IBPath.t) (fuel : nat) :
  let rmatch := _get_reply_match_key buf in
  let s0 := snd (pkt_sock_send req s) in
  let expire0 := (mad_timeout path + mono_clock env (mono_reads (net s0)))%Q in
  let s1 := snd (clock_monotonic env s0) in
  let s3 := snd (pkt_sock_send req s2) in
  let expire1 := (mad_timeout path + mono_clock env (mono_reads (net s3)))%Q in
  request_of buf path = Some req ->
  IBPath.retries path <> 0 ->
  SimUMAD.recvfrom env expire0 s1 = (Ok None, s2) ->
  SimUMAD.recvfrom env expire1 (snd (clock_monotonic env s3)) = (Ok (Some r), s4) ->
  Key_eqb rmatch (_get_match_key (fst r)) = true ->
  (2 <= fuel)%nat ->
  SimUMAD._execute env fuel buf path false s = (Ok (Some r), s4) /\
  pkt_sent (net s4) = pkt_sent (net s) ++ [req; req] /\
  traced (net s4) = traced (net s).
Proof.
  intros rmatch s0 expire0 s1 s3 expire1 Hreq Hr H1 H2 Hk Hf.
  pose proof (recvfrom_frame env expire0 s1) as F1. rewrite H1 in F1.
  pose proof (recvfrom_frame env expire1 (snd (clock_monotonic env s3))) as F2.
  rewrite H2 in F2. cbv zeta in F1, F2. cbn [snd] in F1, F2.
  destruct F1 as (Fs1 & Ft1 & _). destruct F2 as (Fs2 & Ft2 & _).
  split; [|split].
  - destruct fuel as [|[|fuel]]; try lia.
    unfold SimUMAD._execute. unfold bind at 1.
    rewrite (sendto_some _ _ _ _ Hreq). cbn [snd]. unfold bind at 1.
    cbn [clock_monotonic fst].
    change (SimUMAD._execute_loop env (S (S fuel)) buf path rmatch expire0
              (IBPath.retries path) s1 = (Ok (Some r), s4)).
    rewrite (_execute_loop_resend env _ _ _ req) by (auto; rewrite H1; reflexivity).
    rewrite H1. cbn [snd].
    apply (_execute_loop_match env _ _ _ _ _ _ _ _ _ H2 Hk).
  - rewrite Fs2. unfold s3.
    cbn [clock_monotonic pkt_sock_send modify with_net snd net pkt_sent].
    rewrite Fs1. unfold s1, s0.
    cbn [clock_monotonic pkt_sock_send modify with_net snd net pkt_sent].
    rewrite <- app_assoc. reflexivity.
  - rewrite Ft2. unfold s3.
    cbn [clock_monotonic pkt_sock_send modify with_net snd net traced].
    rewrite Ft1. reflexivity.
Qed.


Lemma receives_unexpected_loop buf path rmatch expire s rs s' :
  receives_unexpected env path rmatch expire s rs s' ->
  (forall fuel k,
      SimUMAD._execute_loop env (List.length rs + fuel) buf path rmatch expire k s =
      SimUMAD._execute_loop env fuel buf path rmatch expire k s') /\
  traced (net s') = traced (net s) ++ trace_calls (trace_func (umad s)) path rs /\
  pkt_sent (net s') = pkt_sent (net s) /\
  umad s' = umad s /\
  (pkt_polls (net s) <= pkt_polls (net s'))%nat.
Proof.
  induction 1 as [s|s s1 s' r rs Hr Hk Hrest IH].
  - split; [reflexivity|]. split; [|split; [|split]]; try reflexivity.
    unfold trace_calls. destruct (trace_func (umad s)); cbn [map];
      rewrite app_nil_r; reflexivity.
  - destruct IH as (IH1 & IH2 & IH3 & IH4 & IH5).
    pose proof (recvfrom_polls env expire s) as Fp. rewrite Hr in Fp.
    cbv zeta in Fp. cbn [snd] in Fp.
    destruct (after_trace_frame path r s1) as (_ & Ap & _).
    pose proof (recvfrom_frame env expire s) as F. rewrite Hr in F.
    cbv zeta in F. cbn [snd] in F. destruct F as (Fs & Ft & _ & _ & Fu & _).
    assert (Hu : umad (after_trace path r s1) = umad s).
    { unfold after_trace. destruct (trace_func (umad s1)); cbn; exact Fu. }
    split; [|split; [|split; [|split]]].
    + intros fuel k. cbn [List.length Nat.add].
      rewrite (_execute_loop_unexpected env _ _ _ _ _ _ _ _ _ Hr Hk). apply IH1.
    + rewrite IH2, Hu. unfold after_trace, trace_calls. rewrite Fu.
      destruct (trace_func (umad s)).
      * cbn [call_trace_func modify with_net snd net traced map].
        rewrite Ft, <- app_assoc. reflexivity.
      * rewrite Ft. reflexivity.
    + rewrite IH3. unfold after_trace.
      destruct (trace_func (umad s1));
        cbn [call_trace_func modify with_net snd net pkt_sent]; exact Fs.
    + rewrite IH4. exact Hu.
    + rewrite Ap in IH5. lia.
Qed.

(** X13. However many replies with another key arrive before the deadline,
    [_execute] reports each of them to the trace function, in order, and
    sends nothing again: a reply with the expected key that comes next is
    returned after the single send. None of them spends a retry: if nothing
    arrives after them, the request is resent as many times as the path has
    retries and [None] is returned after [retries + 1] sends; and the loop
    that has taken them goes on with the deadline and the number of retries
    it had. *)
Theorem execute_skips_unexpected (buf : bytes) (path : IBPath.t) (req : bytes)
  (s s2 : State) (rs : list (bytes * IBPath.t)) (fuel : nat) :
  let rmatch := _get_reply_match_key buf in
  let s0 := snd (pkt_sock_send req s) in
  let expire := (mad_timeout path + mono_clock env (mono_reads (net s0)))%Q in
  let s1 := snd (clock_monotonic env s0) in
  let traced_rs := traced (net s) ++ trace_calls (trace_func (umad s)) path rs in
  request_of buf path = Some req ->
  receives_unexpected env path rmatch expire s1 rs s2 ->
  (forall r s3,
      SimUMAD.recvfrom env expire s2 = (Ok (Some r), s3) ->
      Key_eqb rmatch (_get_match_key (fst r)) = true ->
      (List.length rs < fuel)%nat ->
      SimUMAD._execute env fuel buf path false s = (Ok (Some r), s3) /\
      traced (net s3) = traced_rs /\
      pkt_sent (net s3) = pkt_sent (net s) ++ [req]) /\
  ((forall wakeat s', (pkt_polls (net s2) <= pkt_polls (net s'))%nat ->
                      fst (SimUMAD.recvfrom env wakeat s') = Ok None) ->
   0 <= IBPath.retries path ->
   (List.length rs + Z.to_nat (IBPath.retries path) < fuel)%nat ->
   exists s',
     SimUMAD._execute env fuel buf path false s = (Ok None, s') /\
     pkt_sent (net s') =
       pkt_sent (net s) ++ repeat req (Z.to_nat (IBPath.retries path) + 1) /\
     traced (net s') = traced_rs) /\
  (forall fuel' k,
      SimUMAD._execute_loop env (List.length rs + fuel') buf path rmatch expire k s1 =
      SimUMAD._execute_loop env fuel' buf path rmatch expire k s2).
Proof.
  intros rmatch s0 expire s1 traced_rs Hreq Hru.
  destruct (receives_unexpected_loop buf path rmatch expire s1 rs s2 Hru)
    as (L1 & L2 & L3 & L4 & L5).
  assert (Hrun : SimUMAD._execute env fuel buf path false s =
                 SimUMAD._execute_loop env fuel buf path rmatch expire
                   (IBPath.retries path) s1).
  { unfold SimUMAD._execute. unfold bind at 1.
    rewrite (sendto_some _ _ _ _ Hreq). reflexivity. }
  split; [|split].
  - intros r s3 Hr Hk Hf.
    pose proof (recvfrom_frame env expire s2) as F. rewrite Hr in F.
    cbv zeta in F. cbn [snd] in F. destruct F as (Fs & Ft & _).
    split; [|split].
    + rewrite Hrun.
      replace fuel with (List.length rs + S (fuel - S (List.length rs)))%nat by lia.
      rewrite L1. apply (_execute_loop_match env _ _ _ _ _ _ _ _ _ Hr Hk).
    + rewrite Ft, L2. reflexivity.
    + rewrite Fs, L3. reflexivity.
  - intros Hnone Hr Hf.
    destruct (_execute_loop_silent_from env buf path req rmatch (pkt_polls (net s2))
                Hreq Hnone (Z.to_nat (IBPath.retries path))
                (fuel - List.length rs) expire s2)
      as (s' & Hl & Hsent & Htraced); [lia | lia |].
    rewrite Z2Nat.id in Hl by exact Hr.
    exists s'. split; [|split].
    + rewrite Hrun.
      replace fuel with (List.length rs + (fuel - List.length rs))%nat at 1 by lia.
      rewrite L1. exact Hl.
    + rewrite Hsent, L3. cbn [clock_monotonic pkt_sock_send modify with_net snd net
        pkt_sent s1 s0]. rewrite <- app_assoc. f_equal.
      rewrite Nat.add_comm. reflexivity.
    + rewrite Htraced, L2. reflexivity.
  - exact L1.
Qed.

End TransactorMore.

(** ** More on the port *)

Section PortMore.
Context {X : Externals} (env : Env).

Lemma gids_first (s s1 : State) (prefix : Z) :
  _gids (port s) = None ->
  SimEndPort._get env SMPPortInfo.a_GIDPrefix s = (Ok prefix, s1) ->
  uint 1 (port_id (port s)) ->
  let iid := port_iid (node_guid (parent (port s))) (port_id (port s)) in
  let g := if prefix =? GID_DEFAULT_PREFIX then [GID.mk GID_DEFAULT_PREFIX iid]
           else [GID.mk prefix iid; GID.mk GID_DEFAULT_PREFIX iid] in
  SimEndPort.gids env s = (Ok g, with_port (SimEndPort.set_gids g) s1).
Proof.
  intros Hnone Hget Hp. cbv zeta.
  pose proof (preserves__get env SMPPortInfo.a_GIDPrefix s) as F.
  rewrite Hget in F. cbn [snd] in F. destruct F as [Fid Fpar _ _ _ _].
  unfold SimEndPort.gids. unfold bind at 1. unfold gets at 1. rewrite Hnone.
  unfold bind at 1. rewrite Hget.
  unfold bind at 1. unfold gets at 1.
  unfold bind at 1. rewrite Fid, Fpar.
  rewrite guid_setitem7 by exact Hp. reflexivity.
Qed.

(** X14. On the first read, [default_gid] is the first entry of [gids]: the
    identifier made of the GID prefix that the port cache holds and of the
    port's interface identifier. It has the default prefix only if the cached
    prefix is the default one; the default-prefixed identifier is always the
    last entry of [gids]. No [IndexError] is raised: [gids] is never
    empty. *)
Theorem default_gid_has_cached_prefix (s s1 : State) (prefix : Z) :
  _gids (port s) = None ->
  SimEndPort._get env SMPPortInfo.a_GIDPrefix s = (Ok prefix, s1) ->
  uint 1 (port_id (port s)) ->
  let iid := port_iid (node_guid (parent (port s))) (port_id (port s)) in
  exists g,
    SimEndPort.gids env s = (Ok g, with_port (SimEndPort.set_gids g) s1) /\
    SimEndPort.default_gid env s =
      (Ok (GID.mk prefix iid), with_port (SimEndPort.set_gids g) s1) /\
    hd_error g = Some (GID.mk prefix iid) /\
    last g (GID.mk prefix iid) = GID.mk GID_DEFAULT_PREFIX iid /\
    (List.length g = 1%nat <-> prefix = GID_DEFAULT_PREFIX) /\
    (List.length g = 2%nat <-> prefix <> GID_DEFAULT_PREFIX).
Proof.
  intros Hnone Hget Hp iid.
  pose proof (gids_first s s1 prefix Hnone Hget Hp) as Hg. cbv zeta in Hg. fold iid in Hg.
  eexists. split; [exact Hg|].
  unfold SimEndPort.default_gid. unfold bind at 1. rewrite Hg.
  destruct (Z.eqb_spec prefix GID_DEFAULT_PREFIX) as [->|Hne].
  - repeat split; try reflexivity; try discriminate; intros; congruence.
  - repeat split; try reflexivity; try discriminate; intros; congruence.
Qed.

Lemma pack_uint_B_inv o v payload :
  Struct.pack_uint o 1 v = Some payload -> payload = [byte.of_Z v].
Proof.
  unfold Struct.pack_uint. destruct (_ && _); [|discriminate].
  intros [= <-]. destruct o; reflexivity.
Qed.

(** A read of a stale cache answered by a reply of at least 80 bytes. *)
Lemma _get_refresh field s :
  let now := wall_clock env (wall_reads (net s)) in
  let reply := ctl_reply env (ctl_recvs (net s)) in
  let info := SMPPortInfo_unpack_from (slice 16 64 reply) in
  (_port_info_age (port s) + 1 <? now)%float = true ->
  uint 1 (port_id (port s)) -> uint 4 (_client_id s) ->
  ctl_recv_error env (ctl_recvs (net s)) = None ->
  (80 <= List.length reply)%nat ->
  exists msg,
    portinfo_call (_client_id s) (port_id (port s)) msg /\
    SimEndPort._get env field s =
      (Ok (SMPPortInfo.getattr info field),
       with_port (SimEndPort.set_port_info info now)
         (after_ctl env msg (snd (time_time env s)))).
Proof.
  intros now reply info H Hpid Hcid He Hlen.
  pose proof (pack_uint_B host_order _ Hpid) as Hp.
  destruct (ctl_msg_some (snd (time_time env s)) SIM_CTL_GET_PORTINFO
              [byte.of_Z (port_id (port s))]) as [msg Hm];
    [exact Hcid | unfold uint, SIM_CTL_GET_PORTINFO; simpl; lia
    | unfold uint, len; simpl; lia |].
  exists msg. split.
  - apply struct_ctl_unpack_pack in Hm. exact Hm.
  - rewrite (_get_stale env field s _ msg H Hp Hm). cbv zeta.
    change (ctl_recvs (net s)) with (ctl_recvs (net (snd (time_time env s))))
      in Hlen, He.
    rewrite (ctl_result_decodes env _ He Hlen). reflexivity.
Qed.


(** X16. The administrative path is built from three attribute reads. When
    the test [now > age + 1] holds at the first read and fails at the next
    two, on binary64 numbers with the rounded sum, and the receive gives a
    reply of at least 80 bytes, the destination LID, the source LID and the
    service level of the path all come from that one reply, after exactly one
    control call. *)
Theorem sa_path_from_one_reply (s : State) (idx : Z) :
  let now0 := wall_clock env (wall_reads (net s)) in
  let now1 := wall_clock env (S (wall_reads (net s))) in
  let now2 := wall_clock env (S (S (wall_reads (net s)))) in
  let reply := ctl_reply env (ctl_recvs (net s)) in
  let info := SMPPortInfo_unpack_from (slice 16 64 reply) in
  _cached_sa_path (port s) = None ->
  admin_pkey_index (pkeys (port s)) = Some idx ->
  (_port_info_age (port s) + 1 <? now0)%float = true ->
  (now0 + 1 <? now1)%float = false -> (now0 + 1 <? now2)%float = false ->
  uint 1 (port_id (port s)) -> uint 4 (_client_id s) ->
  ctl_recv_error env (ctl_recvs (net s)) = None ->
  (80 <= List.length reply)%nat ->
  exists msg path,
    fst (SimEndPort.sa_path env s) = Ok path /\
    IBPath.DLID path = SMPPortInfo.masterSMLID info /\
    IBPath.SLID path = SMPPortInfo.LID info /\
    IBPath.SL path = SMPPortInfo.masterSMSL info /\
    IBPath.pkey_index path = idx /\
    IBPath.dqpn path = 1 /\ IBPath.sqpn path = 1 /\
    IBPath.qkey path = IB_DEFAULT_QP1_QKEY /\
    ctl_sent (net (snd (SimEndPort.sa_path env s))) = ctl_sent (net s) ++ [msg] /\
    portinfo_call (_client_id s) (port_id (port s)) msg.
Proof.
  intros now0 now1 now2 reply info Hc Hk Hs H1 H2 Hpid Hcid He Hlen.
  destruct (_get_refresh SMPPortInfo.a_masterSMLID s Hs Hpid Hcid He Hlen)
    as (msg & Hmsg & Hget).
  set (sa := with_port (SimEndPort.set_port_info info now0)
               (after_ctl env msg (snd (time_time env s)))) in *.
  assert (Hb : SimEndPort.lid env sa =
               (Ok (SMPPortInfo.LID info), snd (time_time env sa)))
    by (apply (_get_fresh env SMPPortInfo.a_LID sa); exact H1).
  assert (Hcc : SimEndPort.sm_sl env (snd (time_time env sa)) =
                (Ok (SMPPortInfo.masterSMSL info),
                 snd (time_time env (snd (time_time env sa)))))
    by (apply (_get_fresh env SMPPortInfo.a_masterSMSL (snd (time_time env sa)));
        exact H2).
  exists msg. eexists.
  rewrite (sa_path_built env s idx _ _ _ _ _ _ Hc Hk Hget Hb Hcc).
  split; [reflexivity|]. repeat split; try reflexivity. exact Hmsg.
Qed.

End PortMore.

(** ** How many control calls a port read makes *)

Section CallBounds.
Context {X : Externals} (env : Env).

Lemma portinfo_calls_refl s : portinfo_calls 0 s s.
Proof.
  split; [reflexivity|]. split; [reflexivity|].
  exists []. rewrite app_nil_r. repeat split; auto.
Qed.

Lemma portinfo_calls_trans n m s s' s'' :
  portinfo_calls n s s' -> portinfo_calls m s' s'' -> portinfo_calls (n + m) s s''.
Proof.
  intros (c1 & p1 & l1 & e1 & b1 & f1) (c2 & p2 & l2 & e2 & b2 & f2).
  split; [congruence|]. split; [congruence|].
  exists (l1 ++ l2). rewrite e2, e1, app_assoc. split; [reflexivity|].
  split; [rewrite length_app; lia|].
  apply Forall_app. split; [exact f1|]. rewrite c1, p1 in f2. exact f2.
Qed.

Lemma portinfo_calls_le n m s s' :
  (n <= m)%nat -> portinfo_calls n s s' -> portinfo_calls m s s'.
Proof.
  intros H (c1 & p1 & l1 & e1 & b1 & f1).
  split; [exact c1|]. split; [exact p1|]. exists l1. repeat split; auto. lia.
Qed.

(** A change of the state that keeps the client, the port index and what
    the control socket has sent. *)
Lemma portinfo_calls_quiet s s' :
  _client_id s' = _client_id s -> port_id (port s') = port_id (port s) ->
  ctl_sent (net s') = ctl_sent (net s) -> portinfo_calls 0 s s'.
Proof.
  intros H1 H2 H3. split; [exact H1|]. split; [exact H2|].
  exists []. rewrite app_nil_r. repeat split; auto.
Qed.

Lemma within_bind n m {A B} (c : M A) (k : A -> M B) :
  within_calls n c -> (forall a, within_calls m (k a)) ->
  within_calls (n + m) (bind c k).
Proof.
  intros Hc Hk s. unfold bind. specialize (Hc s).
  destruct (c s) as [[a| |] s']; cbn [snd] in *.
  - eapply portinfo_calls_trans; [exact Hc|apply Hk].
  - eapply portinfo_calls_le; [|exact Hc]. lia.
  - eapply portinfo_calls_le; [|exact Hc]. lia.
Qed.

Lemma within_le n m {A} (c : M A) :
  (n <= m)%nat -> within_calls n c -> within_calls m c.
Proof. intros H Hc s. eapply portinfo_calls_le; [exact H|apply Hc]. Qed.

Lemma within_ret {A} (a : A) : within_calls 0 (ret a).
Proof. intros s. apply portinfo_calls_refl. Qed.

Lemma within_raise {A} e : within_calls 0 (@raise A e).
Proof. intros s. apply portinfo_calls_refl. Qed.

Lemma within_gets {A} (f : State -> A) : within_calls 0 (gets f).
Proof. intros s. apply portinfo_calls_refl. Qed.

Lemma within__get field : within_calls 1 (SimEndPort._get env field).
Proof.
  intros s. unfold SimEndPort._get. unfold bind at 1. unfold time_time at 1.
  unfold bind at 1. unfold gets at 1.
  destruct (SimEndPort.stale _ _);
    [|apply (portinfo_calls_le 0); [lia|]; apply portinfo_calls_quiet; reflexivity].
  unfold bind at 1. unfold bind at 1. unfold gets at 1.
  destruct (Struct.pack_uint _ _ _) as [payload|] eqn:Ep;
    [|apply (portinfo_calls_le 0); [lia|]; apply portinfo_calls_quiet; reflexivity].
  apply pack_uint_B_inv in Ep. subst payload.
  unfold struct_call. unfold bind at 1. unfold ret at 1. unfold bind at 1.
  match goal with
  | |- context [SimConnection._ctl env ?t ?d ?st] =>
      destruct (ctl_msg st t d) as [msg|] eqn:E;
      [rewrite (_ctl_sent env _ _ _ _ E)|rewrite (_ctl_not_sent env _ _ _ E)]
  end; [|apply (portinfo_calls_le 0); [lia|]; apply portinfo_calls_quiet; reflexivity].
  apply struct_ctl_unpack_pack in E.
  assert (Hc : portinfo_call (_client_id s) (port_id (port s)) msg) by exact E.
  clear E.
  destruct (ctl_result env _); cbn [snd];
    (split; [reflexivity|]; split; [reflexivity|];
     exists [msg]; split; [reflexivity|]; split; [cbn; lia|];
     constructor; [exact Hc|constructor]).
Qed.

Lemma within_set_gids g : within_calls 0 (modify (with_port (SimEndPort.set_gids g))).
Proof. intros s. apply portinfo_calls_quiet; reflexivity. Qed.

Lemma within_set_cached_sa_path p :
  within_calls 0 (modify (with_port (SimEndPort.set_cached_sa_path p))).
Proof. intros s. apply portinfo_calls_quiet; reflexivity. Qed.

Lemma within_gids : within_calls 1 (SimEndPort.gids env).
Proof.
  unfold SimEndPort.gids. apply (within_bind 0 1); [apply within_gets|].
  intros [g|]; [apply (within_le 0); [lia|apply within_ret]|].
  apply (within_bind 1 0); [apply within__get|]. intros prefix.
  apply (within_bind 0 0); [apply within_gets|]. intros self.
  apply (within_bind 0 0).
  - unfold SimEndPort.bytearray_setitem.
    destruct (Nat.ltb _ _); [destruct (_ && _)|];
      first [apply within_ret | apply within_raise].
  - intros guid. apply (within_bind 0 0); [apply within_set_gids|].
    intros _. apply within_ret.
Qed.

Lemma within_sa_path : within_calls 3 (SimEndPort.sa_path env).
Proof.
  unfold SimEndPort.sa_path. apply (within_bind 0 3); [apply within_gets|].
  intros [p|]; [apply (within_le 0); [lia|apply within_ret]|].
  apply (within_bind 0 3).
  { intros s. change "Could not find the SA default PKey"%string with no_pkey_msg.
    rewrite find_admin_pkey. apply portinfo_calls_refl. }
  intros idx. apply (within_bind 0 3); [apply within_gets|]. intros self.
  apply (within_bind 1 2); [apply within__get|]. intros dlid.
  apply (within_bind 1 1); [apply within__get|]. intros slid.
  apply (within_bind 1 0); [apply within__get|]. intros sl.
  apply (within_bind 0 0).
  { unfold SimEndPort.subnet_timeout. apply (within_bind 0 0); [apply within_gets|].
    intros [v|]; apply within_ret. }
  intros plt. apply (within_bind 0 0); [apply within_set_cached_sa_path|].
  intros _. apply within_ret.
Qed.

(** X17. Reading a port attribute makes at most one control call, [rate] at
    most two, [gids] and [default_gid] at most one and [sa_path] at most
    three, whatever the state, the clock and the replies, also when they
    raise; every envelope they send is a [GET_PORTINFO] for the session's
    client id with the port index as its single payload byte. *)
Theorem port_reads_call_bound (field : SMPPortInfo.attr) :
  within_calls 1 (SimEndPort._get env field) /\
  within_calls 2 (SimEndPort.rate env) /\
  within_calls 1 (SimEndPort.gids env) /\
  within_calls 1 (SimEndPort.default_gid env) /\
  within_calls 3 (SimEndPort.sa_path env).
Proof.
  split; [apply within__get|]. split; [|split; [apply within_gids|split]].
  - unfold SimEndPort.rate. apply (within_bind 1 1); [apply within__get|].
    intros w. apply (within_bind 1 0); [apply within__get|].
    intros v. apply within_ret.
  - unfold SimEndPort.default_gid. apply (within_bind 1 0); [apply within_gids|].
    intros [|x g]; [apply within_raise|apply within_ret].
  - apply within_sa_path.
Qed.

End CallBounds.

(** ** The memoized identifiers over any sequence of calls *)

Section MemoKept.
Context {X : Externals} (env : Env).

Lemma same_gids_ret {A} (a : A) : same_gids (ret a).
Proof. intros s. reflexivity. Qed.

Lemma same_gids_raise {A} e : same_gids (@raise A e).
Proof. intros s. reflexivity. Qed.

Lemma same_gids_gets {A} (f : State -> A) : same_gids (gets f).
Proof. intros s. reflexivity. Qed.

Lemma same_gids_struct_call {A} (x : option A) : same_gids (struct_call x).
Proof. intros s. destruct x; reflexivity. Qed.

Lemma same_gids_bind {A B} (c : M A) (k : A -> M B) :
  same_gids c -> (forall a, same_gids (k a)) -> same_gids (bind c k).
Proof.
  intros Hc Hk s. unfold bind. specialize (Hc s).
  destruct (c s) as [[a| |] s']; cbn [snd] in *; auto.
  rewrite Hk. exact Hc.
Qed.

Lemma same_gids_except {A} (c h : M A) :
  same_gids c -> same_gids h -> same_gids (except_ValueError c h).
Proof.
  intros Hc Hh s. unfold except_ValueError. specialize (Hc s).
  destruct (c s) as [[a|[]|] s']; cbn [snd] in *; auto.
  rewrite Hh. exact Hc.
Qed.

Lemma same_gids_with_net f : same_gids (modify (with_net f)).
Proof. intros s. reflexivity. Qed.

Lemma same_gids_time_time : same_gids (time_time env).
Proof. intros s. reflexivity. Qed.

Lemma same_gids_clock_monotonic : same_gids (clock_monotonic env).
Proof. intros s. reflexivity. Qed.

Lemma same_gids_ctl_sock_send msg : same_gids (ctl_sock_send msg).
Proof. intros s. reflexivity. Qed.

Lemma same_gids_ctl_sock_recv n : same_gids (ctl_sock_recv env n).
Proof. intros s. reflexivity. Qed.

Lemma same_gids_pkt_sock_send req : same_gids (pkt_sock_send req).
Proof. intros s. reflexivity. Qed.

Lemma same_gids_poll_poll ms : same_gids (poll_poll env ms).
Proof. intros s. reflexivity. Qed.

Lemma same_gids_pkt_sock_recv n : same_gids (pkt_sock_recv env n).
Proof. intros s. reflexivity. Qed.

Lemma same_gids_call_trace_func h k p r : same_gids (call_trace_func h k p r).
Proof. intros s. reflexivity. Qed.

Lemma same_gids_with_client_id v : same_gids (modify (with_client_id v)).
Proof. intros s. reflexivity. Qed.

Lemma same_gids_with_pkt_peer v : same_gids (modify (with_pkt_peer v)).
Proof. intros s. reflexivity. Qed.

Lemma same_gids_socket_setup : same_gids (socket_setup env).
Proof. intros s. unfold socket_setup. destruct (setup_error env); reflexivity. Qed.

Lemma same_gids_pkt_sock_connect p : same_gids (pkt_sock_connect env p).
Proof.
  intros s. unfold pkt_sock_connect.
  destruct (_ && _); [|reflexivity].
  destruct (pkt_connect_error env); reflexivity.
Qed.

Lemma same_gids_with_umad f : same_gids (modify (with_umad f)).
Proof. intros s. reflexivity. Qed.

Lemma same_gids_set_port_info info age :
  same_gids (modify (with_port (SimEndPort.set_port_info info age))).
Proof. intros s. reflexivity. Qed.

Lemma same_gids_set_cached_sa_path p :
  same_gids (modify (with_port (SimEndPort.set_cached_sa_path p))).
Proof. intros s. reflexivity. Qed.

End MemoKept.

Create HintDb memo.
#[local] Hint Resolve same_gids_ret same_gids_raise same_gids_gets
  same_gids_struct_call same_gids_with_net same_gids_time_time
  same_gids_clock_monotonic same_gids_ctl_sock_send same_gids_ctl_sock_recv
  same_gids_pkt_sock_send same_gids_poll_poll same_gids_pkt_sock_recv
  same_gids_call_trace_func same_gids_with_client_id same_gids_with_pkt_peer
  same_gids_with_umad same_gids_set_port_info same_gids_set_cached_sa_path
  same_gids_socket_setup same_gids_pkt_sock_connect : memo.

(** Walks through a method that does not assign the memo. *)
Ltac memo :=
  repeat match goal with
         | |- same_gids (bind _ _) => apply same_gids_bind; [|intro]
         | |- same_gids (except_ValueError _ _) => apply same_gids_except
         | |- same_gids (if ?b then _ else _) => destruct b
         | |- same_gids (match ?x with Some _ => _ | None => _ end) => destruct x
         | |- same_gids (match ?x with [] => _ | _ :: _ => _ end) => destruct x
         | |- same_gids (let '(_, _) := ?x in _) => destruct x
         | |- same_gids _ => solve [auto with memo]
         end.

Section MemoCalls.
Context {X : Externals} (env : Env).

Lemma same_gids__ctl type data : same_gids (SimConnection._ctl env type data).
Proof. unfold SimConnection._ctl. memo. Qed.

Lemma same_gids__get field : same_gids (SimEndPort._get env field).
Proof. unfold SimEndPort._get. memo; apply same_gids__ctl. Qed.

Lemma same_gids_pkey_index pkey : same_gids (SimEndPort.pkey_index pkey).
Proof. unfold SimEndPort.pkey_index. memo. Qed.

Lemma same_gids_sa_path : same_gids (SimEndPort.sa_path env).
Proof.
  unfold SimEndPort.sa_path, SimEndPort.subnet_timeout.
  memo; first [apply same_gids__get | apply same_gids_pkey_index].
Qed.

Lemma same_gids_recvfrom wakeat : same_gids (SimUMAD.recvfrom env wakeat).
Proof. unfold SimUMAD.recvfrom. memo. Qed.

Lemma same_gids_sendto buf path : same_gids (SimUMAD.sendto buf path).
Proof. unfold SimUMAD.sendto. memo. Qed.

Lemma same_gids__execute_loop fuel buf path rmatch :
  forall expire retries,
    same_gids (SimUMAD._execute_loop env fuel buf path rmatch expire retries).
Proof.
  induction fuel as [|fuel IH]; intros expire retries.
  - intros s. reflexivity.
  - cbn [SimUMAD._execute_loop].
    memo; try apply same_gids_recvfrom; try apply same_gids_sendto; apply IH.
Qed.

Lemma same_gids__execute fuel buf path sendOnly :
  same_gids (SimUMAD._execute env fuel buf path sendOnly).
Proof.
  unfold SimUMAD._execute.
  memo; try apply same_gids_sendto; apply same_gids__execute_loop.
Qed.

Lemma keeps_gids_refl s : keeps_gids s s.
Proof. intros g H. exact H. Qed.

Lemma keeps_gids_trans s1 s2 s3 :
  keeps_gids s1 s2 -> keeps_gids s2 s3 -> keeps_gids s1 s3.
Proof. intros H1 H2 g H. apply H2, H1, H. Qed.

Lemma same_gids_keeps {A} (c : M A) s : same_gids c -> keeps_gids s (snd (c s)).
Proof. intros H g Hg. rewrite H. exact Hg. Qed.

(** [gids] assigns the memo only when there is none. *)
Lemma keeps_gids_gids s : keeps_gids s (snd (SimEndPort.gids env s)).
Proof.
  intros g Hg. rewrite (gids_memoized env s g Hg). exact Hg.
Qed.

Lemma keeps_gids_bind_ret {A} (c : M A) s :
  keeps_gids s (snd (c s)) -> keeps_gids s (snd ((c ;;; ret tt) s)).
Proof.
  intros H. unfold bind. destruct (c s) as [[a| |] s']; exact H.
Qed.

Lemma keeps_gids_do_call c s : keeps_gids s (snd (do_call env c s)).
Proof.
  destruct c; cbn [do_call]; try apply keeps_gids_bind_ret.
  - apply same_gids_keeps. unfold SimConnection.__init__.
    memo; apply same_gids__ctl.
  - apply same_gids_keeps. unfold SimConnection.__del__.
    memo; apply same_gids__ctl.
  - apply same_gids_keeps. unfold SimDevice.__init__.
    memo; apply same_gids__ctl.
  - apply same_gids_keeps, same_gids__get.
  - apply same_gids_keeps. unfold SimEndPort.rate. memo; apply same_gids__get.
  - apply keeps_gids_gids.
  - unfold SimEndPort.default_gid. unfold bind.
    pose proof (keeps_gids_gids s) as H.
    destruct (SimEndPort.gids env s) as [[[|x g]| |] s']; exact H.
  - apply same_gids_keeps. unfold SimEndPort.subnet_timeout. memo.
  - apply same_gids_keeps, same_gids_pkey_index.
  - apply same_gids_keeps, same_gids_sa_path.
  - apply same_gids_keeps. unfold SimUMAD._get_new_TID. memo.
  - apply same_gids_keeps, same_gids_sendto.
  - apply same_gids_keeps, same_gids_recvfrom.
  - apply same_gids_keeps, same_gids__execute.
Qed.

Lemma keeps_gids_run cs : forall s, keeps_gids s (run env cs s).
Proof.
  induction cs as [|c cs IH]; intros s; cbn [run].
  - apply keeps_gids_refl.
  - eapply keeps_gids_trans; [apply keeps_gids_do_call|apply IH].
Qed.

(** What [gids] returns is what it leaves memoized. *)
Lemma gids_sets_memo s g s' :
  SimEndPort.gids env s = (Ok g, s') -> _gids (port s') = Some g.
Proof.
  unfold SimEndPort.gids. unfold bind at 1. unfold gets at 1.
  destruct (_gids (port s)) as [g0|] eqn:Hg.
  - unfold ret. intros H. inversion H. subst. exact Hg.
  - unfold bind at 1.
    destruct (SimEndPort._get env _ s) as [[prefix| |] s1];
      try discriminate.
    unfold bind at 1. unfold gets at 1. unfold bind at 1.
    destruct (SimEndPort.bytearray_setitem _ _ _ s1) as [[guid| |] s2] eqn:Eb;
      try discriminate.
    unfold bind, modify, ret. intros H. inversion H. reflexivity.
Qed.

(** X18. Once [gids] has returned a tuple, every later [gids] returns that
    same tuple and leaves the state as it finds it, whatever calls of the
    module ran in between, whether they returned or raised, and whatever
    the port cache holds by then: the GID prefix is read once in the life
    of the port. *)
Theorem gids_fixed_after_first (s s1 : State) (g : list GID.t) (cs : list call) :
  SimEndPort.gids env s = (Ok g, s1) ->
  SimEndPort.gids env (run env cs s1) = (Ok g, run env cs s1) /\
  SimEndPort.default_gid env (run env cs s1) =
  (match g with [] => Raise IndexError | x :: _ => Ok x end, run env cs s1).
Proof.
  intros H. apply gids_sets_memo in H.
  apply (keeps_gids_run cs) in H.
  assert (Hg := gids_memoized env _ _ H). split; [exact Hg|].
  unfold SimEndPort.default_gid, bind. rewrite Hg. destruct g; reflexivity.
Qed.

End MemoCalls.

(** ** The statements at concrete inputs *)

#[local] Existing Instance example_externals.

Lemma quiet_env_no_data (wakeat : Q) (s : State) :
  fst (SimUMAD.recvfrom quiet_env wakeat s) = Ok None.
Proof.
  unfold SimUMAD.recvfrom, bind, clock_monotonic. cbn [fst snd].
  destruct (Qle_bool _ _); reflexivity.
Qed.

(** Two retries against the quiet simulator: three sends, then [None]. *)
Lemma execute_no_reply_witness :
  exists s',
    SimUMAD._execute quiet_env 3 (example_mad 7) example_path false example_state =
      (Ok None, s') /\
    pkt_sent (net s') =
      repeat (example_datagram 2 1 0 24 (example_mad 7)) 3 /\
    traced (net s') = [].
Proof.
  destruct (execute_no_reply quiet_env (example_mad 7) example_path
              (example_datagram 2 1 0 24 (example_mad 7)) example_state 3)
    as [H _].
  - reflexivity.
  - simpl. lia.
  - exact quiet_env_no_data.
  - simpl. lia.
  - exact H.
Defined.

Lemma script_env_silent (ds : list bytes) (wakeat : Q) (s : State) :
  (List.length ds <= pkt_polls (net s))%nat ->
  fst (SimUMAD.recvfrom (script_env ds) wakeat s) = Ok None.
Proof.
  intros H. unfold SimUMAD.recvfrom, bind, clock_monotonic. cbn [fst snd].
  destruct (Qle_bool _ _); [reflexivity|].
  unfold poll_poll. cbn [fst snd pkt_poll_error pkt_ready script_env net with_net
    pkt_polls].
  apply Nat.ltb_ge in H. rewrite H. reflexivity.
Qed.

(** A reply to transaction 9, then the reply to transaction 7, both at once:
    the second is returned, the trace function was called once, and the
    request went out once. A reply to transaction 9 and then silence, on a
    path with two retries: the trace function was called once and the request
    went out three times. *)
Lemma execute_unexpected_then_match_witness :
  let d9 := example_datagram 1 2 0 24 (example_mad 9) in
  let d7 := example_datagram 1 2 0 24 (example_mad 7) in
  let req := example_datagram 2 1 0 24 (example_mad 7) in
  (exists r1 r2 s3,
      SimUMAD._execute (talking_env d9 d7) 2 (example_mad 7) example_path false
        example_state = (Ok (Some r2), s3) /\
      firstn 24 (fst r1) = example_mad 9 /\
      firstn 24 (fst r2) = example_mad 7 /\
      traced (net s3) = [Build_TraceCall 0 TRACE_UNEXPECTED example_path r1] /\
      pkt_sent (net s3) = [req]) /\
  (exists r1 s',
      SimUMAD._execute (script_env [d9]) 4 (example_mad 7) example_path false
        example_state = (Ok None, s') /\
      firstn 24 (fst r1) = example_mad 9 /\
      traced (net s') = [Build_TraceCall 0 TRACE_UNEXPECTED example_path r1] /\
      pkt_sent (net s') = [req; req; req]).
Proof.
  intros d9 d7 req. split.
  - edestruct (execute_unexpected_then_match (talking_env d9 d7) (example_mad 7)
                 example_path req example_state) with (fuel := 2%nat) as [H _].
    + reflexivity.
    + lazy. reflexivity.
    + reflexivity.
    + edestruct H as (H1 & H2 & H3).
      * lazy. reflexivity.
      * reflexivity.
      * lia.
      * eexists. eexists. eexists.
        split; [exact H1|]. split; [|split; [|split; [exact H2|exact H3]]]; reflexivity.
  - edestruct (execute_unexpected_then_match (script_env [d9]) (example_mad 7)
                 example_path req example_state) with (fuel := 4%nat) as (_ & H & _).
    + reflexivity.
    + lazy. reflexivity.
    + reflexivity.
    + destruct H as (s' & H1 & H2 & H3).
      * intros wakeat s0 Hp. apply script_env_silent. exact Hp.
      * simpl. lia.
      * simpl. lia.
      * eexists. exists s'.
        split; [exact H1|]. split; [|split; [exact H3|exact H2]]. reflexivity.
Defined.



(** A read at 5 seconds of a cache stamped at 5 seconds, one of a cache
    stamped at 0, one that the simulator refuses, and one of a cache stamped
    at [4 - 2^-51] seconds: the sum with 1 rounds to 5, which the time read
    does not exceed, and the cache is served. *)
Lemma port_cache_ttl_witness :
  (fst (SimEndPort._get quiet_env SMPPortInfo.a_LID example_state_cached) = Ok 3 /\
   ctl_sent (net (snd (SimEndPort._get quiet_env SMPPortInfo.a_LID
                         example_state_cached))) = []) /\
  (exists msg,
      ctl_sent (net (snd (SimEndPort._get quiet_env SMPPortInfo.a_LID
                            example_state))) = [msg] /\
      struct_ctl.unpack LittleEndian msg =
        Some (SIM_MAGIC, 42, SIM_CTL_GET_PORTINFO, 1, Byte.x01 :: repeat Byte.x00 63) /\
      fst (SimEndPort._get quiet_env SMPPortInfo.a_LID example_state) = Ok 3 /\
      _port_info_age (port (snd (SimEndPort._get quiet_env SMPPortInfo.a_LID
                                   example_state))) = 5%float) /\
  (fst (SimEndPort._get refused_env SMPPortInfo.a_LID example_state) =
     Raise (SocketError 111) /\
   _port_info_age (port (snd (SimEndPort._get refused_env SMPPortInfo.a_LID
                                example_state))) = 0%float) /\
  (fst (SimEndPort._get quiet_env SMPPortInfo.a_LID example_state_boundary) = Ok 3 /\
   ctl_sent (net (snd (SimEndPort._get quiet_env SMPPortInfo.a_LID
                         example_state_boundary))) = []).
Proof.
  split; [|split; [|split]].
  - destruct (proj1 (port_cache_ttl quiet_env SMPPortInfo.a_LID example_state_cached))
      as (H1 & H2 & _).
    + reflexivity.
    + split; [exact H1|exact H2].
  - destruct (proj2 (port_cache_ttl quiet_env SMPPortInfo.a_LID example_state))
      as (msg & H1 & _ & H2 & H3 & _).
    + reflexivity.
    + unfold uint. simpl. lia.
    + unfold uint. simpl. lia.
    + exists msg. split; [exact H1|]. split; [exact H2|].
      destruct H3 as [H3 H4]; [reflexivity|vm_compute; lia|].
      split; [exact H3|]. rewrite H4. reflexivity.
  - destruct (proj2 (port_cache_ttl refused_env SMPPortInfo.a_LID example_state))
      as (msg & _ & _ & _ & _ & _ & H).
    + reflexivity.
    + unfold uint. simpl. lia.
    + unfold uint. simpl. lia.
    + destruct (H 111 eq_refl) as [H1 H2]. split; [exact H1|].
      rewrite H2. reflexivity.
  - destruct (proj1 (port_cache_ttl quiet_env SMPPortInfo.a_LID example_state_boundary))
      as (H1 & H2 & _).
    + reflexivity.
    + split; [exact H1|exact H2].
Defined.

(** Port 1 of the device with GUID [0102:0304:0506:0708], with the default
    prefix cached and with another one. *)
Lemma gids_derivation_witness :
  let iid := [Byte.x01; Byte.x02; Byte.x03; Byte.x04; Byte.x05; Byte.x06; Byte.x07;
              Byte.x01] in
  fst (SimEndPort.gids quiet_env example_state_cached) =
    Ok [GID.mk 0xFE80000000000000 iid] /\
  fst (SimEndPort.gids quiet_env example_state_custom_prefix) =
    Ok [GID.mk 0xFEC0000000000000 iid; GID.mk 0xFE80000000000000 iid].
Proof.
  intros iid. split.
  - edestruct (gids_derivation quiet_env example_state_cached) as [H _].
    + reflexivity.
    + lazy. reflexivity.
    + unfold uint. simpl. lia.
    + rewrite H. reflexivity.
  - edestruct (gids_derivation quiet_env example_state_custom_prefix) as [H _].
    + reflexivity.
    + lazy. reflexivity.
    + unfold uint. simpl. lia.
    + rewrite H. reflexivity.
Defined.

(** C4 as stated fails: the 7 bytes before the port index are not the low 7
    bytes of the GUID. For the GUID [0102:0304:0506:0708] and port 1 they are
    [01 02 03 04 05 06 07], its high 7 bytes; its low 7 bytes are
    [02 03 04 05 06 07 08]. *)
Lemma gids_keeps_high_bytes :
  let G := node_guid example_device in
  exists iid,
    fst (SimEndPort.gids quiet_env example_state_cached) =
      Ok [GID.mk 0xFE80000000000000 iid] /\
    nth_error iid 7 = Some Byte.x01 /\
    firstn 7 iid = firstn 7 (GUID.to_bytes G) /\
    be (firstn 7 iid) = G / 2 ^ 8 /\
    firstn 7 iid <> skipn 1 (GUID.to_bytes G) /\
    be (firstn 7 iid) <> G mod 2 ^ 56.
Proof.
  intros G. eexists. split; [lazy; reflexivity|].
  split; [reflexivity|]. split; [reflexivity|]. split; [reflexivity|].
  split; vm_compute; discriminate.
Qed.

(** The port as constructed, whose one read of the port info goes to the
    simulator, and a port without a default key. *)
Lemma sa_path_first_access_witness :
  (exists path s',
      SimEndPort.sa_path quiet_env example_state = (Ok path, s') /\
      IBPath.DLID path = 1 /\ IBPath.SLID path = 3 /\ IBPath.pkey_index path = 0 /\
      List.length (ctl_sent (net s')) = 1%nat /\
      let s'' := run quiet_env [call_get SMPPortInfo.a_LID; call_gids] s' in
      SimEndPort.sa_path quiet_env s'' = (Ok path, s'')) /\
  SimEndPort.sa_path quiet_env example_state_no_pkey =
    (Raise (RDMAError "Could not find the SA default PKey"), example_state_no_pkey).
Proof.
  split.
  - edestruct (proj2 (proj2 (sa_path_first_access quiet_env example_state eq_refl)))
      as (H1 & _ & H3 & H4).
    + reflexivity.
    + lazy. reflexivity.
    + lazy. reflexivity.
    + lazy. reflexivity.
    + eexists. eexists. split; [exact H1|].
      split; [reflexivity|]. split; [reflexivity|]. split; [reflexivity|].
      split; [reflexivity|].
      exact (H4 [call_get SMPPortInfo.a_LID; call_gids]).
  - apply (proj1 (proj2 (sa_path_first_access quiet_env example_state_no_pkey eq_refl)));
      simpl; intros [H|[H|[]]]; discriminate.
Defined.

(** The port as constructed, after four calls. *)
Lemma pkeys_never_fetched_witness :
  let s' := run quiet_env
              [call_sa_path; call_get SMPPortInfo.a_LID; call_gids; call_disconnect]
              example_state in
  pkeys (port s') = [0xFFFF] /\
  SimEndPort.pkey_index 0xFFFF s' = (Ok 0, s') /\
  (forall msg, fst (SimEndPort.sa_path quiet_env s') <> Raise (RDMAError msg)).
Proof.
  intros s'.
  destruct (pkeys_never_fetched quiet_env example_device 1 example_state
              [call_sa_path; call_get SMPPortInfo.a_LID; call_gids; call_disconnect]
              eq_refl eq_refl)
    as (_ & H1 & _ & H2 & H3).
  split; [exact H1|]. split; [exact H2|exact H3].
Defined.

(** A retry count of -1 against the quiet simulator, on fuel for five turns:
    six requests and no result. *)
Lemma execute_negative_retries_witness :
  exists s',
    SimUMAD._execute quiet_env 5 (example_mad 7) example_path_negative false
      example_state = (OutOfFuel, s') /\
    pkt_sent (net s') = repeat (example_datagram 2 1 0 24 (example_mad 7)) 6.
Proof.
  destruct (execute_negative_retries quiet_env (example_mad 7) example_path_negative
              (example_datagram 2 1 0 24 (example_mad 7)) example_state 5)
    as (s' & H1 & H2).
  - reflexivity.
  - simpl. lia.
  - exact quiet_env_no_data.
  - exists s'. split; [exact H1|exact H2].
Defined.

(** A payload of 70 bytes in a control envelope. *)
Lemma oversized_payload_truncated_witness :
  exists buf,
    struct_ctl.pack LittleEndian SIM_MAGIC 42 SIM_CTL_GET_PORTINFO 70
      (repeat Byte.x01 70) = Some buf /\
    struct_ctl.unpack LittleEndian buf =
      Some (SIM_MAGIC, 42, SIM_CTL_GET_PORTINFO, 70, repeat Byte.x01 64).
Proof.
  eexists. split; [reflexivity|].
  apply (oversized_payload_truncated LittleEndian SIM_MAGIC 42 SIM_CTL_GET_PORTINFO
           (repeat Byte.x01 70)).
  - simpl. lia.
  - reflexivity.
Defined.

(** The reply of the simulator and a data envelope decode and encode back;
    a data envelope with one byte more does not decode. *)
Lemma decode_encode_round_trip_witness :
  let d := example_datagram 1 2 0 24 (example_mad 7) in
  (exists m c t l p,
      struct_ctl.unpack LittleEndian example_reply = Some (m, c, t, l, p) /\
      struct_ctl.pack LittleEndian m c t l p = Some example_reply) /\
  (exists i q f n,
      struct_info.unpack LittleEndian (firstn 44 example_reply) = Some (i, q, f, n) /\
      struct_info.pack LittleEndian i q f n = Some (firstn 44 example_reply)) /\
  (exists dl sl dq sq st l p,
      struct_request.unpack d = Some (dl, sl, dq, sq, st, l, p) /\
      struct_request.pack dl sl dq sq st l p = Some d) /\
  struct_ctl.unpack LittleEndian d = None /\
  struct_request.unpack (d ++ [Byte.x00]) = None.
Proof.
  intros d. split; [|split; [|split; [|split]]].
  - apply (proj1 (decode_encode_round_trip LittleEndian example_reply)).
    reflexivity.
  - apply (proj1 (proj2 (decode_encode_round_trip LittleEndian
                           (firstn 44 example_reply)))).
    reflexivity.
  - apply (proj1 (proj2 (proj2 (decode_encode_round_trip LittleEndian d)))).
    reflexivity.
  - apply (proj1 (proj2 (proj2 (proj2 (decode_encode_round_trip LittleEndian d))))).
    vm_compute. discriminate.
  - apply (proj2 (proj2 (proj2 (proj2 (proj2
             (decode_encode_round_trip LittleEndian (d ++ [Byte.x00]))))))).
    vm_compute. discriminate.
Defined.

(** Three identifiers from a counter two below the modulus: the second one
    is zero. *)
Lemma new_TIDs_distinct_witness :
  let s := with_umad (fun u => mkUMAD (end_port u) (2 ^ 32 - 2) (trace_func u))
             example_state in
  fst (new_TIDs 3 s) = [2 ^ 32 - 1; 0; 1] /\ NoDup (fst (new_TIDs 3 s)).
Proof.
  intros s. destruct (new_TIDs_distinct 3 s) as (H1 & _ & _ & _ & H5).
  split; [rewrite H1; reflexivity|]. apply H5. vm_compute. discriminate.
Defined.

(** A simulator that echoes the request: the MAD of 24 bytes comes back
    with 232 NUL bytes behind it, on a path to LID 2 from LID 1. *)
Lemma sendto_recvfrom_round_trip_witness :
  let d := example_datagram 2 1 0 24 (example_mad 7) in
  let s1 := snd (SimUMAD.sendto (example_mad 7) example_path example_state) in
  fst (SimUMAD.recvfrom (talking_env d d) 5 s1) =
    Ok (Some (example_mad 7 ++ repeat Byte.x00 232, reply_path 1 2 1 1 1)) /\
  Struct.pack_s 256 (example_mad 7 ++ repeat Byte.x00 8) =
    Struct.pack_s 256 (example_mad 7).
Proof.
  intros d s1.
  destruct (sendto_recvfrom_round_trip (talking_env d d) (example_mad 7) example_path
              d 5 example_state) as (H1 & _ & H3 & H4).
  - reflexivity.
  - reflexivity.
  - reflexivity.
  - reflexivity.
  - reflexivity.
  - reflexivity.
  - split.
    + unfold s1. rewrite H1. rewrite H3 by (simpl; lia). reflexivity.
    + apply (H4 8%nat). simpl. lia.
Defined.

(** Silence at the first poll, the reply at the second: two sends, no call
    of the trace function. *)
Lemma execute_reply_after_resend_witness :
  let env := late_env (example_datagram 1 2 0 24 (example_mad 7)) in
  let req := example_datagram 2 1 0 24 (example_mad 7) in
  exists r s4,
    SimUMAD._execute env 2 (example_mad 7) example_path false example_state =
      (Ok (Some r), s4) /\
    firstn 24 (fst r) = example_mad 7 /\
    pkt_sent (net s4) = [req; req] /\
    traced (net s4) = [].
Proof.
  intros env req.
  edestruct (execute_reply_after_resend env (example_mad 7) example_path req
               example_state) with (fuel := 2%nat) as (H1 & H2 & H3).
  - reflexivity.
  - vm_compute. discriminate.
  - lazy. reflexivity.
  - lazy. reflexivity.
  - reflexivity.
  - lia.
  - eexists. eexists. split; [exact H1|].
    split; [reflexivity|]. split; [exact H2|exact H3].
Defined.


(** Replies to the transactions 9 and 8, then the reply to transaction 7:
    two calls of the trace function, one send. Replies to the transactions 9
    and 8, then silence, on a path with two retries: two calls of the trace
    function, three sends. *)
Lemma execute_skips_unexpected_witness :
  let d9 := example_datagram 1 2 0 24 (example_mad 9) in
  let d8 := example_datagram 1 2 0 24 (example_mad 8) in
  let d7 := example_datagram 1 2 0 24 (example_mad 7) in
  let req := example_datagram 2 1 0 24 (example_mad 7) in
  (exists r9 r8 r7 s3,
      SimUMAD._execute (script_env [d9; d8; d7]) 3 (example_mad 7) example_path false
        example_state = (Ok (Some r7), s3) /\
      firstn 24 (fst r9) = example_mad 9 /\
      firstn 24 (fst r8) = example_mad 8 /\
      firstn 24 (fst r7) = example_mad 7 /\
      traced (net s3) = [Build_TraceCall 0 TRACE_UNEXPECTED example_path r9;
                         Build_TraceCall 0 TRACE_UNEXPECTED example_path r8] /\
      pkt_sent (net s3) = [req]) /\
  (exists r9 r8 s',
      SimUMAD._execute (script_env [d9; d8]) 5 (example_mad 7) example_path false
        example_state = (Ok None, s') /\
      firstn 24 (fst r9) = example_mad 9 /\
      firstn 24 (fst r8) = example_mad 8 /\
      traced (net s') = [Build_TraceCall 0 TRACE_UNEXPECTED example_path r9;
                         Build_TraceCall 0 TRACE_UNEXPECTED example_path r8] /\
      pkt_sent (net s') = [req; req; req]).
Proof.
  intros d9 d8 d7 req. split.
  - edestruct (execute_skips_unexpected (script_env [d9; d8; d7]) (example_mad 7)
                 example_path req example_state) with (fuel := 3%nat) as [H _].
    + reflexivity.
    + eapply ru_cons; [lazy; reflexivity|reflexivity|].
      eapply ru_cons; [lazy; reflexivity|reflexivity|].
      apply ru_nil.
    + edestruct H as (H1 & H2 & H3).
      * lazy. reflexivity.
      * reflexivity.
      * simpl. lia.
      * eexists. eexists. eexists. eexists. split; [exact H1|].
        split; [|split; [|split; [|split; [exact H2|exact H3]]]]; reflexivity.
  - edestruct (execute_skips_unexpected (script_env [d9; d8]) (example_mad 7)
                 example_path req example_state) with (fuel := 5%nat) as (_ & H & _).
    + reflexivity.
    + eapply ru_cons; [lazy; reflexivity|reflexivity|].
      eapply ru_cons; [lazy; reflexivity|reflexivity|].
      apply ru_nil.
    + destruct H as (s' & H1 & H2 & H3).
      * intros wakeat s0 Hp. apply script_env_silent. exact Hp.
      * simpl. lia.
      * simpl. lia.
      * eexists. eexists. exists s'. split; [exact H1|].
        split; [|split; [|split; [exact H3|exact H2]]]; reflexivity.
Defined.

(** A port whose cache holds the prefix [fec0::]: its default GID has that
    prefix, and [gids] has two entries. *)
Lemma default_gid_has_cached_prefix_witness :
  let iid := [Byte.x01; Byte.x02; Byte.x03; Byte.x04; Byte.x05; Byte.x06; Byte.x07;
              Byte.x01] in
  fst (SimEndPort.default_gid quiet_env example_state_custom_prefix) =
    Ok (GID.mk 0xFEC0000000000000 iid) /\
  exists g,
    fst (SimEndPort.gids quiet_env example_state_custom_prefix) = Ok g /\
    List.length g = 2%nat /\
    last g (GID.mk 0 []) = GID.mk 0xFE80000000000000 iid.
Proof.
  intros iid.
  edestruct (default_gid_has_cached_prefix quiet_env example_state_custom_prefix)
    as (g & H1 & H2 & _ & H4 & _ & H6).
  - reflexivity.
  - lazy. reflexivity.
  - unfold uint. simpl. lia.
  - split; [rewrite H2; reflexivity|].
    exists g. split; [rewrite H1; reflexivity|].
    assert (Hl : List.length g = 2%nat) by (apply H6; vm_compute; discriminate).
    split; [exact Hl|].
    destruct g as [|a [|b [|c g]]]; try discriminate Hl. exact H4.
Defined.


(** The port as constructed: the path to LID 1 from LID 3 after one control
    call. *)
Lemma sa_path_from_one_reply_witness :
  exists path,
    fst (SimEndPort.sa_path quiet_env example_state) = Ok path /\
    IBPath.DLID path = 1 /\ IBPath.SLID path = 3 /\ IBPath.SL path = 0 /\
    List.length (ctl_sent (net (snd (SimEndPort.sa_path quiet_env example_state)))) =
      1%nat.
Proof.
  destruct (sa_path_from_one_reply quiet_env example_state 0)
    as (msg & path & H1 & H2 & H3 & H4 & _ & _ & _ & _ & H9 & _).
  - reflexivity.
  - reflexivity.
  - reflexivity.
  - reflexivity.
  - reflexivity.
  - unfold uint. simpl. lia.
  - unfold uint. simpl. lia.
  - reflexivity.
  - vm_compute. lia.
  - exists path. split; [exact H1|]. split; [rewrite H2; reflexivity|].
    split; [rewrite H3; reflexivity|]. split; [rewrite H4; reflexivity|].
    rewrite H9. reflexivity.
Defined.

(** The subnet is renumbered after the first derivation: a later read of
    the port leaves [fec0::] in the cache, and [gids] still has the one
    identifier with the prefix [fe80::]. *)
Lemma gids_fixed_after_first_witness :
  let iid := [Byte.x01; Byte.x02; Byte.x03; Byte.x04; Byte.x05; Byte.x06; Byte.x07;
              Byte.x01] in
  let g := [GID.mk 0xFE80000000000000 iid] in
  let s1 := snd (SimEndPort.gids renumbering_env example_state) in
  let s2 := run renumbering_env [call_get SMPPortInfo.a_LID; call_sa_path] s1 in
  SMPPortInfo.GIDPrefix (_port_info (port s2)) = 0xFEC0000000000000 /\
  SimEndPort.gids renumbering_env s2 = (Ok g, s2) /\
  SimEndPort.default_gid renumbering_env s2 = (Ok (GID.mk 0xFE80000000000000 iid), s2).
Proof.
  intros iid g s1 s2. split; [reflexivity|].
  apply (gids_fixed_after_first renumbering_env example_state s1 g
           [call_get SMPPortInfo.a_LID; call_sa_path]).
  reflexivity.
Defined.


(** A channel adapter with two ports, a switch with eight, and a simulator
    that is not listening. *)
Lemma device_ports_witness :
  (exists d ports,
      fst (SimDevice.__init__ (nodeinfo_env Byte.x01 Byte.x02) "sim0" example_state) =
        Ok (d, ports) /\
      node_guid d = 0x0102030405060708 /\ map fst ports = [1; 2]) /\
  (exists d ports,
      fst (SimDevice.__init__ (nodeinfo_env Byte.x02 Byte.x08) "sim0" example_state) =
        Ok (d, ports) /\
      map fst ports = [0]) /\
  fst (SimDevice.__init__ refused_env "sim0" example_state) = Raise (SocketError 111).
Proof.
  split; [|split].
  - destruct (proj1 (device_ports (nodeinfo_env Byte.x01 Byte.x02) "sim0" example_state))
      as (msg & _ & _ & _ & H & _); [unfold uint; simpl; lia|].
    destruct H as (ports & H1 & H2 & _); [reflexivity|vm_compute; lia|].
    eexists. exists ports. split; [exact H1|]. split; [reflexivity|].
    rewrite H2. reflexivity.
  - destruct (proj1 (device_ports (nodeinfo_env Byte.x02 Byte.x08) "sim0" example_state))
      as (msg & _ & _ & _ & H & _); [unfold uint; simpl; lia|].
    destruct H as (ports & H1 & H2 & _); [reflexivity|vm_compute; lia|].
    eexists. exists ports. split; [exact H1|]. rewrite H2. reflexivity.
  - destruct (proj1 (device_ports refused_env "sim0" example_state))
      as (msg & _ & _ & _ & _ & _ & H); [unfold uint; simpl; lia|].
    exact (H 111 eq_refl).
Defined.

(** A simulator that gives the client id 3, one that gives 70000, and one
    that is not listening. *)
Lemma connect_data_port_witness :
  let c3 := SimConnection.__init__ (connect_env 3) [] 0 0 example_state in
  let c70000 := SimConnection.__init__ (connect_env 70000) [] 0 0 example_state in
  let refused := SimConnection.__init__ refused_env [] 0 0 example_state in
  (fst c3 = Ok tt /\ _client_id (snd c3) = 3 /\ pkt_peer (snd c3) = Some 7074) /\
  (fst c70000 = Raise OverflowError /\ _client_id (snd c70000) = 70000 /\
   pkt_peer (snd c70000) = pkt_peer example_state) /\
  (fst refused = Raise (SocketError 111) /\
   pkt_peer (snd refused) = pkt_peer example_state).
Proof.
  intros c3 c70000 refused. subst c3 c70000 refused. split; [|split].
  - destruct (proj2 (connect_data_port (connect_env 3) [] 0 0 example_state))
      as (msg & payload & _ & _ & _ & _ & H & _);
      [reflexivity | unfold uint; simpl; lia..|].
    destruct H as (H1 & H2 & _); [reflexivity|vm_compute; lia|].
    destruct H2 as (H2 & H3); [vm_compute; split; discriminate|reflexivity|].
    split; [exact H2|]. split; [rewrite H1; reflexivity|rewrite H3; reflexivity].
  - destruct (proj2 (connect_data_port (connect_env 70000) [] 0 0 example_state))
      as (msg & payload & _ & _ & _ & _ & H & _);
      [reflexivity | unfold uint; simpl; lia..|].
    destruct H as (H1 & _ & H2 & _); [reflexivity|vm_compute; lia|].
    destruct H2 as (H2 & H3); [vm_compute; intros [_ H]; apply H; reflexivity|].
    split; [exact H2|]. split; [rewrite H1; reflexivity|exact H3].
  - destruct (proj2 (connect_data_port refused_env [] 0 0 example_state))
      as (msg & payload & _ & _ & _ & _ & _ & _ & H);
      [reflexivity | unfold uint; simpl; lia..|].
    exact (H 111 eq_refl).
Defined.

(** A port info call that is answered, one that is refused, and one of a
    session whose client id has 33 bits. *)
Lemma ctl_call_outcome_witness :
  (exists r,
      fst (SimConnection._ctl quiet_env SIM_CTL_GET_PORTINFO [Byte.x01] example_state) =
        Ok r /\
      r = (SIM_MAGIC, 42, SIM_CTL_GET_PORTINFO, 64, example_portinfo)) /\
  fst (SimConnection._ctl refused_env SIM_CTL_GET_PORTINFO [Byte.x01] example_state) =
    Raise (SocketError 111) /\
  SimConnection._ctl quiet_env SIM_CTL_GET_PORTINFO [Byte.x01]
    (with_client_id (2 ^ 32) example_state) =
    (Raise StructError, with_client_id (2 ^ 32) example_state).
Proof.
  split; [|split].
  - destruct (proj1 (ctl_call_outcome quiet_env SIM_CTL_GET_PORTINFO [Byte.x01]
                       example_state))
      as (msg & _ & _ & _ & _ & H & _); [unfold uint; split; vm_compute; first [reflexivity|discriminate]..|].
    eexists. split; [apply H; [reflexivity|vm_compute; lia]|]. reflexivity.
  - destruct (proj1 (ctl_call_outcome refused_env SIM_CTL_GET_PORTINFO [Byte.x01]
                       example_state))
      as (msg & _ & _ & _ & _ & _ & _ & H); [unfold uint; split; vm_compute; first [reflexivity|discriminate]..|].
    exact (H 111 eq_refl).
  - apply (proj2 (ctl_call_outcome quiet_env SIM_CTL_GET_PORTINFO [Byte.x01]
                    (with_client_id (2 ^ 32) example_state))).
    unfold uint. intros ((_ & H) & _). vm_compute in H. discriminate.
Defined.

(** A deadline already passed, a datagram of 280 bytes, one of 281 bytes and
    a receive that is refused: the last three take one datagram off the
    socket. *)
Lemma recvfrom_consumption_witness :
  let d := example_datagram 1 2 0 24 (example_mad 7) in
  let past := SimUMAD.recvfrom quiet_env 0 example_state in
  let good := SimUMAD.recvfrom (talking_env d d) 5 example_state in
  let long := SimUMAD.recvfrom (talking_env (d ++ [Byte.x00]) d) 5 example_state in
  let refused := SimUMAD.recvfrom refused_env 5 example_state in
  (fst past = Ok None /\ pkt_polls (net (snd past)) = 0%nat /\
   pkt_recvs (net (snd past)) = 0%nat) /\
  ((exists pkt path, fst good = Ok (Some (pkt, path))) /\
   pkt_recvs (net (snd good)) = 1%nat) /\
  (fst long = Raise StructError /\ pkt_recvs (net (snd long)) = 1%nat) /\
  (fst refused = Raise (SocketError 111) /\ pkt_recvs (net (snd refused)) = 1%nat).
Proof.
  intros d past good long refused. subst past good long refused.
  split; [|split; [|split]].
  - destruct (recvfrom_consumption quiet_env 0 example_state) as (_ & _ & H & _).
    destruct H as (H1 & H2 & H3); [apply Qle_bool_iff; reflexivity|].
    split; [exact H1|]. split; [rewrite H2|rewrite H3]; reflexivity.
  - destruct (recvfrom_consumption (talking_env d d) 5 example_state)
      as (_ & _ & _ & H).
    destruct H as (_ & _ & _ & H); [reflexivity|].
    destruct H as (H1 & _ & _ & H2); [reflexivity..|].
    destruct H2 as (pkt & path & H2 & _); [reflexivity..|].
    split; [exists pkt, path; exact H2|rewrite H1; reflexivity].
  - destruct (recvfrom_consumption (talking_env (d ++ [Byte.x00]) d) 5 example_state)
      as (_ & _ & _ & H).
    destruct H as (_ & _ & _ & H); [reflexivity|].
    destruct H as (H1 & _ & H2 & _); [reflexivity..|].
    split; [apply H2; [reflexivity|vm_compute; discriminate]|rewrite H1; reflexivity].
  - destruct (recvfrom_consumption refused_env 5 example_state) as (_ & _ & _ & H).
    destruct H as (_ & _ & _ & H); [reflexivity|].
    destruct H as (H1 & H2 & _); [reflexivity..|].
    split; [exact (H2 111 eq_refl)|rewrite H1; reflexivity].
Defined.
